(** * SerialPort-Eddy: the sweep / framing core of [src/App.tsx]

    A shallow embedding of the byte codec ([src/utils/hexUtils.ts]), of the
    frame reassembler ([handleDataReceived], [processRxBuffer],
    [parseAndRecord]) and of the sweep controller ([tickAutoSend],
    [toggleAutoSend], [sendData]) of [src/App.tsx], followed by the
    properties of the specification that concern them.

    Modelling conventions.
    - A JavaScript Number that holds an integer is a [Z]; the 32-bit
      conversion done by the bit operators is written out ([toInt32]).
    - A [Uint8Array] is a [list Z] whose elements lie in [0, 256).
    - A JavaScript string is a [string]; [NaN] and a thrown exception are
      [None].  [parseInt] is exact on the range texts it is given here (up
      to 13 hex digits; a double rounds longer ones).
    - The frequency [(currentVal / 65536) * 32000] is a rational [Q]: the two
      double operations are exact for every counter below 2^38 in absolute
      value (a division by a power of two, then a product that fits in 53
      bits), so the rational is the double.  [toFixed(4)] is the decimal
      rounding of that exact value; the chart abscissa is the rational that
      the decimal text denotes ([Number] then takes the nearest double).
    - React state setters are applied in program order on one record; the
      refs and the state they mirror are one field.  A callback runs to its
      end before the next one starts (the [await] inside [tickAutoSend] is
      not a scheduling point of the model).  Time stamps, log identifiers,
      the elapsed-time display and the export history ([fullLogHistory]) are
      left out. *)

From Stdlib Require Import ZArith QArith Qround List String Ascii Bool Lia.
From Equations Require Import Equations.
Import ListNotations.

Close Scope Q_scope.
Open Scope Z_scope.

(* ------------------------------------------------------------------------- *)
(** ** JavaScript numbers *)

(** [ToInt32]: the conversion every bitwise operator applies to its operands. *)
Definition toInt32 (v : Z) : Z := (v + 2 ^ 31) mod 2 ^ 32 - 2 ^ 31.

(* ------------------------------------------------------------------------- *)
(** ** src/utils/hexUtils.ts *)

Module HexUtils.

Definition isHexDigit (c : ascii) : bool :=
  let n := Z.of_nat (nat_of_ascii c) in
  ((48 <=? n) && (n <=? 57)) || ((65 <=? n) && (n <=? 70))
  || ((97 <=? n) && (n <=? 102)).

(** [toUpperCase] on one character of the ASCII range. *)
Definition toUpperChar (c : ascii) : ascii :=
  let n := nat_of_ascii c in
  if ((97 <=? n) && (n <=? 122))%nat then ascii_of_nat (n - 32) else c.

Fixpoint toUpperCase (s : string) : string :=
  match s with
  | EmptyString => EmptyString
  | String c rest => String (toUpperChar c) (toUpperCase rest)
  end.

(** [input.replace(/[^0-9A-Fa-f]/g, '')] *)
Fixpoint stripNonHex (input : string) : string :=
  match input with
  | EmptyString => EmptyString
  | String c rest =>
      if isHexDigit c then String c (stripNonHex rest) else stripNonHex rest
  end.

Definition cleanHexString (input : string) : string :=
  toUpperCase (stripNonHex input).

Definition hexDigitValue (c : ascii) : option Z :=
  let n := Z.of_nat (nat_of_ascii c) in
  if (48 <=? n) && (n <=? 57) then Some (n - 48)
  else if (65 <=? n) && (n <=? 70) then Some (n - 55)
  else if (97 <=? n) && (n <=? 102) then Some (n - 87)
  else None.

Fixpoint parseHexDigits (s : string) (acc : Z) : Z :=
  match s with
  | EmptyString => acc
  | String c rest =>
      match hexDigitValue c with
      | Some d => parseHexDigits rest (acc * 16 + d)
      | None => acc
      end
  end.

(** [parseInt(s, 16)] on text that went through the hex filter (no sign, no
    blank, no prefix can be left): the leading hex digits are read, and the
    result is [NaN] ([None]) when there is none. *)
Definition parseInt16 (s : string) : option Z :=
  match s with
  | EmptyString => None
  | String c _ =>
      match hexDigitValue c with
      | Some _ => Some (parseHexDigits s 0)
      | None => None
      end
  end.

(** What a [Uint8Array] cell keeps of the number stored in it. *)
Definition toUint8 (v : option Z) : Z :=
  match v with
  | Some n => n mod 256
  | None => 0
  end.

(** [cleaned.match(/.{1,2}/g)]: the text cut in pieces of two characters, the
    last one shorter when the length is odd. *)
Fixpoint chunksOfTwo (s : string) : list string :=
  match s with
  | EmptyString => []
  | String a EmptyString => [String a EmptyString]
  | String a (String b rest) => String a (String b EmptyString) :: chunksOfTwo rest
  end.

Definition formatHexString (input : string) : string :=
  String.concat " " (chunksOfTwo (cleanHexString input)).

(** The loop of [hexToUint8Array] over an even-length cleaned text. *)
Fixpoint hexPairs (cleaned : string) : list Z :=
  match cleaned with
  | String a (String b rest) =>
      toUint8 (parseInt16 (String a (String b EmptyString))) :: hexPairs rest
  | _ => []
  end.

(** [None] is the thrown [Error('Invalid hex string length')]. *)
Definition hexToUint8Array (hexString : string) : option (list Z) :=
  let cleaned := cleanHexString hexString in
  if Nat.even (String.length cleaned) then Some (hexPairs cleaned) else None.

Definition hexChar (d : Z) : ascii :=
  if d <? 10 then ascii_of_nat (Z.to_nat (48 + d))
  else ascii_of_nat (Z.to_nat (87 + d)).

(** [b.toString(16)] for a cell of a [Uint8Array]. *)
Definition toString16 (b : Z) : string :=
  if b <? 16 then String (hexChar b) EmptyString
  else String (hexChar (b / 16)) (String (hexChar (b mod 16)) EmptyString).

(** [s.padStart(2, '0')] *)
Definition padStart2 (s : string) : string :=
  match s with
  | EmptyString => "00"
  | String a EmptyString => String "0" (String a EmptyString)
  | _ => s
  end.

Definition byteToHex (b : Z) : string :=
  toUpperCase (padStart2 (toString16 b)).

Definition uint8ArrayToHex (buffer : list Z) : string :=
  String.concat " " (map byteToHex buffer).

Definition bytesToDecimal (highByte lowByte : Z) : Z :=
  Z.lor (toInt32 (Z.shiftl (toInt32 highByte) 8)) (toInt32 lowByte).

Definition decimalToBytes (value : Z) : Z * Z :=
  let high := Z.land (Z.shiftr (toInt32 value) 8) 255 in
  let low := Z.land (toInt32 value) 255 in
  (high, low).

End HexUtils.

Import HexUtils.

(* ------------------------------------------------------------------------- *)
(** ** src/App.tsx: the data *)

Inductive LogType := LogTx | LogRx | LogInfo | LogError.

(** The text of a log line.  A hex dump is kept as it is; every other line is
    one fixed message of the source, with the values it interpolates. *)
Inductive LogData :=
| HexDump (hex : string)
| PortNotOpen
| SendFailed
| SweepComplete
| TargetByteIndexOutOfBounds (index : Z)
| InvalidHexOrConfig
| InvalidStartEndHexValues
| StartingSweep (startHex endHex : string) (step expectedPoints : Z).

Record LogEntry := { type : LogType; data : LogData }.

(** A point of [chartData], as [parseAndRecord] builds it. *)
Record ChartDataPoint := { x : Q; y : Z }.

Record Stats := { tx : Z; rx : Z; invalid : Z }.

(** The settings the callbacks read; they do not change during a sweep. *)
Record Config := {
  sweepBaseHex : string;
  rangeStartHex : string;
  rangeEndHex : string;
  incrementStep : Z;
  targetByteIndex : Z;
  isBigEndian : bool;
  rxByteIndex : Z;
  rxIsBigEndian : bool;
  enableHeaderCheck : bool
}.

(** What [sendData] meets: no writer or a port that is not connected, a write
    that resolves, or a write that rejects. *)
Inductive Port := PortClosed | PortWrites | PortRejects.

(** The refs and state variables of the sweep, with [written] the sequence of
    arrays handed to [writer.write]. *)
Record Session := {
  rxBuffer : list Z;
  counterRef : Z;
  pendingFrequencyRef : option Q;
  lastSentHexRef : option string;
  waitingForResponseRef : bool;
  isAutoSending : bool;
  isRetrying : bool;
  isRxInvalid : bool;
  lastReceivedValue : option Z;
  chartData : list ChartDataPoint;
  stats : Stats;
  logs : list LogEntry;
  written : list (list Z)
}.

Definition setRxBuffer (v : list Z) (s : Session) : Session :=
  {| rxBuffer := v; counterRef := counterRef s;
     pendingFrequencyRef := pendingFrequencyRef s;
     lastSentHexRef := lastSentHexRef s;
     waitingForResponseRef := waitingForResponseRef s;
     isAutoSending := isAutoSending s; isRetrying := isRetrying s;
     isRxInvalid := isRxInvalid s; lastReceivedValue := lastReceivedValue s;
     chartData := chartData s; stats := stats s; logs := logs s;
     written := written s |}.

Definition setCounter (v : Z) (s : Session) : Session :=
  {| rxBuffer := rxBuffer s; counterRef := v;
     pendingFrequencyRef := pendingFrequencyRef s;
     lastSentHexRef := lastSentHexRef s;
     waitingForResponseRef := waitingForResponseRef s;
     isAutoSending := isAutoSending s; isRetrying := isRetrying s;
     isRxInvalid := isRxInvalid s; lastReceivedValue := lastReceivedValue s;
     chartData := chartData s; stats := stats s; logs := logs s;
     written := written s |}.

Definition setPendingFrequency (v : option Q) (s : Session) : Session :=
  {| rxBuffer := rxBuffer s; counterRef := counterRef s;
     pendingFrequencyRef := v;
     lastSentHexRef := lastSentHexRef s;
     waitingForResponseRef := waitingForResponseRef s;
     isAutoSending := isAutoSending s; isRetrying := isRetrying s;
     isRxInvalid := isRxInvalid s; lastReceivedValue := lastReceivedValue s;
     chartData := chartData s; stats := stats s; logs := logs s;
     written := written s |}.

Definition setLastSentHex (v : option string) (s : Session) : Session :=
  {| rxBuffer := rxBuffer s; counterRef := counterRef s;
     pendingFrequencyRef := pendingFrequencyRef s;
     lastSentHexRef := v;
     waitingForResponseRef := waitingForResponseRef s;
     isAutoSending := isAutoSending s; isRetrying := isRetrying s;
     isRxInvalid := isRxInvalid s; lastReceivedValue := lastReceivedValue s;
     chartData := chartData s; stats := stats s; logs := logs s;
     written := written s |}.

Definition setWaitingForResponse (v : bool) (s : Session) : Session :=
  {| rxBuffer := rxBuffer s; counterRef := counterRef s;
     pendingFrequencyRef := pendingFrequencyRef s;
     lastSentHexRef := lastSentHexRef s;
     waitingForResponseRef := v;
     isAutoSending := isAutoSending s; isRetrying := isRetrying s;
     isRxInvalid := isRxInvalid s; lastReceivedValue := lastReceivedValue s;
     chartData := chartData s; stats := stats s; logs := logs s;
     written := written s |}.

Definition setIsAutoSending (v : bool) (s : Session) : Session :=
  {| rxBuffer := rxBuffer s; counterRef := counterRef s;
     pendingFrequencyRef := pendingFrequencyRef s;
     lastSentHexRef := lastSentHexRef s;
     waitingForResponseRef := waitingForResponseRef s;
     isAutoSending := v; isRetrying := isRetrying s;
     isRxInvalid := isRxInvalid s; lastReceivedValue := lastReceivedValue s;
     chartData := chartData s; stats := stats s; logs := logs s;
     written := written s |}.

Definition setIsRetrying (v : bool) (s : Session) : Session :=
  {| rxBuffer := rxBuffer s; counterRef := counterRef s;
     pendingFrequencyRef := pendingFrequencyRef s;
     lastSentHexRef := lastSentHexRef s;
     waitingForResponseRef := waitingForResponseRef s;
     isAutoSending := isAutoSending s; isRetrying := v;
     isRxInvalid := isRxInvalid s; lastReceivedValue := lastReceivedValue s;
     chartData := chartData s; stats := stats s; logs := logs s;
     written := written s |}.

Definition setIsRxInvalid (v : bool) (s : Session) : Session :=
  {| rxBuffer := rxBuffer s; counterRef := counterRef s;
     pendingFrequencyRef := pendingFrequencyRef s;
     lastSentHexRef := lastSentHexRef s;
     waitingForResponseRef := waitingForResponseRef s;
     isAutoSending := isAutoSending s; isRetrying := isRetrying s;
     isRxInvalid := v; lastReceivedValue := lastReceivedValue s;
     chartData := chartData s; stats := stats s; logs := logs s;
     written := written s |}.

Definition setLastReceivedValue (v : option Z) (s : Session) : Session :=
  {| rxBuffer := rxBuffer s; counterRef := counterRef s;
     pendingFrequencyRef := pendingFrequencyRef s;
     lastSentHexRef := lastSentHexRef s;
     waitingForResponseRef := waitingForResponseRef s;
     isAutoSending := isAutoSending s; isRetrying := isRetrying s;
     isRxInvalid := isRxInvalid s; lastReceivedValue := v;
     chartData := chartData s; stats := stats s; logs := logs s;
     written := written s |}.

Definition setChartData (v : list ChartDataPoint) (s : Session) : Session :=
  {| rxBuffer := rxBuffer s; counterRef := counterRef s;
     pendingFrequencyRef := pendingFrequencyRef s;
     lastSentHexRef := lastSentHexRef s;
     waitingForResponseRef := waitingForResponseRef s;
     isAutoSending := isAutoSending s; isRetrying := isRetrying s;
     isRxInvalid := isRxInvalid s; lastReceivedValue := lastReceivedValue s;
     chartData := v; stats := stats s; logs := logs s;
     written := written s |}.

Definition setStats (v : Stats) (s : Session) : Session :=
  {| rxBuffer := rxBuffer s; counterRef := counterRef s;
     pendingFrequencyRef := pendingFrequencyRef s;
     lastSentHexRef := lastSentHexRef s;
     waitingForResponseRef := waitingForResponseRef s;
     isAutoSending := isAutoSending s; isRetrying := isRetrying s;
     isRxInvalid := isRxInvalid s; lastReceivedValue := lastReceivedValue s;
     chartData := chartData s; stats := v; logs := logs s;
     written := written s |}.

Definition setLogs (v : list LogEntry) (s : Session) : Session :=
  {| rxBuffer := rxBuffer s; counterRef := counterRef s;
     pendingFrequencyRef := pendingFrequencyRef s;
     lastSentHexRef := lastSentHexRef s;
     waitingForResponseRef := waitingForResponseRef s;
     isAutoSending := isAutoSending s; isRetrying := isRetrying s;
     isRxInvalid := isRxInvalid s; lastReceivedValue := lastReceivedValue s;
     chartData := chartData s; stats := stats s; logs := v;
     written := written s |}.

Definition setWritten (v : list (list Z)) (s : Session) : Session :=
  {| rxBuffer := rxBuffer s; counterRef := counterRef s;
     pendingFrequencyRef := pendingFrequencyRef s;
     lastSentHexRef := lastSentHexRef s;
     waitingForResponseRef := waitingForResponseRef s;
     isAutoSending := isAutoSending s; isRetrying := isRetrying s;
     isRxInvalid := isRxInvalid s; lastReceivedValue := lastReceivedValue s;
     chartData := chartData s; stats := stats s; logs := logs s;
     written := v |}.

(** [setStats(prev => ({ ...prev, tx: prev.tx + 1 }))] and its two siblings. *)
Definition countTx (s : Session) : Session :=
  setStats {| tx := tx (stats s) + 1; rx := rx (stats s);
              invalid := invalid (stats s) |} s.

Definition countRx (s : Session) : Session :=
  setStats {| tx := tx (stats s); rx := rx (stats s) + 1;
              invalid := invalid (stats s) |} s.

Definition countInvalid (s : Session) : Session :=
  setStats {| tx := tx (stats s); rx := rx (stats s);
              invalid := invalid (stats s) + 1 |} s.

Definition addLog (t : LogType) (d : LogData) (s : Session) : Session :=
  setLogs (logs s ++ [{| type := t; data := d |}]) s.

(** The state of a freshly mounted component. *)
Definition initialSession : Session :=
  {| rxBuffer := []; counterRef := 0; pendingFrequencyRef := None;
     lastSentHexRef := None; waitingForResponseRef := false;
     isAutoSending := false; isRetrying := false; isRxInvalid := false;
     lastReceivedValue := None; chartData := [];
     stats := {| tx := 0; rx := 0; invalid := 0 |}; logs := [];
     written := [] |}.

(** The default settings of the component ([useState] initial values). *)
Definition defaultConfig : Config :=
  {| sweepBaseHex := "05 43 46 0D 46 04 00 0D";
     rangeStartHex := "0000"; rangeEndHex := "00C8"; incrementStep := 3;
     targetByteIndex := 3; isBigEndian := true;
     rxByteIndex := 6; rxIsBigEndian := true; enableHeaderCheck := true |}.

(* ------------------------------------------------------------------------- *)
(** ** src/App.tsx: the operations *)

(** [buffer[i]]; [None] is [undefined]. *)
Definition byteAt (buffer : list Z) (i : Z) : option Z :=
  if i <? 0 then None else nth_error buffer (Z.to_nat i).

(** An operand of a bit operator: [undefined] converts to 0. *)
Definition operand (v : option Z) : Z :=
  match v with
  | Some n => n
  | None => 0
  end.

(** [buffer.slice(ptr)] for [ptr >= 0]. *)
Definition slice (buffer : list Z) (ptr : Z) : list Z :=
  skipn (Z.to_nat ptr) buffer.

(** [arr[i] = v] on a plain array: an index past the end extends the array,
    the holes reading as 0 once copied into a [Uint8Array]; a negative index
    adds a property and leaves the elements alone. *)
Definition arraySet (arr : list Z) (i v : Z) : list Z :=
  if i <? 0 then arr
  else if i <? Z.of_nat (List.length arr)
  then firstn (Z.to_nat i) arr ++ v :: skipn (S (Z.to_nat i)) arr
  else arr ++ repeat 0 (Z.to_nat i - List.length arr) ++ [v].

(** [a > b] where [b] may be [NaN]. *)
Definition gtNumber (a : Z) (b : option Z) : bool :=
  match b with
  | Some n => n <? a
  | None => false
  end.

(** A string used as a condition. *)
Definition truthy (s : string) : bool :=
  match s with
  | EmptyString => false
  | _ => true
  end.

(** [(currentVal / 65536) * 32000] *)
Definition frequencyOf (currentVal : Z) : Q :=
  ((inject_Z currentVal / 65536) * 32000)%Q.

(** [Number(v.toFixed(4))]: the multiple of 1/10000 nearest to [v], the larger
    one in magnitude on a tie. *)
Definition roundHalfUp4 (v : Q) : Q :=
  Qmake (Qfloor (v * 10000 + (1 # 2))%Q) 10000.

Definition toFixed4 (v : Q) : Q :=
  if Qle_bool 0 v then roundHalfUp4 v else Qopp (roundHalfUp4 (Qopp v)).

Definition HEADER : list Z := [0xFF; 0xFE; 0xFD; 0xFC; 0x02; 0x56].
Definition FOOTER : list Z := [0xFB; 0xFA; 0xF9; 0xF8].
Definition PACKET_LEN : Z := 15.

(** The two [for] loops of [processRxBuffer]: does [buffer] hold [pattern] at
    [offset]? *)
Fixpoint matchesAt (pattern buffer : list Z) (offset : Z) : bool :=
  match pattern with
  | [] => true
  | p :: rest =>
      match byteAt buffer offset with
      | Some b => if b =? p then matchesAt rest buffer (offset + 1) else false
      | None => false
      end
  end.

Definition decodeRx (cfg : Config) (b1 b2 : Z) : Z :=
  if rxIsBigEndian cfg then bytesToDecimal b1 b2 else bytesToDecimal b2 b1.

Definition sendData (port : Port) (hexString : string) (s : Session) : Session :=
  match port with
  | PortClosed => addLog LogError PortNotOpen s
  | PortWrites =>
      match hexToUint8Array hexString with
      | Some bytes =>
          countTx (addLog LogTx (HexDump (formatHexString hexString))
                     (setWritten (written s ++ [bytes]) s))
      | None => setIsAutoSending false (addLog LogError SendFailed s)
      end
  | PortRejects => setIsAutoSending false (addLog LogError SendFailed s)
  end.

Definition parseAndRecord (cfg : Config) (b1 b2 : Z) (s : Session) : Session :=
  let receivedValue := decodeRx cfg b1 b2 in
  let s1 := setIsRxInvalid false (setLastReceivedValue (Some receivedValue) s) in
  match pendingFrequencyRef s1 with
  | Some pending =>
      let freq := toFixed4 pending in
      setChartData (chartData s1 ++ [{| x := freq; y := receivedValue |}]) s1
  | None => s1
  end.

(** The valid-packet branch of [processRxBuffer], up to its [return]. *)
Definition acceptPacket (cfg : Config) (buffer : list Z) (ptr b1 b2 : Z)
  (s : Session) : Session :=
  let s := parseAndRecord cfg b1 b2 s in
  let s := countRx s in
  let s := setWaitingForResponse false s in
  let s := setIsRetrying false s in
  let s := setIsRxInvalid false s in
  setRxBuffer (slice buffer (ptr + PACKET_LEN)) s.

(** How the [while] loop of [processRxBuffer] ends: by the [return] of the
    valid-packet branch, or by its condition failing at [ptr]. *)
Inductive Scan :=
| Returned (s : Session)
| Exited (ptr : Z) (s : Session).

Equations? scanLoop (cfg : Config) (buffer : list Z) (ptr : Z) (s : Session)
  : Scan by wf (Z.to_nat (Z.of_nat (List.length buffer) - ptr)) lt :=
  scanLoop cfg buffer ptr s with Z_le_gt_dec ptr (Z.of_nat (List.length buffer) - PACKET_LEN) => {
    | right _ := Exited ptr s
    | left _ :=
        if matchesAt HEADER buffer ptr then
          if matchesAt FOOTER buffer (ptr + 11) then
            let b1 := operand (byteAt buffer (ptr + 6)) in
            let b2 := operand (byteAt buffer (ptr + 7)) in
            let val := decodeRx cfg b1 b2 in
            if (0 <=? val) && (val <=? 4096) then
              Returned (acceptPacket cfg buffer ptr b1 b2 s)
            else scanLoop cfg buffer (ptr + PACKET_LEN) (countInvalid s)
          else scanLoop cfg buffer (ptr + 1) (countInvalid s)
        else scanLoop cfg buffer (ptr + 1) s }.
Proof.
  all: unfold PACKET_LEN in *; lia.
Qed.

Definition processRxBuffer (cfg : Config) (s : Session) : Session :=
  let buffer := rxBuffer s in
  match scanLoop cfg buffer 0 s with
  | Returned s' => s'
  | Exited ptr s' =>
      let s1 := if 0 <? ptr then setRxBuffer (slice buffer ptr) s' else s' in
      if waitingForResponseRef s1
      then setLastReceivedValue None (setIsRxInvalid true s1)
      else s1
  end.

Definition handleDataReceived (cfg : Config) (chunk : list Z) (s : Session)
  : Session :=
  let s1 := addLog LogRx (HexDump (uint8ArrayToHex chunk)) s in
  let s2 := setRxBuffer (rxBuffer s1 ++ chunk) s1 in
  if enableHeaderCheck cfg then processRxBuffer cfg s2
  else if rxByteIndex cfg + 1 <? Z.of_nat (List.length (rxBuffer s2)) then
    let b1 := operand (byteAt (rxBuffer s2) (rxByteIndex cfg)) in
    let b2 := operand (byteAt (rxBuffer s2) (rxByteIndex cfg + 1)) in
    setRxBuffer [] (countRx (parseAndRecord cfg b1 b2 s2))
  else s2.

(** [totalSweepPoints]: the estimate shown next to the range, and logged when
    a sweep starts. *)
Definition totalSweepPoints (cfg : Config) : Z :=
  match parseInt16 (stripNonHex (rangeStartHex cfg)),
        parseInt16 (stripNonHex (rangeEndHex cfg)) with
  | Some startDec, Some endDec =>
      if (incrementStep cfg <=? 0) || (endDec <? startDec) then 0
      else (endDec - startDec) / incrementStep cfg + 1
  | _, _ => 0
  end.

(** Step 2 of [tickAutoSend]: the two bytes of the counter written into a
    copy of the template, and the copy turned into a [Uint8Array]. *)
Definition buildCommand (cfg : Config) (baseBytes : list Z) (currentVal : Z)
  : list Z :=
  let '(high, low) := decimalToBytes currentVal in
  let baseBytes :=
    if isBigEndian cfg
    then arraySet (arraySet baseBytes (targetByteIndex cfg) high)
                  (targetByteIndex cfg + 1) low
    else arraySet (arraySet baseBytes (targetByteIndex cfg) low)
                  (targetByteIndex cfg + 1) high in
  map (fun v => v mod 256) baseBytes.

Definition tickAutoSend (cfg : Config) (port : Port) (s : Session) : Session :=
  if enableHeaderCheck cfg && waitingForResponseRef s then
    match lastSentHexRef s with
    | Some lastSent =>
        if truthy lastSent then sendData port lastSent (setIsRetrying true s)
        else s
    | None => s
    end
  else
    let s := setIsRetrying false s in
    let endValDecimal := parseInt16 (stripNonHex (rangeEndHex cfg)) in
    if gtNumber (counterRef s) endValDecimal then
      addLog LogInfo SweepComplete (setIsAutoSending false s)
    else
      match hexToUint8Array (sweepBaseHex cfg) with
      | None => addLog LogError InvalidHexOrConfig (setIsAutoSending false s)
      | Some baseBytes =>
          if (targetByteIndex cfg <? 0)
             || (Z.of_nat (List.length baseBytes) - 1 <=? targetByteIndex cfg)
          then
            setIsAutoSending false
              (addLog LogError (TargetByteIndexOutOfBounds (targetByteIndex cfg)) s)
          else
            let currentVal := counterRef s in
            let command := buildCommand cfg baseBytes currentVal in
            let frequency := frequencyOf currentVal in
            let s := setPendingFrequency (Some frequency) s in
            let newHexStr := uint8ArrayToHex command in
            let s := setLastSentHex (Some newHexStr) s in
            let s := sendData port newHexStr s in
            let s :=
              if enableHeaderCheck cfg
              then setIsRxInvalid false (setWaitingForResponse true s)
              else s in
            setCounter (currentVal + incrementStep cfg) s
      end.

Definition toggleAutoSend (cfg : Config) (s : Session) : Session :=
  if isAutoSending s then
    setRxBuffer []
      (setIsRetrying false
         (setWaitingForResponse false (setIsAutoSending false s)))
  else
    match parseInt16 (stripNonHex (rangeStartHex cfg)),
          parseInt16 (stripNonHex (rangeEndHex cfg)) with
    | Some startDec, Some _ =>
        let s := setCounter startDec s in
        let s := setChartData [] s in
        let s := setPendingFrequency None s in
        let s := setWaitingForResponse false s in
        let s := setIsRetrying false s in
        let s := setIsRxInvalid false s in
        let s := setRxBuffer [] s in
        let s := setStats {| tx := 0; rx := 0; invalid := 0 |} s in
        let s := setIsAutoSending true s in
        addLog LogInfo
          (StartingSweep (rangeStartHex cfg) (rangeEndHex cfg)
             (incrementStep cfg) (totalSweepPoints cfg)) s
    | _, _ => addLog LogError InvalidStartEndHexValues s
    end.

(* ------------------------------------------------------------------------- *)
(** ** Vocabulary of the statements *)

(** A cell of a [Uint8Array]. *)
Definition isByte (b : Z) : Prop := 0 <= b < 256.

(** The check that one byte survives [uint8ArrayToHex] then
    [hexToUint8Array]; it is run over the 256 bytes below. *)
Definition byteRoundTrips (b : Z) : bool :=
  match byteToHex b with
  | String c1 (String c2 EmptyString) =>
      isHexDigit c1 && isHexDigit c2
      && Ascii.eqb (toUpperChar c1) c1 && Ascii.eqb (toUpperChar c2) c2
      && (toUint8 (parseInt16 (String c1 (String c2 EmptyString))) =? b)
  | _ => false
  end.

(** [k] header false-positives or out-of-range packets counted. *)
Definition addInvalid (k : Z) (s : Session) : Session :=
  setStats {| tx := tx (stats s); rx := rx (stats s);
              invalid := invalid (stats s) + k |} s.

(** The first two statements of [handleDataReceived]: log the chunk, append
    it to the buffer. *)
Definition buffered (chunk : list Z) (s : Session) : Session :=
  setRxBuffer (rxBuffer s ++ chunk)
    (addLog LogRx (HexDump (uint8ArrayToHex chunk)) s).

(** The scan of [buffer] ends in the valid-packet branch. *)
Definition findsValidPacket (cfg : Config) (buffer : list Z) : Prop :=
  exists s r, scanLoop cfg buffer 0 s = Returned r.

(** Two sessions that differ at most by their log. *)
Definition sameButLogs (s1 s2 : Session) : Prop :=
  setLogs [] s1 = setLogs [] s2.

(** The conditions under which [tickAutoSend] reaches its step 2 with the
    template [baseBytes]: not held by the lock-step, counter within range,
    template well formed and long enough for the two counter bytes. *)
Definition advances (cfg : Config) (baseBytes : list Z) (s : Session) : Prop :=
  enableHeaderCheck cfg && waitingForResponseRef s = false
  /\ gtNumber (counterRef s) (parseInt16 (stripNonHex (rangeEndHex cfg))) = false
  /\ hexToUint8Array (sweepBaseHex cfg) = Some baseBytes
  /\ 0 <= targetByteIndex cfg < Z.of_nat (List.length baseBytes) - 1.

(** The end of step 5 of [tickAutoSend]. *)
Definition lockStep (cfg : Config) (s : Session) : Session :=
  if enableHeaderCheck cfg
  then setIsRxInvalid false (setWaitingForResponse true s)
  else s.

(** The frame of the specification's example, payload [00 64]. *)
Definition exampleFrame : list Z :=
  [0xFF; 0xFE; 0xFD; 0xFC; 0x02; 0x56; 0x00; 0x64;
   0xAA; 0xBB; 0xCC; 0xFB; 0xFA; 0xF9; 0xF8].

(** A reply that is valid under both byte orders (payload [00 00]). *)
Definition zeroFrame : list Z :=
  [0xFF; 0xFE; 0xFD; 0xFC; 0x02; 0x56; 0x00; 0x00;
   0xAA; 0xBB; 0xCC; 0xFB; 0xFA; 0xF9; 0xF8].

(** The configuration of the specification's example with the low byte
    first on reception. *)
Definition lowFirstConfig : Config :=
  {| sweepBaseHex := "05 43 46 0D 46 04 00 0D";
     rangeStartHex := "0000"; rangeEndHex := "00C8"; incrementStep := 3;
     targetByteIndex := 3; isBigEndian := true;
     rxByteIndex := 6; rxIsBigEndian := false; enableHeaderCheck := true |}.

(** The default settings with the range of the two-point sweep. *)
Definition sweep03Config : Config :=
  {| sweepBaseHex := "05 43 46 0D 46 04 00 0D";
     rangeStartHex := "0000"; rangeEndHex := "0003"; incrementStep := 3;
     targetByteIndex := 3; isBigEndian := true;
     rxByteIndex := 6; rxIsBigEndian := true; enableHeaderCheck := true |}.

(** The default settings with a sweep that starts at code 1. *)
Definition sweepFrom1Config : Config :=
  {| sweepBaseHex := "05 43 46 0D 46 04 00 0D";
     rangeStartHex := "0001"; rangeEndHex := "00C8"; incrementStep := 3;
     targetByteIndex := 3; isBigEndian := true;
     rxByteIndex := 6; rxIsBigEndian := true; enableHeaderCheck := true |}.

(** The default settings with start above end. *)
Definition invertedRangeConfig : Config :=
  {| sweepBaseHex := "05 43 46 0D 46 04 00 0D";
     rangeStartHex := "0005"; rangeEndHex := "0003"; incrementStep := 3;
     targetByteIndex := 3; isBigEndian := true;
     rxByteIndex := 6; rxIsBigEndian := true; enableHeaderCheck := true |}.

(** What happens to a session: the interval timer fires (with what the port
    does if the tick writes), a chunk is read from the port, the sweep button
    is pressed.  The timer is armed only while [isAutoSending] holds (the
    effect that owns [autoSendTimerRef]). *)
Inductive Event :=
| Tick (port : Port)
| Receive (chunk : list Z)
| Toggle.

Definition step (cfg : Config) (s : Session) (e : Event) : Session :=
  match e with
  | Tick port => if isAutoSending s then tickAutoSend cfg port s else s
  | Receive chunk => handleDataReceived cfg chunk s
  | Toggle => toggleAutoSend cfg s
  end.

Definition run (cfg : Config) (events : list Event) (s : Session) : Session :=
  fold_left (step cfg) events s.

(** A reply is awaited only for a stored, non-empty command. *)
Definition lockInvariant (s : Session) : Prop :=
  waitingForResponseRef s = true ->
  exists cmd,
    lastSentHexRef s = Some (uint8ArrayToHex cmd)
    /\ cmd <> [] /\ Forall isByte cmd.

(** The pending frequency, when set, is the frequency of the code of the last
    command: the counter has moved one step past it. *)
Definition pendingInvariant (cfg : Config) (s : Session) : Prop :=
  pendingFrequencyRef s = None
  \/ pendingFrequencyRef s
     = Some (frequencyOf (counterRef s - incrementStep cfg)).

(** The code of the command that a tick builds in [s], if it builds one: the
    tick is not held by the lock-step, the counter has not passed the end,
    the template parses and has room for the two counter bytes (the tests of
    [tickAutoSend] before its step 2). *)
Definition builtCode (cfg : Config) (s : Session) : option Z :=
  if enableHeaderCheck cfg && waitingForResponseRef s then None
  else if gtNumber (counterRef s) (parseInt16 (stripNonHex (rangeEndHex cfg)))
  then None
  else
    match hexToUint8Array (sweepBaseHex cfg) with
    | None => None
    | Some baseBytes =>
        if (targetByteIndex cfg <? 0)
           || (Z.of_nat (List.length baseBytes) - 1 <=? targetByteIndex cfg)
        then None
        else Some (counterRef s)
    end.

(** The codes of the commands built by the ticks of a run that starts in
    [s], oldest first. *)
Fixpoint commandCodes (cfg : Config) (events : list Event) (s : Session)
  : list Z :=
  match events with
  | [] => []
  | e :: rest =>
      match e with
      | Tick _ =>
          if isAutoSending s then
            match builtCode cfg s with
            | Some code => [code]
            | None => []
            end
          else []
      | _ => []
      end ++ commandCodes cfg rest (step cfg s e)
  end.

(** The correlation seen from the commands: the pending frequency, when set,
    is that of the last code built, the counter is one step past that code,
    and every point of the chart is at the rounded frequency of a code built
    earlier in the run. *)
Definition chartInvariant (cfg : Config) (codes : list Z) (s : Session) : Prop :=
  (pendingFrequencyRef s = None
   \/ exists earlier code,
        codes = earlier ++ [code]
        /\ pendingFrequencyRef s = Some (frequencyOf code)
        /\ counterRef s = code + incrementStep cfg)
  /\ Forall (fun p => exists code,
                 In code codes /\ x p = toFixed4 (frequencyOf code))
            (chartData s).

(* ------------------------------------------------------------------------- *)
(** ** Further vocabulary: the byte codec *)

(** One of the sixteen characters [0-9A-F]. *)
Definition isUpperHex (c : ascii) : bool :=
  let n := Z.of_nat (nat_of_ascii c) in
  ((48 <=? n) && (n <=? 57)) || ((65 <=? n) && (n <=? 70)).

Definition upperHexChars : list ascii :=
  map (fun d => ascii_of_nat (Z.to_nat d))
    [48; 49; 50; 51; 52; 53; 54; 55; 56; 57; 65; 66; 67; 68; 69; 70].

Fixpoint allChars (p : ascii -> bool) (s : string) : bool :=
  match s with
  | EmptyString => true
  | String c rest => p c && allChars p rest
  end.

(** The check that two upper-case hex digits, read as a byte and printed
    again, come back; it is run over the 256 pairs below. *)
Definition pairRoundTrips (a b : ascii) : bool :=
  String.eqb
    (byteToHex (toUint8 (parseInt16 (String a (String b EmptyString)))))
    (String a (String b EmptyString)).

(** The check that two bytes recombine to [256 * high + low]; it is run over
    the 65536 pairs below. *)
Definition bytesRecombine (highByte lowByte : Z) : bool :=
  bytesToDecimal highByte lowByte =? 256 * highByte + lowByte.

Definition allBytes : list Z := map Z.of_nat (seq 0 256).

(* ------------------------------------------------------------------------- *)
(** ** Further vocabulary: sessions and sweeps *)

(** The default settings with strict validation off. *)
Definition standardConfig : Config :=
  {| sweepBaseHex := "05 43 46 0D 46 04 00 0D";
     rangeStartHex := "0000"; rangeEndHex := "00C8"; incrementStep := 3;
     targetByteIndex := 3; isBigEndian := true;
     rxByteIndex := 6; rxIsBigEndian := true; enableHeaderCheck := false |}.

(** The measurements kept by a session are within the accepted range. *)
Definition valuesInRange (s : Session) : Prop :=
  Forall (fun p => 0 <= y p <= 4096) (chartData s)
  /\ forall v, lastReceivedValue s = Some v -> 0 <= v <= 4096.

(** A tick on a port that writes, followed by the reply [zeroFrame]. *)
Definition answeredTick (cfg : Config) (s : Session) : Session :=
  handleDataReceived cfg zeroFrame (tickAutoSend cfg PortWrites s).

(** The first [n] codes of a sweep. *)
Definition sweepCodes (startDec step : Z) (n : nat) : list Z :=
  map (fun i => startDec + step * Z.of_nat i) (seq 0 n).

(** The chart point of a reply of value 0 to the command of code [c]. *)
Definition zeroPoint (c : Z) : ChartDataPoint :=
  {| x := toFixed4 (frequencyOf c); y := 0 |}.

(** The default settings with a step of 0. *)
Definition zeroStepConfig : Config :=
  {| sweepBaseHex := "05 43 46 0D 46 04 00 0D";
     rangeStartHex := "0000"; rangeEndHex := "00C8"; incrementStep := 0;
     targetByteIndex := 3; isBigEndian := true;
     rxByteIndex := 6; rxIsBigEndian := true; enableHeaderCheck := true |}.

(** The default settings with a template of two bytes only: target index 3
    is outside it. *)
Definition shortTemplateConfig : Config :=
  {| sweepBaseHex := "05 43";
     rangeStartHex := "0000"; rangeEndHex := "00C8"; incrementStep := 3;
     targetByteIndex := 3; isBigEndian := true;
     rxByteIndex := 6; rxIsBigEndian := true; enableHeaderCheck := true |}.

(* ------------------------------------------------------------------------- *)
(** ** src/App.tsx and the chart panel: presentation state *)

(** The updater of [addLog]: the list shown by the terminal keeps the last
    500 entries.  ([logs] of a [Session] is the sequence of the calls to
    [addLog]; this is what the component shows of it.) *)
Definition appendLog (prev : list LogEntry) (entry : LogEntry) : list LogEntry :=
  let newLogs := prev ++ [entry] in
  if (500 <? List.length newLogs)%nat
  then skipn (List.length newLogs - 500) newLogs
  else newLogs.

(** What the terminal shows after the entries [emitted], from an empty log. *)
Definition displayedLogs (emitted : list LogEntry) : list LogEntry :=
  fold_left appendLog emitted [].

(** [currentBytesLength]: the number of whole bytes of the sweep template. *)
Definition currentBytesLength (cfg : Config) : Z :=
  Z.of_nat (String.length (stripNonHex (sweepBaseHex cfg))) / 2.

(** The values offered by the "TX: Modify Bytes" selector:
    [Array.from({ length: Math.max(0, currentBytesLength - 1) })]. *)
Definition targetIndexOptions (cfg : Config) : list Z :=
  map Z.of_nat (seq 0 (Z.to_nat (Z.max 0 (currentBytesLength cfg - 1)))).

(** The peak of the chart panel:
    [data.reduce((max, current) => current.y > max.y ? current : max, data[0])],
    [null] on an empty chart. *)
Definition peakPoint (data : list ChartDataPoint) : option ChartDataPoint :=
  match data with
  | [] => None
  | first :: _ =>
      Some (fold_left
              (fun max current => if y max <? y current then current else max)
              data first)
  end.

(* ------------------------------------------------------------------------- *)
(** ** src/unnamed/part_001: the earlier revision of the component

    The first version of [App.tsx]: no sweep range, no framing, a counter
    that grows by 3 and is written at bytes 3 and 4 of the command, and a
    chart of the values sent and received over time.  The time label of a
    chart point is left out. *)

Module Legacy.

Inductive LogData :=
| HexDump (hex : string)
| PortNotOpen
| SendFailed
| BaseCommandTooShort
| InvalidHexInInputField.

Record LogEntry := { type : LogType; data : LogData }.

Record ChartDataPoint := { sentValue : option Z; receivedValue : option Z }.

Record Session := {
  counterRef : Z;
  isAutoSending : bool;
  chartData : list ChartDataPoint;
  logs : list LogEntry;
  written : list (list Z)
}.

Definition initialSession : Session :=
  {| counterRef := 0; isAutoSending := false; chartData := [];
     logs := []; written := [] |}.

Definition addLog (t : LogType) (d : LogData) (s : Session) : Session :=
  {| counterRef := counterRef s; isAutoSending := isAutoSending s;
     chartData := chartData s;
     logs := logs s ++ [{| type := t; data := d |}];
     written := written s |}.

Definition setIsAutoSending (v : bool) (s : Session) : Session :=
  {| counterRef := counterRef s; isAutoSending := v;
     chartData := chartData s; logs := logs s; written := written s |}.

Definition setCounter (v : Z) (s : Session) : Session :=
  {| counterRef := v; isAutoSending := isAutoSending s;
     chartData := chartData s; logs := logs s; written := written s |}.

Definition setWritten (v : list (list Z)) (s : Session) : Session :=
  {| counterRef := counterRef s; isAutoSending := isAutoSending s;
     chartData := chartData s; logs := logs s; written := v |}.

(** The updater of [setChartData]:
    [if (newData.length > 50) newData.shift(); newData.push(point)]. *)
Definition pushPoint (prev : list ChartDataPoint) (point : ChartDataPoint)
  : list ChartDataPoint :=
  let newData := if (50 <? List.length prev)%nat then tl prev else prev in
  newData ++ [point].

Definition setChartData (v : list ChartDataPoint) (s : Session) : Session :=
  {| counterRef := counterRef s; isAutoSending := isAutoSending s;
     chartData := v; logs := logs s; written := written s |}.

Definition handleDataReceived (data : list Z) (s : Session) : Session :=
  let s := addLog LogRx (HexDump (uint8ArrayToHex data)) s in
  if (8 <=? List.length data)%nat then
    let val := bytesToDecimal (operand (byteAt data 6)) (operand (byteAt data 7)) in
    setChartData
      (pushPoint (chartData s) {| sentValue := None; receivedValue := Some val |})
      s
  else s.

Definition sendData (port : Port) (hexString : string) (s : Session) : Session :=
  match port with
  | PortClosed => addLog LogError PortNotOpen s
  | PortWrites =>
      match hexToUint8Array hexString with
      | Some data =>
          let s := setWritten (written s ++ [data]) s in
          let s := addLog LogTx (HexDump (formatHexString hexString)) s in
          if (5 <=? List.length data)%nat then
            let val :=
              bytesToDecimal (operand (byteAt data 3)) (operand (byteAt data 4)) in
            setChartData
              (pushPoint (chartData s)
                 {| sentValue := Some val; receivedValue := None |})
              s
          else s
      | None => setIsAutoSending false (addLog LogError SendFailed s)
      end
  | PortRejects => setIsAutoSending false (addLog LogError SendFailed s)
  end.

(** The command of a tick: the counter written at bytes 3 and 4 of the
    template, high byte first, and the array turned into a [Uint8Array]. *)
Definition buildCommand (baseBytes : list Z) (currentVal : Z) : list Z :=
  let '(high, low) := decimalToBytes currentVal in
  map (fun v => v mod 256) (arraySet (arraySet baseBytes 3 high) 4 low).

Definition tickAutoSend (inputHex : string) (port : Port) (s : Session)
  : Session :=
  match hexToUint8Array inputHex with
  | None => addLog LogError InvalidHexInInputField (setIsAutoSending false s)
  | Some baseBytes =>
      if (List.length baseBytes <? 5)%nat then
        setIsAutoSending false (addLog LogError BaseCommandTooShort s)
      else
        let currentVal := counterRef s in
        let newHexStr := uint8ArrayToHex (buildCommand baseBytes currentVal) in
        let s := sendData port newHexStr s in
        setCounter (currentVal + 3) s
  end.

Definition toggleAutoSend (s : Session) : Session :=
  if isAutoSending s then setIsAutoSending false s
  else setIsAutoSending true (setCounter 0 s).

(** The chart after the points [points] have been pushed on an empty one. *)
Definition chartOf (points : list ChartDataPoint) : list ChartDataPoint :=
  fold_left pushPoint points [].

End Legacy.

(* ------------------------------------------------------------------------- *)
(** ** The byte codec *)

Example hexToUint8Array_default :
  hexToUint8Array "05 43 46 0D 46 04 00 0D" = Some [5; 67; 70; 13; 70; 4; 0; 13].
Proof. reflexivity. Qed.

Example uint8ArrayToHex_default :
  uint8ArrayToHex [5; 67; 70; 13; 70; 4; 0; 13] = "05 43 46 0D 46 04 00 0D"%string.
Proof. reflexivity. Qed.

Lemma all_bytes_round_trip :
  forallb byteRoundTrips (map Z.of_nat (seq 0 256)) = true.
Proof. vm_compute. reflexivity. Qed.

Lemma byteToHex_shape (b : Z) :
  isByte b ->
  exists c1 c2,
    byteToHex b = String c1 (String c2 EmptyString)
    /\ isHexDigit c1 = true /\ isHexDigit c2 = true
    /\ toUpperChar c1 = c1 /\ toUpperChar c2 = c2
    /\ toUint8 (parseInt16 (String c1 (String c2 EmptyString))) = b.
Proof.
  intros Hb.
  assert (Hin : In b (map Z.of_nat (seq 0 256))).
  { apply in_map_iff. exists (Z.to_nat b). split.
    - unfold isByte in Hb. lia.
    - apply in_seq. unfold isByte in Hb. lia. }
  pose proof (proj1 (forallb_forall _ _) all_bytes_round_trip b Hin) as Hok.
  unfold byteRoundTrips in Hok.
  destruct (byteToHex b) as [|c1 [|c2 [|c3 r]]]; try discriminate.
  exists c1, c2.
  repeat (apply andb_prop in Hok; destruct Hok as [Hok ?]).
  repeat split; auto.
  - now apply Ascii.eqb_eq.
  - now apply Ascii.eqb_eq.
  - now apply Z.eqb_eq.
Qed.

Lemma hex_round_trip_aux (bs : list Z) :
  Forall isByte bs ->
  Nat.even (String.length (cleanHexString (uint8ArrayToHex bs))) = true
  /\ hexPairs (cleanHexString (uint8ArrayToHex bs)) = bs.
Proof.
  unfold uint8ArrayToHex, cleanHexString.
  induction bs as [|b rest IH]; intros Hall.
  - split; reflexivity.
  - inversion Hall as [|? ? Hb Hrest]; subst.
    destruct (byteToHex_shape b Hb) as (c1 & c2 & Hs & H1 & H2 & U1 & U2 & Hv).
    specialize (IH Hrest).
    destruct rest as [|b' rest'].
    + cbn [map String.concat]. rewrite Hs. cbn [stripNonHex].
      rewrite H1, H2. cbn [toUpperCase String.length Nat.even hexPairs].
      rewrite U1, U2, Hv. split; reflexivity.
    + change (String.concat " " (map byteToHex (b :: b' :: rest')))
        with (byteToHex b ++ " "
              ++ String.concat " " (map byteToHex (b' :: rest')))%string.
      rewrite Hs. cbn [String.append stripNonHex]. rewrite H1, H2.
      replace (isHexDigit " ") with false by reflexivity.
      cbn [toUpperCase String.length Nat.even hexPairs].
      rewrite U1, U2, Hv.
      destruct IH as [IH1 IH2]. rewrite IH1, IH2. split; reflexivity.
Qed.

Lemma hexToUint8Array_uint8ArrayToHex (bs : list Z) :
  Forall isByte bs -> hexToUint8Array (uint8ArrayToHex bs) = Some bs.
Proof.
  intros Hall. unfold hexToUint8Array.
  destruct (hex_round_trip_aux bs Hall) as [He Hp]. cbv zeta.
  rewrite He, Hp. reflexivity.
Qed.

Lemma truthy_uint8ArrayToHex (bs : list Z) :
  Forall isByte bs -> bs <> [] -> truthy (uint8ArrayToHex bs) = true.
Proof.
  intros Hall Hne. destruct bs as [|b rest]; [congruence|].
  inversion Hall as [|? ? Hb Hrest]; subst.
  destruct (byteToHex_shape b Hb) as (c1 & c2 & Hs & _).
  unfold uint8ArrayToHex. cbn [map String.concat].
  destruct (map byteToHex rest); rewrite Hs; reflexivity.
Qed.

Lemma toInt32_small (v : Z) : - 2 ^ 31 <= v < 2 ^ 31 -> toInt32 v = v.
Proof.
  intros H. unfold toInt32. rewrite Z.mod_small; lia.
Qed.

Lemma toInt32_decompose (v : Z) : exists k, toInt32 v = v + k * 2 ^ 32.
Proof.
  unfold toInt32. exists (- ((v + 2 ^ 31) / 2 ^ 32)).
  rewrite Z.mod_eq by lia. lia.
Qed.

Lemma decimalToBytes_arith (v : Z) :
  decimalToBytes v = ((v / 256) mod 256, v mod 256).
Proof.
  unfold decimalToBytes. cbv zeta.
  destruct (toInt32_decompose v) as [k Hk]. rewrite Hk.
  change 255 with (Z.ones 8).
  rewrite !Z.land_ones by lia. rewrite Z.shiftr_div_pow2 by lia.
  change (2 ^ 8) with 256.
  replace (v + k * 2 ^ 32) with (v + (k * 2 ^ 24) * 256) by lia.
  rewrite Z.div_add by lia.
  f_equal.
  - replace (v / 256 + k * 2 ^ 24) with (v / 256 + (k * 2 ^ 16) * 256) by lia.
    apply Z.mod_add. lia.
  - apply Z.mod_add. lia.
Qed.

Lemma decimalToBytes_mod (v : Z) :
  decimalToBytes (v mod 65536) = decimalToBytes v.
Proof.
  rewrite !decimalToBytes_arith. f_equal.
  - Z.div_mod_to_equations. lia.
  - Z.div_mod_to_equations. lia.
Qed.

Lemma decimalToBytes_isByte (v : Z) :
  isByte (fst (decimalToBytes v)) /\ isByte (snd (decimalToBytes v)).
Proof.
  rewrite decimalToBytes_arith. unfold isByte. cbn [fst snd].
  split; apply Z.mod_pos_bound; lia.
Qed.

Lemma buildCommand_mod (cfg : Config) (baseBytes : list Z) (v : Z) :
  buildCommand cfg baseBytes (v mod 65536) = buildCommand cfg baseBytes v.
Proof.
  unfold buildCommand. rewrite decimalToBytes_mod. reflexivity.
Qed.

Lemma buildCommand_isByte (cfg : Config) (baseBytes : list Z) (v : Z) :
  Forall isByte (buildCommand cfg baseBytes v).
Proof.
  unfold buildCommand. destruct (decimalToBytes v) as [high low].
  apply Forall_forall. intros b Hin. apply in_map_iff in Hin.
  destruct Hin as (a & <- & _). unfold isByte. apply Z.mod_pos_bound. lia.
Qed.

(** C10.  For a counter [v] in [0, 2^31), [decimalToBytes v] is the pair
    [((v >> 8) & 0xFF, v & 0xFF)]; it is the pair of [v mod 65536], it
    recombines to [v mod 65536], and so the command built for [v] is the
    command built for [v mod 65536]: a value above 0xFFFF is not rejected,
    its low 16 bits are sent. *)
Theorem decimalToBytes_truncates (v : Z) :
  0 <= v < 2 ^ 31 ->
  decimalToBytes v = (Z.land (Z.shiftr v 8) 255, Z.land v 255)
  /\ decimalToBytes v = decimalToBytes (v mod 65536)
  /\ fst (decimalToBytes v) * 256 + snd (decimalToBytes v) = v mod 65536
  /\ forall cfg baseBytes,
       buildCommand cfg baseBytes v = buildCommand cfg baseBytes (v mod 65536).
Proof.
  intros Hv. repeat split.
  - unfold decimalToBytes. rewrite toInt32_small by lia. reflexivity.
  - symmetry. apply decimalToBytes_mod.
  - rewrite decimalToBytes_arith. cbn [fst snd].
    Z.div_mod_to_equations. lia.
  - intros cfg baseBytes. symmetry. apply buildCommand_mod.
Qed.

Lemma decimalToBytes_truncates_witness :
  0 <= 70000 < 2 ^ 31
  /\ decimalToBytes 70000 = (17, 112)
  /\ decimalToBytes 70000 = decimalToBytes 4464.
Proof.
  split; [lia|].
  destruct (decimalToBytes_truncates 70000 ltac:(lia)) as (H1 & H2 & _).
  split; [exact H1 | exact H2].
Defined.

(* ------------------------------------------------------------------------- *)
(** ** The frame reassembler *)

Lemma addInvalid_0 (s : Session) : addInvalid 0 s = s.
Proof.
  destruct s as [? ? ? ? ? ? ? ? ? ? [? ? ?] ? ?].
  unfold addInvalid, setStats. cbn. rewrite Z.add_0_r. reflexivity.
Qed.

Lemma addInvalid_countInvalid (k : Z) (s : Session) :
  addInvalid k (countInvalid s) = addInvalid (1 + k) s.
Proof.
  destruct s as [? ? ? ? ? ? ? ? ? ? [? ? ?] ? ?].
  unfold addInvalid, countInvalid, setStats. cbn.
  rewrite <- Z.add_assoc. reflexivity.
Qed.

(** The loop of [processRxBuffer], one iteration unfolded. *)
Lemma scanLoop_eq (cfg : Config) (buffer : list Z) (ptr : Z) (s : Session) :
  scanLoop cfg buffer ptr s =
  if ptr <=? Z.of_nat (List.length buffer) - PACKET_LEN then
    if matchesAt HEADER buffer ptr then
      if matchesAt FOOTER buffer (ptr + 11) then
        let b1 := operand (byteAt buffer (ptr + 6)) in
        let b2 := operand (byteAt buffer (ptr + 7)) in
        let val := decodeRx cfg b1 b2 in
        if (0 <=? val) && (val <=? 4096) then
          Returned (acceptPacket cfg buffer ptr b1 b2 s)
        else scanLoop cfg buffer (ptr + PACKET_LEN) (countInvalid s)
      else scanLoop cfg buffer (ptr + 1) (countInvalid s)
    else scanLoop cfg buffer (ptr + 1) s
  else Exited ptr s.
Proof.
  simp scanLoop.
  destruct (Z_le_gt_dec ptr (Z.of_nat (List.length buffer) - PACKET_LEN)) as [H|H];
    simp scanLoop.
  - apply Z.leb_le in H. rewrite H. reflexivity.
  - apply Z.gt_lt, Z.leb_gt in H. rewrite H. reflexivity.
Qed.

(** What the scan does to the session does not depend on the session: it
    counts [k] rejections, then either leaves the loop at [p] or accepts the
    packet found at [p]. *)
Lemma scanLoop_uniform (cfg : Config) (buffer : list Z) (ptr : Z) :
  (exists k p,
      0 <= k /\ ptr <= p /\ Z.of_nat (List.length buffer) - PACKET_LEN < p
      /\ forall s, scanLoop cfg buffer ptr s = Exited p (addInvalid k s))
  \/ (exists k p b1 b2,
         0 <= k /\ ptr <= p <= Z.of_nat (List.length buffer) - PACKET_LEN
         /\ 0 <= decodeRx cfg b1 b2 <= 4096
         /\ forall s,
             scanLoop cfg buffer ptr s
             = Returned (acceptPacket cfg buffer p b1 b2 (addInvalid k s))).
Proof.
  remember (Z.to_nat (Z.of_nat (List.length buffer) - ptr)) as n eqn:Hn.
  revert ptr Hn.
  induction n as [n IH] using lt_wf_ind. intros ptr Hn.
  destruct (Z.leb_spec ptr (Z.of_nat (List.length buffer) - PACKET_LEN)) as [Hle|Hgt].
  - assert (Hstep : forall d, 0 < d ->
        (Z.to_nat (Z.of_nat (List.length buffer) - (ptr + d)) < n)%nat).
    { intros d Hd. unfold PACKET_LEN in Hle. lia. }
    assert (Hcont : forall d j, 0 < d -> 0 <= j ->
      (exists k p,
          0 <= k /\ ptr <= p /\ Z.of_nat (List.length buffer) - PACKET_LEN < p
          /\ forall s, scanLoop cfg buffer (ptr + d) (addInvalid j s)
                       = Exited p (addInvalid k s))
      \/ (exists k p b1 b2,
             0 <= k /\ ptr <= p <= Z.of_nat (List.length buffer) - PACKET_LEN
             /\ 0 <= decodeRx cfg b1 b2 <= 4096
             /\ forall s,
                 scanLoop cfg buffer (ptr + d) (addInvalid j s)
                 = Returned (acceptPacket cfg buffer p b1 b2 (addInvalid k s)))).
    { intros d j Hd Hj.
      destruct (IH _ (Hstep d Hd) (ptr + d) eq_refl)
        as [(k & p & Hk & Hp & Hq & Heq) | (k & p & b1 & b2 & Hk & Hp & Hv & Heq)].
      - left. exists (j + k), p. repeat split; try lia.
        intros s. rewrite Heq. f_equal.
        destruct s as [? ? ? ? ? ? ? ? ? ? [? ? ?] ? ?].
        unfold addInvalid, setStats. cbn. rewrite Z.add_assoc. reflexivity.
      - right. exists (j + k), p, b1, b2. repeat split; try lia.
        intros s. rewrite Heq. do 2 f_equal.
        destruct s as [? ? ? ? ? ? ? ? ? ? [? ? ?] ? ?].
        unfold addInvalid, setStats. cbn. rewrite Z.add_assoc. reflexivity. }
    destruct (matchesAt HEADER buffer ptr) eqn:Hh.
    + destruct (matchesAt FOOTER buffer (ptr + 11)) eqn:Hf.
      * destruct ((0 <=? decodeRx cfg (operand (byteAt buffer (ptr + 6)))
                                   (operand (byteAt buffer (ptr + 7))))
                  && (decodeRx cfg (operand (byteAt buffer (ptr + 6)))
                                   (operand (byteAt buffer (ptr + 7))) <=? 4096))
          eqn:Hr.
        -- right. exists 0, ptr, (operand (byteAt buffer (ptr + 6))),
             (operand (byteAt buffer (ptr + 7))).
           apply andb_prop in Hr. destruct Hr as [Hr1 Hr2].
           apply Z.leb_le in Hr1, Hr2.
           repeat split; try lia.
           intros s. rewrite scanLoop_eq.
           apply Z.leb_le in Hle. rewrite Hle, Hh, Hf. cbv zeta.
           apply Z.leb_le in Hr1, Hr2. rewrite Hr1, Hr2. cbn [andb].
           rewrite addInvalid_0. reflexivity.
        -- destruct (Hcont PACKET_LEN 1 ltac:(unfold PACKET_LEN; lia) ltac:(lia))
             as [(k & p & Hk & Hp & Hq & Heq) | (k & p & b1 & b2 & Hk & Hp & Hv & Heq)].
           ++ left. exists k, p. repeat split; try lia.
              intros s. rewrite scanLoop_eq.
              apply Z.leb_le in Hle. rewrite Hle, Hh, Hf. cbv zeta. rewrite Hr.
              rewrite <- Heq. reflexivity.
           ++ right. exists k, p, b1, b2. repeat split; try lia.
              intros s. rewrite scanLoop_eq.
              apply Z.leb_le in Hle. rewrite Hle, Hh, Hf. cbv zeta. rewrite Hr.
              rewrite <- Heq. reflexivity.
      * destruct (Hcont 1 1 ltac:(lia) ltac:(lia))
          as [(k & p & Hk & Hp & Hq & Heq) | (k & p & b1 & b2 & Hk & Hp & Hv & Heq)].
        -- left. exists k, p. repeat split; try lia.
           intros s. rewrite scanLoop_eq.
           apply Z.leb_le in Hle. rewrite Hle, Hh, Hf.
           rewrite <- Heq. reflexivity.
        -- right. exists k, p, b1, b2. repeat split; try lia.
           intros s. rewrite scanLoop_eq.
           apply Z.leb_le in Hle. rewrite Hle, Hh, Hf.
           rewrite <- Heq. reflexivity.
    + destruct (Hcont 1 0 ltac:(lia) ltac:(lia))
        as [(k & p & Hk & Hp & Hq & Heq) | (k & p & b1 & b2 & Hk & Hp & Hv & Heq)].
      * left. exists k, p. repeat split; try lia.
        intros s. rewrite scanLoop_eq.
        apply Z.leb_le in Hle. rewrite Hle, Hh.
        rewrite <- Heq. rewrite addInvalid_0. reflexivity.
      * right. exists k, p, b1, b2. repeat split; try lia.
        intros s. rewrite scanLoop_eq.
        apply Z.leb_le in Hle. rewrite Hle, Hh.
        rewrite <- Heq. rewrite addInvalid_0. reflexivity.
  - left. exists 0, ptr. repeat split; try lia.
    intros s. rewrite scanLoop_eq.
    apply Z.leb_gt in Hgt. rewrite Hgt. rewrite addInvalid_0. reflexivity.
Qed.

Ltac session_simpl :=
  lazy beta iota zeta delta
    [acceptPacket parseAndRecord buffered lockStep sendData
     countRx countTx countInvalid addInvalid addLog
     setRxBuffer setCounter setPendingFrequency setLastSentHex
     setWaitingForResponse setIsAutoSending setIsRetrying setIsRxInvalid
     setLastReceivedValue setChartData setStats setLogs setWritten
     rxBuffer counterRef pendingFrequencyRef lastSentHexRef
     waitingForResponseRef isAutoSending isRetrying isRxInvalid
     lastReceivedValue chartData stats logs written tx rx invalid x y] in *.

Lemma handleDataReceived_strict (cfg : Config) (chunk : list Z) (s : Session) :
  enableHeaderCheck cfg = true ->
  handleDataReceived cfg chunk s = processRxBuffer cfg (buffered chunk s).
Proof.
  intros Hs. unfold handleDataReceived. rewrite Hs. reflexivity.
Qed.

(** The two ways [processRxBuffer] ends, with the session it leaves. *)
Lemma processRxBuffer_cases (cfg : Config) (s : Session) :
  (exists k p,
      0 <= k /\ 0 <= p
      /\ ~ findsValidPacket cfg (rxBuffer s)
      /\ processRxBuffer cfg s =
         let s1 := if 0 <? p
                   then setRxBuffer (slice (rxBuffer s) p) (addInvalid k s)
                   else addInvalid k s in
         if waitingForResponseRef s
         then setLastReceivedValue None (setIsRxInvalid true s1)
         else s1)
  \/ (exists k p b1 b2,
         0 <= k /\ 0 <= p /\ 0 <= decodeRx cfg b1 b2 <= 4096
         /\ findsValidPacket cfg (rxBuffer s)
         /\ processRxBuffer cfg s
            = acceptPacket cfg (rxBuffer s) p b1 b2 (addInvalid k s)).
Proof.
  unfold processRxBuffer. cbv zeta.
  destruct (scanLoop_uniform cfg (rxBuffer s) 0)
    as [(k & p & Hk & Hp & _ & Heq) | (k & p & b1 & b2 & Hk & Hp & Hv & Heq)].
  - left. exists k, p. repeat split; try lia.
    + intros (s0 & r & Hr). rewrite Heq in Hr. discriminate.
    + rewrite Heq. destruct (0 <? p); reflexivity.
  - right. exists k, p, b1, b2. repeat split; try lia.
    + exists s. eexists. apply Heq.
    + rewrite Heq. reflexivity.
Qed.

Ltac destruct_session s :=
  destruct s as [sBuf sCounter sPending sLast sWaiting sAuto sRetrying
                   sRxInvalid sValue sChart [sTx sRx sInv] sLogs sWritten].

Lemma handleDataReceived_eq (cfg : Config) (chunk : list Z) (s : Session) :
  handleDataReceived cfg chunk s =
  let s2 := buffered chunk s in
  if enableHeaderCheck cfg then processRxBuffer cfg s2
  else if rxByteIndex cfg + 1 <? Z.of_nat (List.length (rxBuffer s2)) then
    let b1 := operand (byteAt (rxBuffer s2) (rxByteIndex cfg)) in
    let b2 := operand (byteAt (rxBuffer s2) (rxByteIndex cfg + 1)) in
    setRxBuffer [] (countRx (parseAndRecord cfg b1 b2 s2))
  else s2.
Proof. reflexivity. Qed.

(** What a received chunk never touches, and the only way it extends the
    chart: one point, at the rounded pending frequency. *)
Lemma handleDataReceived_frame (cfg : Config) (chunk : list Z) (s : Session) :
  let r := handleDataReceived cfg chunk s in
  counterRef r = counterRef s
  /\ pendingFrequencyRef r = pendingFrequencyRef s
  /\ lastSentHexRef r = lastSentHexRef s
  /\ written r = written s
  /\ isAutoSending r = isAutoSending s
  /\ tx (stats r) = tx (stats s)
  /\ (chartData r = chartData s
      \/ exists f v,
           pendingFrequencyRef s = Some f
           /\ chartData r = chartData s ++ [{| x := toFixed4 f; y := v |}]).
Proof.
  cbv zeta. rewrite handleDataReceived_eq. cbv zeta.
  destruct (enableHeaderCheck cfg).
  - destruct (processRxBuffer_cases cfg (buffered chunk s))
      as [(k & p & _ & _ & _ & Heq) | (k & p & b1 & b2 & _ & _ & _ & _ & Heq)];
      rewrite Heq; clear Heq; destruct_session s.
    + destruct (0 <? p), sWaiting; session_simpl;
        repeat split; auto.
    + destruct sPending as [f|];
        session_simpl; repeat split; auto.
      right. exists f, (decodeRx cfg b1 b2). split; reflexivity.
  - destruct (rxByteIndex cfg + 1 <? Z.of_nat (List.length (rxBuffer (buffered chunk s))));
      destruct_session s.
    + destruct sPending as [f|];
        session_simpl; repeat split; auto.
      right. eexists f, _. split; reflexivity.
    + session_simpl. repeat split; auto.
Qed.

(** What a chunk that completes a valid packet does in strict mode. *)
Lemma handleDataReceived_valid (cfg : Config) (chunk : list Z) (s : Session) :
  enableHeaderCheck cfg = true ->
  findsValidPacket cfg (rxBuffer s ++ chunk) ->
  let r := handleDataReceived cfg chunk s in
  exists v,
    0 <= v <= 4096
    /\ lastReceivedValue r = Some v
    /\ waitingForResponseRef r = false
    /\ isRetrying r = false
    /\ isRxInvalid r = false
    /\ rx (stats r) = rx (stats s) + 1
    /\ pendingFrequencyRef r = pendingFrequencyRef s
    /\ chartData r =
       match pendingFrequencyRef s with
       | Some f => chartData s ++ [{| x := toFixed4 f; y := v |}]
       | None => chartData s
       end.
Proof.
  intros Hs Hfind. cbv zeta.
  rewrite handleDataReceived_strict by assumption.
  destruct (processRxBuffer_cases cfg (buffered chunk s))
    as [(k & p & _ & _ & Hno & _) | (k & p & b1 & b2 & _ & _ & Hv & _ & Heq)].
  - exfalso. apply Hno. exact Hfind.
  - rewrite Heq. exists (decodeRx cfg b1 b2).
    split; [exact Hv|].
    destruct_session s. destruct sPending; session_simpl; repeat split.
Qed.

(** Positions before [p] that hold no header are passed one by one; the
    packet at [p] is then accepted. *)
Lemma scanLoop_skips_to_packet
  (cfg : Config) (buffer : list Z) (p : Z) (s : Session) (n : nat) :
  forall ptr,
    Z.of_nat n = p - ptr ->
    p <= Z.of_nat (List.length buffer) - PACKET_LEN ->
    (forall i, ptr <= i < p -> matchesAt HEADER buffer i = false) ->
    matchesAt HEADER buffer p = true ->
    matchesAt FOOTER buffer (p + 11) = true ->
    0 <= decodeRx cfg (operand (byteAt buffer (p + 6)))
                      (operand (byteAt buffer (p + 7))) <= 4096 ->
    scanLoop cfg buffer ptr s
    = Returned (acceptPacket cfg buffer p (operand (byteAt buffer (p + 6)))
                  (operand (byteAt buffer (p + 7))) s).
Proof.
  induction n as [|n IH]; intros ptr Hn Hle Hjunk Hh Hf Hv.
  - assert (ptr = p) by lia. subst ptr.
    rewrite scanLoop_eq. apply Z.leb_le in Hle. rewrite Hle, Hh, Hf. cbv zeta.
    replace (0 <=? decodeRx cfg (operand (byteAt buffer (p + 6)))
                               (operand (byteAt buffer (p + 7))))
      with true by (symmetry; apply Z.leb_le; lia).
    replace (decodeRx cfg (operand (byteAt buffer (p + 6)))
                          (operand (byteAt buffer (p + 7))) <=? 4096)
      with true by (symmetry; apply Z.leb_le; lia).
    reflexivity.
  - rewrite scanLoop_eq.
    replace (ptr <=? Z.of_nat (List.length buffer) - PACKET_LEN) with true
      by (symmetry; apply Z.leb_le; lia).
    rewrite (Hjunk ptr) by lia.
    apply IH; try assumption; [lia|].
    intros i Hi. apply Hjunk. lia.
Qed.

(** However the scan from [ptr] ends, it has counted [k] rejections and then
    either left the loop at [p], past the last position where a packet fits,
    or accepted the packet that starts at [p], with the payload bytes read at
    [p + 6] and [p + 7]. *)
Lemma scanLoop_outcome (cfg : Config) (buffer : list Z) (n : nat) :
  forall ptr s,
    n = Z.to_nat (Z.of_nat (List.length buffer) - ptr) ->
    exists k p,
      0 <= k /\ ptr <= p
      /\ ((Z.of_nat (List.length buffer) - PACKET_LEN < p
           /\ scanLoop cfg buffer ptr s = Exited p (addInvalid k s))
          \/ (p <= Z.of_nat (List.length buffer) - PACKET_LEN
              /\ scanLoop cfg buffer ptr s
                 = Returned (acceptPacket cfg buffer p
                               (operand (byteAt buffer (p + 6)))
                               (operand (byteAt buffer (p + 7)))
                               (addInvalid k s)))).
Proof.
  induction n as [n IH] using lt_wf_ind. intros ptr s Hn.
  rewrite scanLoop_eq.
  destruct (Z.leb_spec ptr (Z.of_nat (List.length buffer) - PACKET_LEN)) as [Hle|Hgt].
  - assert (Hstep : forall d, 0 < d ->
        (Z.to_nat (Z.of_nat (List.length buffer) - (ptr + d)) < n)%nat).
    { intros d Hd. unfold PACKET_LEN in Hle. lia. }
    destruct (matchesAt HEADER buffer ptr).
    + destruct (matchesAt FOOTER buffer (ptr + 11)).
      * cbv zeta. destruct ((0 <=? _) && (_ <=? 4096)).
        -- exists 0, ptr. rewrite addInvalid_0.
           split; [lia|]. split; [lia|]. right. split; [exact Hle | reflexivity].
        -- destruct (IH _ (Hstep PACKET_LEN ltac:(unfold PACKET_LEN; lia))
                       (ptr + PACKET_LEN) (countInvalid s) eq_refl)
             as (k & p & Hk & Hp & Hcase).
           exists (1 + k), p. rewrite <- addInvalid_countInvalid.
           split; [lia|]. split; [unfold PACKET_LEN in Hp; lia | exact Hcase].
      * destruct (IH _ (Hstep 1 ltac:(lia)) (ptr + 1) (countInvalid s) eq_refl)
          as (k & p & Hk & Hp & Hcase).
        exists (1 + k), p. rewrite <- addInvalid_countInvalid.
        split; [lia|]. split; [lia | exact Hcase].
    + destruct (IH _ (Hstep 1 ltac:(lia)) (ptr + 1) s eq_refl)
        as (k & p & Hk & Hp & Hcase).
      exists k, p. split; [lia|]. split; [lia | exact Hcase].
  - exists 0, ptr. rewrite addInvalid_0.
    split; [lia|]. split; [lia|]. left. split; [exact Hgt | reflexivity].
Qed.

(** C6.  In strict mode, at a position [ptr] where the header matches and the
    footer at [ptr + 11] does not, the scan counts one invalid reception,
    records no measurement for that position, and goes on from [ptr + 1]:
    the scan from [ptr] is the scan from [ptr + 1] of the session with that
    one more invalid.  Its outcome shows it: if the loop is left, it is left
    past [ptr] with at least one invalid counted and nothing else changed;
    if a packet is accepted, it starts after [ptr]; and a valid packet that
    starts at any [p] after [ptr], be it within the fifteen bytes that follow
    the false header, with no header in between, is the one accepted, with
    exactly one invalid counted. *)
Theorem footer_mismatch_resumes_one_byte_on
  (cfg : Config) (buffer : list Z) (ptr : Z) (s : Session) :
  ptr <= Z.of_nat (List.length buffer) - PACKET_LEN ->
  matchesAt HEADER buffer ptr = true ->
  matchesAt FOOTER buffer (ptr + 11) = false ->
  scanLoop cfg buffer ptr s = scanLoop cfg buffer (ptr + 1) (countInvalid s)
  /\ invalid (stats (countInvalid s)) = invalid (stats s) + 1
  /\ rx (stats (countInvalid s)) = rx (stats s)
  /\ lastReceivedValue (countInvalid s) = lastReceivedValue s
  /\ chartData (countInvalid s) = chartData s
  /\ match scanLoop cfg buffer ptr s with
     | Exited p r =>
         ptr + 1 <= p
         /\ Z.of_nat (List.length buffer) - PACKET_LEN < p
         /\ exists k, 1 <= k /\ r = addInvalid k s
     | Returned r =>
         exists p k,
           ptr + 1 <= p <= Z.of_nat (List.length buffer) - PACKET_LEN
           /\ 1 <= k
           /\ r = acceptPacket cfg buffer p
                    (operand (byteAt buffer (p + 6)))
                    (operand (byteAt buffer (p + 7)))
                    (addInvalid k s)
     end
  /\ forall p,
       ptr < p <= Z.of_nat (List.length buffer) - PACKET_LEN ->
       (forall i, ptr < i < p -> matchesAt HEADER buffer i = false) ->
       matchesAt HEADER buffer p = true ->
       matchesAt FOOTER buffer (p + 11) = true ->
       0 <= decodeRx cfg (operand (byteAt buffer (p + 6)))
                         (operand (byteAt buffer (p + 7))) <= 4096 ->
       scanLoop cfg buffer ptr s
       = Returned (acceptPacket cfg buffer p
                     (operand (byteAt buffer (p + 6)))
                     (operand (byteAt buffer (p + 7)))
                     (countInvalid s)).
Proof.
  intros Hle Hh Hf.
  assert (Hone : scanLoop cfg buffer ptr s
                 = scanLoop cfg buffer (ptr + 1) (countInvalid s)).
  { rewrite scanLoop_eq. apply Z.leb_le in Hle. rewrite Hle, Hh, Hf. reflexivity. }
  split; [exact Hone|].
  do 4 (split; [reflexivity|]).
  split.
  - rewrite Hone.
    destruct (scanLoop_outcome cfg buffer _ (ptr + 1) (countInvalid s) eq_refl)
      as (k & p & Hk & Hp & [(Hq & Heq) | (Hq & Heq)]);
      rewrite Heq, addInvalid_countInvalid.
    + split; [lia|]. split; [exact Hq|]. exists (1 + k). split; [lia | reflexivity].
    + exists p, (1 + k). split; [lia|]. split; [lia | reflexivity].
  - intros p Hp Hjunk Hhp Hfp Hv. rewrite Hone.
    apply (scanLoop_skips_to_packet cfg buffer p (countInvalid s)
             (Z.to_nat (p - (ptr + 1))));
      try assumption; [lia | lia |].
    intros i Hi. apply Hjunk. lia.
Qed.

Lemma footer_mismatch_resumes_one_byte_on_witness :
  scanLoop defaultConfig (HEADER ++ exampleFrame) 0 initialSession
  = Returned (acceptPacket defaultConfig (HEADER ++ exampleFrame) 6 0 100
                (countInvalid initialSession)).
Proof.
  refine (proj2 (proj2 (proj2 (proj2 (proj2 (proj2
    (footer_mismatch_resumes_one_byte_on defaultConfig
       (HEADER ++ exampleFrame) 0 initialSession _ _ _)))))) 6 _ _ _ _ _).
  - vm_compute. discriminate.
  - reflexivity.
  - reflexivity.
  - vm_compute. split; [reflexivity | intros H; discriminate H].
  - intros i Hi.
    assert (Hcases : i = 1 \/ i = 2 \/ i = 3 \/ i = 4 \/ i = 5) by lia.
    destruct Hcases as [-> | [-> | [-> | [-> | ->]]]]; reflexivity.
  - reflexivity.
  - reflexivity.
  - vm_compute. split; intros H; discriminate H.
Defined.

(** A false header six bytes before a real packet: the packet starts inside
    the fifteen bytes that follow the false header, and it is found. *)
Example packet_after_false_header :
  let r := handleDataReceived defaultConfig (HEADER ++ exampleFrame) initialSession in
  lastReceivedValue r = Some 100
  /\ stats r = {| tx := 0; rx := 1; invalid := 1 |}
  /\ rxBuffer r = [].
Proof. vm_compute. repeat split. Qed.

(** A complete frame alone in the buffer: accepted when its payload is in
    range, counted invalid and skipped otherwise. *)
Lemma scanLoop_single_frame (cfg : Config) (frame : list Z) (s : Session) :
  List.length frame = 15%nat ->
  matchesAt HEADER frame 0 = true ->
  matchesAt FOOTER frame 11 = true ->
  scanLoop cfg frame 0 s =
  let b1 := operand (byteAt frame 6) in
  let b2 := operand (byteAt frame 7) in
  if (0 <=? decodeRx cfg b1 b2) && (decodeRx cfg b1 b2 <=? 4096)
  then Returned (acceptPacket cfg frame 0 b1 b2 s)
  else Exited 15 (countInvalid s).
Proof.
  intros Hlen Hh Hf. rewrite scanLoop_eq. rewrite Hlen.
  change (0 <=? Z.of_nat 15 - PACKET_LEN) with true.
  change (0 + 11) with 11. change (0 + 6) with 6. change (0 + 7) with 7.
  rewrite Hh, Hf. cbv zeta.
  destruct ((0 <=? _) && (_ <=? 4096)); [reflexivity|].
  rewrite scanLoop_eq. rewrite Hlen. reflexivity.
Qed.

(** C3 as stated fails for [LowFirst]: the payload [00 64] decodes to 25600,
    not 25700, which is above 4096; the scan finds no valid packet, no value
    is recorded and the frame is counted invalid. *)
Lemma example_frame_low_first_counterexample :
  decodeRx lowFirstConfig 0 100 = 25600
  /\ ~ findsValidPacket lowFirstConfig exampleFrame
  /\ lastReceivedValue
       (handleDataReceived lowFirstConfig exampleFrame initialSession) <> Some 25700
  /\ stats (handleDataReceived lowFirstConfig exampleFrame initialSession)
     = {| tx := 0; rx := 0; invalid := 1 |}.
Proof.
  split; [reflexivity|]. split; [|split].
  - intros (s & r & Hr).
    rewrite (scanLoop_single_frame lowFirstConfig exampleFrame s) in Hr
      by reflexivity.
    discriminate Hr.
  - vm_compute. discriminate.
  - vm_compute. reflexivity.
Qed.

(** C3, amended.  In strict mode, on an empty buffer, the example frame gives
    one valid measurement of value 100 under [HighFirst]; under [LowFirst] it
    gives none and is counted invalid.  The buffer is empty afterwards in
    both cases. *)
Theorem example_frame_ingest (cfg : Config) (s : Session) :
  enableHeaderCheck cfg = true ->
  rxBuffer s = [] ->
  let r := handleDataReceived cfg exampleFrame s in
  rxBuffer r = []
  /\ if rxIsBigEndian cfg
     then findsValidPacket cfg exampleFrame
          /\ lastReceivedValue r = Some 100
          /\ isRxInvalid r = false
          /\ rx (stats r) = rx (stats s) + 1
          /\ invalid (stats r) = invalid (stats s)
     else ~ findsValidPacket cfg exampleFrame
          /\ lastReceivedValue r
             = (if waitingForResponseRef s then None else lastReceivedValue s)
          /\ rx (stats r) = rx (stats s)
          /\ invalid (stats r) = invalid (stats s) + 1
          /\ chartData r = chartData s.
Proof.
  intros Hs Hb. cbv zeta.
  rewrite handleDataReceived_strict by assumption.
  unfold processRxBuffer. cbv zeta.
  assert (Hbuf : rxBuffer (buffered exampleFrame s) = exampleFrame).
  { destruct_session s. session_simpl. rewrite Hb. reflexivity. }
  rewrite Hbuf.
  rewrite scanLoop_single_frame by reflexivity.
  change (operand (byteAt exampleFrame 6)) with 0.
  change (operand (byteAt exampleFrame 7)) with 100.
  cbv zeta. unfold decodeRx.
  destruct (rxIsBigEndian cfg) eqn:He.
  - change (bytesToDecimal 0 100) with 100.
    change ((0 <=? 100) && (100 <=? 4096)) with true. cbv iota.
    split; [reflexivity|]. split.
    + exists s. eexists. rewrite scanLoop_single_frame by reflexivity.
      unfold decodeRx. rewrite He. reflexivity.
    + destruct_session s. unfold acceptPacket, parseAndRecord, decodeRx.
      rewrite He. change (bytesToDecimal 0 100) with 100.
      destruct sPending; session_simpl; repeat split.
  - change (bytesToDecimal 100 0) with 25600.
    change ((0 <=? 25600) && (25600 <=? 4096)) with false.
    change (0 <? 15) with true. cbv iota.
    split; [|split].
    + destruct (waitingForResponseRef _); reflexivity.
    + intros (s0 & r & Hr).
      rewrite scanLoop_single_frame in Hr by reflexivity.
      unfold decodeRx in Hr. rewrite He in Hr. discriminate Hr.
    + destruct_session s. destruct sWaiting; session_simpl; repeat split.
Qed.

Lemma example_frame_ingest_witness :
  rxBuffer (handleDataReceived defaultConfig exampleFrame initialSession) = []
  /\ lastReceivedValue (handleDataReceived defaultConfig exampleFrame initialSession)
     = Some 100.
Proof.
  destruct (example_frame_ingest defaultConfig initialSession eq_refl eq_refl)
    as (Hb & _ & Hv & _).
  split; [exact Hb | exact Hv].
Defined.

Lemma rxBuffer_buffered (chunk : list Z) (s : Session) :
  rxBuffer (buffered chunk s) = rxBuffer s ++ chunk.
Proof. reflexivity. Qed.

(** A buffer shorter than a packet is left as it is; only the "no valid
    packet yet" signal is raised when a reply is awaited. *)
Lemma processRxBuffer_short (cfg : Config) (s : Session) :
  (List.length (rxBuffer s) < 15)%nat ->
  processRxBuffer cfg s =
  if waitingForResponseRef s
  then setLastReceivedValue None (setIsRxInvalid true s)
  else s.
Proof.
  intros Hlen. unfold processRxBuffer. cbv zeta.
  rewrite scanLoop_eq.
  replace (0 <=? Z.of_nat (List.length (rxBuffer s)) - PACKET_LEN) with false
    by (symmetry; apply Z.leb_gt; unfold PACKET_LEN; lia).
  reflexivity.
Qed.

(** Chunk boundaries do not matter as long as the first chunk leaves less
    than a packet in the buffer. *)
Lemma handleDataReceived_split (cfg : Config) (s : Session) (a b : list Z) :
  enableHeaderCheck cfg = true ->
  (List.length (rxBuffer s ++ a) < 15)%nat ->
  sameButLogs (handleDataReceived cfg b (handleDataReceived cfg a s))
              (handleDataReceived cfg (a ++ b) s).
Proof.
  intros Hs Hlen. rewrite !handleDataReceived_strict by assumption.
  rewrite (processRxBuffer_short cfg (buffered a s))
    by (rewrite rxBuffer_buffered; exact Hlen).
  unfold processRxBuffer. cbv zeta.
  assert (Hb1 : forall t, rxBuffer t = rxBuffer s ++ a ->
                          rxBuffer (buffered b t) = rxBuffer s ++ a ++ b).
  { intros t Ht. rewrite rxBuffer_buffered, Ht, <- app_assoc. reflexivity. }
  assert (Hb2 : rxBuffer (buffered (a ++ b) s) = rxBuffer s ++ a ++ b)
    by reflexivity.
  rewrite Hb2.
  destruct (waitingForResponseRef (buffered a s)) eqn:Hw;
    rewrite Hb1 by reflexivity;
    (destruct (scanLoop_uniform cfg (rxBuffer s ++ a ++ b) 0)
      as [(k & p & _ & _ & _ & Heq) | (k & p & b1 & b2 & _ & _ & _ & Heq)];
     rewrite !Heq; clear Heq;
     destruct_session s; unfold sameButLogs;
     session_simpl; subst;
     destruct (0 <? p); destruct sPending; session_simpl;
     rewrite <- ?app_assoc; reflexivity).
Qed.

(** C7.  In strict mode, a 15-byte packet delivered in two chunks (the first
    [n] bytes, then the rest) to an empty buffer leaves the same session as
    the packet delivered in one chunk: same measurement, same statistics,
    same chart, same buffer.  Only the reception log differs (two lines
    instead of one). *)
Theorem split_packet_same_as_whole
  (cfg : Config) (s : Session) (packet : list Z) (n : nat) :
  enableHeaderCheck cfg = true ->
  rxBuffer s = [] ->
  List.length packet = 15%nat ->
  (0 < n < 15)%nat ->
  sameButLogs
    (handleDataReceived cfg (skipn n packet)
       (handleDataReceived cfg (firstn n packet) s))
    (handleDataReceived cfg packet s).
Proof.
  intros Hs Hb Hlen Hn.
  rewrite <- (firstn_skipn n packet) at 3.
  apply handleDataReceived_split; [assumption|].
  rewrite Hb. cbn [app]. rewrite length_firstn. lia.
Qed.

Lemma split_packet_same_as_whole_witness :
  sameButLogs
    (handleDataReceived defaultConfig (skipn 7 exampleFrame)
       (handleDataReceived defaultConfig (firstn 7 exampleFrame) initialSession))
    (handleDataReceived defaultConfig exampleFrame initialSession).
Proof.
  apply (split_packet_same_as_whole defaultConfig initialSession exampleFrame 7).
  - reflexivity.
  - reflexivity.
  - reflexivity.
  - lia.
Defined.

Example split_seven_eight :
  let r := handleDataReceived defaultConfig (skipn 7 exampleFrame)
             (handleDataReceived defaultConfig (firstn 7 exampleFrame)
                initialSession) in
  lastReceivedValue r = Some 100
  /\ stats r = {| tx := 0; rx := 1; invalid := 0 |}
  /\ rxBuffer r = [].
Proof. vm_compute. repeat split. Qed.

(* ------------------------------------------------------------------------- *)
(** ** The sweep controller *)

(** On an open port whose write resolves, the bytes written are the bytes
    whose hex text was passed. *)
Lemma sendData_writes (cmd : list Z) (s : Session) :
  Forall isByte cmd ->
  sendData PortWrites (uint8ArrayToHex cmd) s =
  countTx (addLog LogTx (HexDump (formatHexString (uint8ArrayToHex cmd)))
             (setWritten (written s ++ [cmd]) s)).
Proof.
  intros Hb. unfold sendData.
  rewrite hexToUint8Array_uint8ArrayToHex by assumption. reflexivity.
Qed.

(** Whatever the port does, [sendData] touches only the log, the written
    bytes, the tx count and [isAutoSending]. *)
Lemma sendData_frame (port : Port) (hex : string) (s : Session) :
  let r := sendData port hex s in
  rxBuffer r = rxBuffer s /\ counterRef r = counterRef s
  /\ pendingFrequencyRef r = pendingFrequencyRef s
  /\ lastSentHexRef r = lastSentHexRef s
  /\ waitingForResponseRef r = waitingForResponseRef s
  /\ isRetrying r = isRetrying s /\ isRxInvalid r = isRxInvalid s
  /\ lastReceivedValue r = lastReceivedValue s
  /\ chartData r = chartData s
  /\ rx (stats r) = rx (stats s) /\ invalid (stats r) = invalid (stats s).
Proof.
  cbv zeta. unfold sendData.
  destruct port; [| destruct (hexToUint8Array hex) |];
    destruct_session s; session_simpl; repeat split.
Qed.

Lemma arraySet_length (arr : list Z) (i v : Z) :
  0 <= i < Z.of_nat (List.length arr) ->
  List.length (arraySet arr i v) = List.length arr.
Proof.
  intros Hi. unfold arraySet.
  replace (i <? 0) with false by (symmetry; apply Z.ltb_ge; lia).
  replace (i <? Z.of_nat (List.length arr)) with true
    by (symmetry; apply Z.ltb_lt; lia).
  rewrite length_app. cbn [List.length].
  rewrite length_firstn, length_skipn. lia.
Qed.

Lemma buildCommand_length (cfg : Config) (baseBytes : list Z) (v : Z) :
  0 <= targetByteIndex cfg < Z.of_nat (List.length baseBytes) - 1 ->
  List.length (buildCommand cfg baseBytes v) = List.length baseBytes.
Proof.
  intros Hi. unfold buildCommand.
  destruct (decimalToBytes v) as [high low].
  rewrite length_map.
  destruct (isBigEndian cfg);
    rewrite arraySet_length; rewrite ?arraySet_length; lia.
Qed.

Lemma buildCommand_nonempty (cfg : Config) (baseBytes : list Z) (v : Z) :
  0 <= targetByteIndex cfg < Z.of_nat (List.length baseBytes) - 1 ->
  buildCommand cfg baseBytes v <> [].
Proof.
  intros Hi Hnil. apply (f_equal (@List.length Z)) in Hnil.
  rewrite buildCommand_length in Hnil by assumption. cbn in Hnil. lia.
Qed.

(** The retry path of [tickAutoSend]. *)
Lemma tickAutoSend_retry (cfg : Config) (s : Session) (cmd : list Z) :
  enableHeaderCheck cfg = true ->
  waitingForResponseRef s = true ->
  lastSentHexRef s = Some (uint8ArrayToHex cmd) ->
  cmd <> [] ->
  Forall isByte cmd ->
  tickAutoSend cfg PortWrites s =
  countTx (addLog LogTx (HexDump (formatHexString (uint8ArrayToHex cmd)))
             (setWritten (written s ++ [cmd]) (setIsRetrying true s))).
Proof.
  intros Hs Hw Hl Hne Hb. unfold tickAutoSend.
  rewrite Hs, Hw, Hl. cbn [andb].
  rewrite truthy_uint8ArrayToHex by assumption.
  rewrite sendData_writes by assumption. reflexivity.
Qed.

(** The retry path on a port that is closed or whose write rejects: nothing
    is written or counted; a rejected write stops the sweep. *)
Lemma tickAutoSend_retry_port_fails
  (cfg : Config) (port : Port) (s : Session) (lastSent : string) :
  enableHeaderCheck cfg = true ->
  waitingForResponseRef s = true ->
  lastSentHexRef s = Some lastSent ->
  truthy lastSent = true ->
  port <> PortWrites ->
  let r := tickAutoSend cfg port s in
  written r = written s
  /\ stats r = stats s
  /\ counterRef r = counterRef s
  /\ waitingForResponseRef r = true
  /\ isRetrying r = true
  /\ isAutoSending r
     = match port with PortRejects => false | _ => isAutoSending s end.
Proof.
  intros Hs Hw Hl Ht Hport. cbv zeta. unfold tickAutoSend.
  rewrite Hs, Hw, Hl, Ht. cbn [andb].
  destruct port; [| congruence |];
    destruct_session s; session_simpl; repeat split; assumption.
Qed.

(** The path of [tickAutoSend] that sends the next command. *)
Lemma tickAutoSend_advance
  (cfg : Config) (port : Port) (baseBytes : list Z) (s : Session) :
  advances cfg baseBytes s ->
  tickAutoSend cfg port s =
  let command := buildCommand cfg baseBytes (counterRef s) in
  setCounter (counterRef s + incrementStep cfg)
    (lockStep cfg
       (sendData port (uint8ArrayToHex command)
          (setLastSentHex (Some (uint8ArrayToHex command))
             (setPendingFrequency (Some (frequencyOf (counterRef s)))
                (setIsRetrying false s))))).
Proof.
  intros (Hw & Hend & Hbase & Hidx). unfold tickAutoSend.
  rewrite Hw. cbv zeta.
  change (counterRef (setIsRetrying false s)) with (counterRef s).
  rewrite Hend, Hbase.
  replace (targetByteIndex cfg <? 0) with false
    by (symmetry; apply Z.ltb_ge; lia).
  replace (Z.of_nat (List.length baseBytes) - 1 <=? targetByteIndex cfg) with false
    by (symmetry; apply Z.leb_gt; lia).
  reflexivity.
Qed.

(** The session after a command has been sent on a port that writes. *)
Lemma tickAutoSend_advance_fields
  (cfg : Config) (baseBytes : list Z) (s : Session) :
  advances cfg baseBytes s ->
  let command := buildCommand cfg baseBytes (counterRef s) in
  let r := tickAutoSend cfg PortWrites s in
  written r = written s ++ [command]
  /\ counterRef r = counterRef s + incrementStep cfg
  /\ pendingFrequencyRef r = Some (frequencyOf (counterRef s))
  /\ lastSentHexRef r = Some (uint8ArrayToHex command)
  /\ waitingForResponseRef r
     = (enableHeaderCheck cfg || waitingForResponseRef s)
  /\ isAutoSending r = isAutoSending s
  /\ isRetrying r = false
  /\ rxBuffer r = rxBuffer s
  /\ chartData r = chartData s
  /\ stats r = {| tx := tx (stats s) + 1; rx := rx (stats s);
                  invalid := invalid (stats s) |}.
Proof.
  intros Hadv. cbv zeta.
  rewrite (tickAutoSend_advance cfg PortWrites baseBytes s Hadv). cbv zeta.
  rewrite sendData_writes by apply buildCommand_isByte.
  unfold lockStep. destruct (enableHeaderCheck cfg);
    destruct_session s; session_simpl; repeat split.
Qed.

(** Stopping a running sweep releases the lock. *)
Lemma toggleAutoSend_stop (cfg : Config) (s : Session) :
  isAutoSending s = true ->
  toggleAutoSend cfg s =
  setRxBuffer []
    (setIsRetrying false
       (setWaitingForResponse false (setIsAutoSending false s))).
Proof.
  intros Hrun. unfold toggleAutoSend. rewrite Hrun. reflexivity.
Qed.

(** The session after a tick through the retry path. *)
Lemma tickAutoSend_retry_fields (cfg : Config) (s : Session) (cmd : list Z) :
  enableHeaderCheck cfg = true ->
  waitingForResponseRef s = true ->
  lastSentHexRef s = Some (uint8ArrayToHex cmd) ->
  cmd <> [] ->
  Forall isByte cmd ->
  let r := tickAutoSend cfg PortWrites s in
  written r = written s ++ [cmd]
  /\ sameButLogs (setWritten (written s) r) (countTx (setIsRetrying true s))
  /\ tx (stats r) = tx (stats s) + 1
  /\ isRetrying r = true
  /\ counterRef r = counterRef s
  /\ pendingFrequencyRef r = pendingFrequencyRef s
  /\ lastSentHexRef r = lastSentHexRef s
  /\ waitingForResponseRef r = true
  /\ chartData r = chartData s
  /\ rx (stats r) = rx (stats s)
  /\ invalid (stats r) = invalid (stats s).
Proof.
  intros Hs Hw Hl Hne Hb. cbv zeta.
  rewrite (tickAutoSend_retry cfg s cmd) by assumption.
  unfold sameButLogs. destruct_session s. session_simpl.
  repeat split; assumption.
Qed.

(** [n] ticks through the retry path. *)
Lemma ticks_retry_fields
  (cfg : Config) (s : Session) (cmd : list Z) (n : nat) :
  enableHeaderCheck cfg = true ->
  waitingForResponseRef s = true ->
  lastSentHexRef s = Some (uint8ArrayToHex cmd) ->
  cmd <> [] ->
  Forall isByte cmd ->
  let r := Nat.iter n (tickAutoSend cfg PortWrites) s in
  written r = written s ++ repeat cmd n
  /\ counterRef r = counterRef s
  /\ pendingFrequencyRef r = pendingFrequencyRef s
  /\ lastSentHexRef r = lastSentHexRef s
  /\ waitingForResponseRef r = true
  /\ ((0 < n)%nat -> isRetrying r = true)
  /\ tx (stats r) = tx (stats s) + Z.of_nat n.
Proof.
  intros Hs Hw Hl Hne Hb. cbv zeta.
  induction n as [|n IH].
  - cbn [Nat.iter nat_rect repeat]. rewrite app_nil_r, Z.add_0_r.
    repeat split; auto. intros H. inversion H.
  - destruct IH as (IHw & IHc & IHp & IHl & IHwait & _ & IHtx).
    rewrite Nat.iter_succ.
    destruct (tickAutoSend_retry_fields cfg
                (Nat.iter n (tickAutoSend cfg PortWrites) s) cmd)
      as (Rw & _ & Rtx & Rr & Rc & Rp & Rl & Rwait & _);
      try assumption.
    { rewrite IHl. exact Hl. }
    split; [|split; [|split; [|split; [|split; [|split]]]]].
    + rewrite Rw, IHw, <- app_assoc. f_equal.
      cbn [repeat]. rewrite repeat_cons. reflexivity.
    + rewrite Rc. exact IHc.
    + rewrite Rp. exact IHp.
    + rewrite Rl. exact IHl.
    + exact Rwait.
    + intros _. exact Rr.
    + rewrite Rtx, IHtx. lia.
Qed.

(** C9.  A tick through the retry path (strict validation, a reply awaited,
    a last command [cmd] stored, the port writing) hands [cmd] to the port,
    adds one to the tx count and sets [isRetrying]; apart from the log line
    of the transmission nothing else changes: counter, pending frequency,
    last command, [waitingForResponse], chart, rx and invalid counts are
    those of before. *)
Theorem retry_tick_frame (cfg : Config) (s : Session) (cmd : list Z) :
  enableHeaderCheck cfg = true ->
  waitingForResponseRef s = true ->
  lastSentHexRef s = Some (uint8ArrayToHex cmd) ->
  cmd <> [] ->
  Forall isByte cmd ->
  let r := tickAutoSend cfg PortWrites s in
  written r = written s ++ [cmd]
  /\ sameButLogs (setWritten (written s) r) (countTx (setIsRetrying true s))
  /\ tx (stats r) = tx (stats s) + 1
  /\ isRetrying r = true
  /\ counterRef r = counterRef s
  /\ pendingFrequencyRef r = pendingFrequencyRef s
  /\ lastSentHexRef r = lastSentHexRef s
  /\ waitingForResponseRef r = true
  /\ chartData r = chartData s
  /\ rx (stats r) = rx (stats s)
  /\ invalid (stats r) = invalid (stats s).
Proof.
  intros Hs Hw Hl Hne Hb.
  apply tickAutoSend_retry_fields; assumption.
Qed.

Lemma retry_tick_frame_witness :
  written
    (tickAutoSend defaultConfig PortWrites
       (tickAutoSend defaultConfig PortWrites
          (toggleAutoSend defaultConfig initialSession)))
  = [[5; 67; 70; 0; 0; 4; 0; 13]; [5; 67; 70; 0; 0; 4; 0; 13]].
Proof.
  apply (retry_tick_frame defaultConfig
           (tickAutoSend defaultConfig PortWrites
              (toggleAutoSend defaultConfig initialSession))
           [5; 67; 70; 0; 0; 4; 0; 13]).
  - reflexivity.
  - reflexivity.
  - reflexivity.
  - discriminate.
  - repeat constructor; unfold isByte; lia.
Defined.

(** Three ticks with no reply: one frequency swept, three transmissions
    counted. *)
Example retransmissions_are_counted :
  let r := tickAutoSend defaultConfig PortWrites
             (tickAutoSend defaultConfig PortWrites
                (tickAutoSend defaultConfig PortWrites
                   (toggleAutoSend defaultConfig initialSession))) in
  tx (stats r) = 3 /\ counterRef r = 3 /\ List.length (written r) = 3%nat.
Proof. vm_compute. repeat split. Qed.

(** C5.  In strict mode, while a reply is awaited, [n] successive ticks on a
    port that writes retransmit [n] times the bytes of the stored last
    command; the counter, the pending frequency and the stored command do not
    move, the reply is still awaited, and [isRetrying] is set as soon as one
    tick has run.  The lock is released by a chunk that completes a valid
    packet, or by stopping the sweep. *)
Theorem retry_until_unlocked
  (cfg : Config) (s : Session) (cmd : list Z) (n : nat) :
  enableHeaderCheck cfg = true ->
  waitingForResponseRef s = true ->
  lastSentHexRef s = Some (uint8ArrayToHex cmd) ->
  cmd <> [] ->
  Forall isByte cmd ->
  let r := Nat.iter n (tickAutoSend cfg PortWrites) s in
  written r = written s ++ repeat cmd n
  /\ counterRef r = counterRef s
  /\ pendingFrequencyRef r = pendingFrequencyRef s
  /\ lastSentHexRef r = lastSentHexRef s
  /\ waitingForResponseRef r = true
  /\ ((0 < n)%nat -> isRetrying r = true)
  /\ tx (stats r) = tx (stats s) + Z.of_nat n
  /\ (forall chunk,
        findsValidPacket cfg (rxBuffer r ++ chunk) ->
        waitingForResponseRef (handleDataReceived cfg chunk r) = false)
  /\ (isAutoSending r = true ->
      waitingForResponseRef (toggleAutoSend cfg r) = false
      /\ isAutoSending (toggleAutoSend cfg r) = false).
Proof.
  intros Hs Hw Hl Hne Hb. cbv zeta.
  destruct (ticks_retry_fields cfg s cmd n Hs Hw Hl Hne Hb)
    as (Rw & Rc & Rp & Rl & Rwait & Rr & Rtx).
  repeat (split; [assumption|]). split.
  - intros chunk Hfind.
    destruct (handleDataReceived_valid cfg chunk _ Hs Hfind)
      as (v & _ & _ & Hunlock & _).
    exact Hunlock.
  - intros Hrun. rewrite (toggleAutoSend_stop cfg _ Hrun).
    split; reflexivity.
Qed.

Lemma retry_until_unlocked_witness :
  written
    (Nat.iter 2 (tickAutoSend defaultConfig PortWrites)
       (tickAutoSend defaultConfig PortWrites
          (toggleAutoSend defaultConfig initialSession)))
  = [[5; 67; 70; 0; 0; 4; 0; 13]] ++ repeat [5; 67; 70; 0; 0; 4; 0; 13] 2.
Proof.
  apply (retry_until_unlocked defaultConfig
           (tickAutoSend defaultConfig PortWrites
              (toggleAutoSend defaultConfig initialSession))
           [5; 67; 70; 0; 0; 4; 0; 13] 2).
  - reflexivity.
  - reflexivity.
  - reflexivity.
  - discriminate.
  - repeat constructor; unfold isByte; lia.
Defined.

(** The command a strict tick has just sent is the one the following ticks
    retransmit, byte for byte. *)
Lemma lock_step_retransmits_sent_command
  (cfg : Config) (baseBytes : list Z) (s : Session) (n : nat) :
  enableHeaderCheck cfg = true ->
  advances cfg baseBytes s ->
  let command := buildCommand cfg baseBytes (counterRef s) in
  let r := Nat.iter n (tickAutoSend cfg PortWrites)
             (tickAutoSend cfg PortWrites s) in
  written r = written s ++ command :: repeat command n
  /\ counterRef r = counterRef s + incrementStep cfg
  /\ pendingFrequencyRef r = Some (frequencyOf (counterRef s))
  /\ waitingForResponseRef r = true.
Proof.
  intros Hs Hadv. cbv zeta.
  destruct (tickAutoSend_advance_fields cfg baseBytes s Hadv)
    as (Tw & Tc & Tp & Tl & Twait & _).
  rewrite Hs in Twait. cbn [orb] in Twait.
  destruct Hadv as (_ & _ & _ & Hidx).
  destruct (ticks_retry_fields cfg (tickAutoSend cfg PortWrites s)
              (buildCommand cfg baseBytes (counterRef s)) n Hs Twait Tl
              (buildCommand_nonempty cfg baseBytes (counterRef s) Hidx)
              (buildCommand_isByte cfg baseBytes (counterRef s)))
    as (Rw & Rc & Rp & _ & Rwait & _).
  repeat split.
  - rewrite Rw, Tw, <- app_assoc. reflexivity.
  - rewrite Rc. exact Tc.
  - rewrite Rp. exact Tp.
  - exact Rwait.
Qed.

(** A valid frame received on an empty buffer in strict mode is accepted. *)
Lemma handleDataReceived_single_frame
  (cfg : Config) (frame : list Z) (s : Session) :
  enableHeaderCheck cfg = true ->
  rxBuffer s = [] ->
  List.length frame = 15%nat ->
  matchesAt HEADER frame 0 = true ->
  matchesAt FOOTER frame 11 = true ->
  0 <= decodeRx cfg (operand (byteAt frame 6)) (operand (byteAt frame 7)) <= 4096 ->
  handleDataReceived cfg frame s =
  acceptPacket cfg frame 0 (operand (byteAt frame 6)) (operand (byteAt frame 7))
    (buffered frame s).
Proof.
  intros Hs Hb Hlen Hh Hf Hv.
  rewrite handleDataReceived_strict by assumption.
  unfold processRxBuffer. cbv zeta.
  rewrite rxBuffer_buffered, Hb. cbn [app].
  rewrite scanLoop_single_frame by assumption. cbv zeta.
  replace (0 <=? decodeRx cfg (operand (byteAt frame 6)) (operand (byteAt frame 7)))
    with true by (symmetry; apply Z.leb_le; lia).
  replace (decodeRx cfg (operand (byteAt frame 6)) (operand (byteAt frame 7)) <=? 4096)
    with true by (symmetry; apply Z.leb_le; lia).
  reflexivity.
Qed.

Lemma decodeRx_zero (cfg : Config) : decodeRx cfg 0 0 = 0.
Proof. unfold decodeRx. destruct (rxIsBigEndian cfg); reflexivity. Qed.

(** The reply [zeroFrame] on an empty buffer: the lock is released and the
    buffer is empty again. *)
Lemma handleDataReceived_zeroFrame (cfg : Config) (s : Session) :
  enableHeaderCheck cfg = true ->
  rxBuffer s = [] ->
  let r := handleDataReceived cfg zeroFrame s in
  waitingForResponseRef r = false /\ rxBuffer r = []
  /\ lastReceivedValue r = Some 0.
Proof.
  intros Hs Hb. cbv zeta.
  rewrite (handleDataReceived_single_frame cfg zeroFrame s Hs Hb);
    try reflexivity.
  - change (operand (byteAt zeroFrame 6)) with 0.
    change (operand (byteAt zeroFrame 7)) with 0.
    unfold acceptPacket, parseAndRecord. rewrite decodeRx_zero.
    destruct_session s. destruct sPending; session_simpl; repeat split.
  - change (operand (byteAt zeroFrame 6)) with 0.
    change (operand (byteAt zeroFrame 7)) with 0.
    rewrite decodeRx_zero. lia.
Qed.

(** The tick that finds the counter past the end of the range. *)
Lemma tickAutoSend_complete (cfg : Config) (port : Port) (s : Session) :
  enableHeaderCheck cfg && waitingForResponseRef s = false ->
  gtNumber (counterRef s) (parseInt16 (stripNonHex (rangeEndHex cfg))) = true ->
  tickAutoSend cfg port s =
  addLog LogInfo SweepComplete (setIsAutoSending false (setIsRetrying false s)).
Proof.
  intros Hw Hend. unfold tickAutoSend. rewrite Hw. cbv zeta.
  change (counterRef (setIsRetrying false s)) with (counterRef s).
  rewrite Hend. reflexivity.
Qed.

(** A successful start. *)
Lemma toggleAutoSend_start (cfg : Config) (s : Session) (startDec endDec : Z) :
  isAutoSending s = false ->
  parseInt16 (stripNonHex (rangeStartHex cfg)) = Some startDec ->
  parseInt16 (stripNonHex (rangeEndHex cfg)) = Some endDec ->
  let r := toggleAutoSend cfg s in
  isAutoSending r = true /\ counterRef r = startDec
  /\ waitingForResponseRef r = false /\ pendingFrequencyRef r = None
  /\ rxBuffer r = [] /\ chartData r = []
  /\ stats r = {| tx := 0; rx := 0; invalid := 0 |}
  /\ written r = written s.
Proof.
  intros Hidle Hstart Hend. cbv zeta. unfold toggleAutoSend.
  rewrite Hidle, Hstart, Hend.
  destruct_session s. session_simpl. repeat split.
Qed.

Lemma reply_unlocks (cfg : Config) (s : Session) :
  (enableHeaderCheck cfg = true -> rxBuffer s = []) ->
  let r := handleDataReceived cfg zeroFrame s in
  enableHeaderCheck cfg && waitingForResponseRef r = false
  /\ (enableHeaderCheck cfg = true -> rxBuffer r = []).
Proof.
  intros Hb. cbv zeta. destruct (enableHeaderCheck cfg) eqn:Hs.
  - destruct (handleDataReceived_zeroFrame cfg s Hs (Hb eq_refl)) as (Hw & Hr & _).
    rewrite Hw. split; [reflexivity | intros _; exact Hr].
  - split; [reflexivity | discriminate].
Qed.

(** C8.  Start 0x0000, end 0x0003, step 3, each command answered before the
    next tick: two ticks transmit, with counters 0 then 3; on the third tick
    the counter is 6 > 3, nothing is transmitted, the sweep stops and the
    completion is logged. *)
Theorem sweep_0_to_3_step_3 (cfg : Config) (baseBytes : list Z) (s : Session) :
  rangeStartHex cfg = "0000"%string ->
  rangeEndHex cfg = "0003"%string ->
  incrementStep cfg = 3 ->
  hexToUint8Array (sweepBaseHex cfg) = Some baseBytes ->
  0 <= targetByteIndex cfg < Z.of_nat (List.length baseBytes) - 1 ->
  isAutoSending s = false ->
  let s0 := toggleAutoSend cfg s in
  let s1 := handleDataReceived cfg zeroFrame (tickAutoSend cfg PortWrites s0) in
  let s2 := handleDataReceived cfg zeroFrame (tickAutoSend cfg PortWrites s1) in
  let s3 := tickAutoSend cfg PortWrites s2 in
  counterRef s0 = 0 /\ counterRef s1 = 3 /\ counterRef s2 = 6
  /\ written s1 = written s ++ [buildCommand cfg baseBytes 0]
  /\ written s2
     = written s ++ [buildCommand cfg baseBytes 0; buildCommand cfg baseBytes 3]
  /\ isAutoSending s2 = true
  /\ written s3 = written s2
  /\ isAutoSending s3 = false
  /\ logs s3 = logs s2 ++ [{| type := LogInfo; data := SweepComplete |}]
  /\ tx (stats s3) = 2.
Proof.
  intros Hstart Hend Hstep Hbase Hidx Hidle. cbv zeta.
  assert (Pend : parseInt16 (stripNonHex (rangeEndHex cfg)) = Some 3)
    by (rewrite Hend; reflexivity).
  assert (Pstart : parseInt16 (stripNonHex (rangeStartHex cfg)) = Some 0)
    by (rewrite Hstart; reflexivity).
  destruct (toggleAutoSend_start cfg s 0 3 Hidle Pstart Pend)
    as (A0 & C0 & W0 & _ & B0 & _ & S0 & Wr0).
  set (s0 := toggleAutoSend cfg s) in *.
  (* first command *)
  assert (Adv0 : advances cfg baseBytes s0).
  { repeat split; try assumption; try lia.
    - rewrite W0. apply andb_false_r.
    - rewrite C0, Pend. reflexivity. }
  destruct (tickAutoSend_advance_fields cfg baseBytes s0 Adv0)
    as (Tw1 & Tc1 & _ & _ & _ & Ta1 & _ & Tb1 & _ & Ts1).
  set (t1 := tickAutoSend cfg PortWrites s0) in *.
  destruct (handleDataReceived_frame cfg zeroFrame t1)
    as (Fc1 & _ & _ & Fw1 & Fa1 & Ft1 & _).
  destruct (reply_unlocks cfg t1) as (U1 & B1).
  { intros _. rewrite Tb1. exact B0. }
  set (s1 := handleDataReceived cfg zeroFrame t1) in *.
  assert (C1 : counterRef s1 = 3) by (rewrite Fc1, Tc1, C0, Hstep; reflexivity).
  (* second command *)
  assert (Adv1 : advances cfg baseBytes s1).
  { repeat split; try assumption; try lia.
    rewrite C1, Pend. reflexivity. }
  destruct (tickAutoSend_advance_fields cfg baseBytes s1 Adv1)
    as (Tw2 & Tc2 & _ & _ & _ & Ta2 & _ & Tb2 & _ & Ts2).
  set (t2 := tickAutoSend cfg PortWrites s1) in *.
  destruct (handleDataReceived_frame cfg zeroFrame t2)
    as (Fc2 & _ & _ & Fw2 & Fa2 & Ft2 & _).
  destruct (reply_unlocks cfg t2) as (U2 & _).
  { intros Hs. rewrite Tb2. exact (B1 Hs). }
  set (s2 := handleDataReceived cfg zeroFrame t2) in *.
  assert (C2 : counterRef s2 = 6) by (rewrite Fc2, Tc2, C1, Hstep; reflexivity).
  (* the tick past the end *)
  rewrite (tickAutoSend_complete cfg PortWrites s2 U2)
    by (rewrite C2, Pend; reflexivity).
  split; [exact C0|]. split; [exact C1|]. split; [exact C2|].
  split; [rewrite Fw1, Tw1, Wr0, C0; reflexivity|].
  split.
  { rewrite Fw2, Tw2, Fw1, Tw1, Wr0, C0, C1, <- app_assoc. reflexivity. }
  split; [rewrite Fa2, Ta2, Fa1, Ta1; exact A0|].
  split; [reflexivity|]. split; [reflexivity|]. split; [reflexivity|].
  change (tx (stats s2) = 2).
  rewrite Ft2, Ts2. cbn [tx]. rewrite Ft1, Ts1. cbn [tx]. rewrite S0.
  reflexivity.
Qed.

Lemma sweep_0_to_3_step_3_witness :
  written
    (handleDataReceived sweep03Config zeroFrame
       (tickAutoSend sweep03Config PortWrites
          (handleDataReceived sweep03Config zeroFrame
             (tickAutoSend sweep03Config PortWrites
                (toggleAutoSend sweep03Config initialSession)))))
  = [[5; 67; 70; 0; 0; 4; 0; 13]; [5; 67; 70; 0; 3; 4; 0; 13]]
  /\ isAutoSending
       (tickAutoSend sweep03Config PortWrites
          (handleDataReceived sweep03Config zeroFrame
             (tickAutoSend sweep03Config PortWrites
                (handleDataReceived sweep03Config zeroFrame
                   (tickAutoSend sweep03Config PortWrites
                      (toggleAutoSend sweep03Config initialSession))))))
     = false.
Proof.
  destruct (sweep_0_to_3_step_3 sweep03Config [5; 67; 70; 13; 70; 4; 0; 13]
              initialSession eq_refl eq_refl eq_refl eq_refl
              ltac:(cbn; lia) eq_refl)
    as (_ & _ & _ & _ & Hw & _ & _ & Hstop & _).
  split; [exact Hw | exact Hstop].
Defined.

(** The same sweep without strict validation: no reply is needed. *)
Example sweep_0_to_3_step_3_standard_mode :
  let cfg := {| sweepBaseHex := "05 43 46 0D 46 04 00 0D";
                rangeStartHex := "0000"; rangeEndHex := "0003";
                incrementStep := 3; targetByteIndex := 3; isBigEndian := true;
                rxByteIndex := 6; rxIsBigEndian := true;
                enableHeaderCheck := false |} in
  let s2 := tickAutoSend cfg PortWrites
              (tickAutoSend cfg PortWrites (toggleAutoSend cfg initialSession)) in
  let s3 := tickAutoSend cfg PortWrites s2 in
  written s2 = [[5; 67; 70; 0; 0; 4; 0; 13]; [5; 67; 70; 0; 3; 4; 0; 13]]
  /\ counterRef s2 = 6 /\ isAutoSending s2 = true
  /\ written s3 = written s2 /\ isAutoSending s3 = false
  /\ logs s3 = logs s2 ++ [{| type := LogInfo; data := SweepComplete |}].
Proof. vm_compute. repeat split. Qed.

(* ------------------------------------------------------------------------- *)
(** ** Correlation of measurements and frequencies *)

(** C1 as stated fails: after a valid measurement the pending frequency is
    still set, and a second valid measurement received before the next tick
    is charted at the same frequency. *)
Lemma pending_frequency_not_cleared_counterexample :
  pendingFrequencyRef
    (handleDataReceived sweepFrom1Config exampleFrame
       (tickAutoSend sweepFrom1Config PortWrites
          (toggleAutoSend sweepFrom1Config initialSession)))
  <> None
  /\ chartData
       (handleDataReceived sweepFrom1Config exampleFrame
          (handleDataReceived sweepFrom1Config exampleFrame
             (tickAutoSend sweepFrom1Config PortWrites
                (toggleAutoSend sweepFrom1Config initialSession))))
     = [{| x := 4883 # 10000; y := 100 |}; {| x := 4883 # 10000; y := 100 |}].
Proof.
  split.
  - vm_compute. discriminate.
  - vm_compute. reflexivity.
Qed.

(** C1, amended.  In strict mode, a chunk that completes a valid packet while
    a pending frequency [f] is set clears [waitingForResponse] and
    [isRetrying], adds one to the valid-rx count and appends the point
    ([f] rounded to four decimals, value) to the chart; the pending
    frequency stays set, and a second valid packet received before the next
    tick appends a second point at the same frequency. *)
Theorem valid_measurement_keeps_pending
  (cfg : Config) (s : Session) (chunk1 chunk2 : list Z) (f : Q) :
  enableHeaderCheck cfg = true ->
  pendingFrequencyRef s = Some f ->
  findsValidPacket cfg (rxBuffer s ++ chunk1) ->
  findsValidPacket cfg
    (rxBuffer (handleDataReceived cfg chunk1 s) ++ chunk2) ->
  let s1 := handleDataReceived cfg chunk1 s in
  let s2 := handleDataReceived cfg chunk2 s1 in
  waitingForResponseRef s1 = false
  /\ isRetrying s1 = false
  /\ rx (stats s1) = rx (stats s) + 1
  /\ pendingFrequencyRef s1 = Some f
  /\ exists v1 v2,
       lastReceivedValue s1 = Some v1
       /\ chartData s1 = chartData s ++ [{| x := toFixed4 f; y := v1 |}]
       /\ lastReceivedValue s2 = Some v2
       /\ chartData s2
          = chartData s ++ [{| x := toFixed4 f; y := v1 |};
                            {| x := toFixed4 f; y := v2 |}].
Proof.
  intros Hs Hf H1 H2. cbv zeta.
  destruct (handleDataReceived_valid cfg chunk1 s Hs H1)
    as (v1 & _ & L1 & W1 & R1 & _ & X1 & P1 & C1).
  destruct (handleDataReceived_valid cfg chunk2 _ Hs H2)
    as (v2 & _ & L2 & _ & _ & _ & _ & _ & C2).
  rewrite P1, Hf in C2. rewrite Hf in C1, P1.
  repeat split; try assumption.
  exists v1, v2. repeat split; try assumption.
  rewrite C2, C1, <- app_assoc. reflexivity.
Qed.

Lemma valid_measurement_keeps_pending_witness :
  pendingFrequencyRef
    (handleDataReceived sweepFrom1Config exampleFrame
       (tickAutoSend sweepFrom1Config PortWrites
          (toggleAutoSend sweepFrom1Config initialSession)))
  = Some (frequencyOf 1).
Proof.
  refine (proj1 (proj2 (proj2 (proj2
    (valid_measurement_keeps_pending sweepFrom1Config
       (tickAutoSend sweepFrom1Config PortWrites
          (toggleAutoSend sweepFrom1Config initialSession))
       exampleFrame exampleFrame (frequencyOf 1) eq_refl eq_refl _ _))))).
  - exists initialSession. eexists. vm_compute. reflexivity.
  - exists initialSession. eexists. vm_compute. reflexivity.
Defined.

(** Whatever the port does, a tick that sends the next command stores the
    frequency of the counter it sends and then moves the counter. *)
Lemma tickAutoSend_advance_pending
  (cfg : Config) (port : Port) (baseBytes : list Z) (s : Session) :
  advances cfg baseBytes s ->
  let r := tickAutoSend cfg port s in
  pendingFrequencyRef r = Some (frequencyOf (counterRef s))
  /\ counterRef r = counterRef s + incrementStep cfg
  /\ chartData r = chartData s.
Proof.
  intros Hadv. cbv zeta.
  rewrite (tickAutoSend_advance cfg port baseBytes s Hadv). cbv zeta.
  set (hex := uint8ArrayToHex _).
  set (t := setLastSentHex _ _).
  destruct (sendData_frame port hex t) as (_ & Hc & Hp & _ & _ & _ & _ & _ & Hch & _).
  unfold lockStep. destruct (enableHeaderCheck cfg).
  - change (pendingFrequencyRef (sendData port hex t)
            = Some (frequencyOf (counterRef s))
            /\ counterRef s + incrementStep cfg = counterRef s + incrementStep cfg
            /\ chartData (sendData port hex t) = chartData s).
    rewrite Hp, Hch. repeat split.
  - change (pendingFrequencyRef (sendData port hex t)
            = Some (frequencyOf (counterRef s))
            /\ counterRef s + incrementStep cfg = counterRef s + incrementStep cfg
            /\ chartData (sendData port hex t) = chartData s).
    rewrite Hp, Hch. repeat split.
Qed.

(** Chunks received while the pending frequency is [f]: every point they add
    to the chart is at [f] rounded; counter and pending frequency stay. *)
Lemma chunks_chart (cfg : Config) (f : Q) (chunks : list (list Z)) :
  forall s,
    pendingFrequencyRef s = Some f ->
    let r := fold_left (fun t c => handleDataReceived cfg c t) chunks s in
    counterRef r = counterRef s
    /\ pendingFrequencyRef r = Some f
    /\ exists points,
         chartData r = chartData s ++ points
         /\ Forall (fun p => x p = toFixed4 f) points.
Proof.
  induction chunks as [|c rest IH]; intros s Hf; cbv zeta.
  - cbn [fold_left]. repeat split; auto.
    exists []. rewrite app_nil_r. split; [reflexivity | constructor].
  - cbn [fold_left].
    destruct (handleDataReceived_frame cfg c s)
      as (Hc & Hp & _ & _ & _ & _ & Hch).
    rewrite Hf in Hp.
    destruct (IH (handleDataReceived cfg c s) Hp) as (Rc & Rp & points & Rch & Rall).
    split; [rewrite Rc; exact Hc|]. split; [exact Rp|].
    destruct Hch as [Hsame | (f' & v & Hf' & Happ)].
    + exists points. rewrite Rch, Hsame. split; [reflexivity | exact Rall].
    + exists ({| x := toFixed4 f'; y := v |} :: points).
      rewrite Rch, Happ, <- app_assoc. split; [reflexivity|].
      constructor; [|exact Rall].
      cbn [x]. congruence.
Qed.

Lemma roundHalfUp4_exact (n : Z) (v : Q) :
  (v * 10000 == inject_Z n)%Q -> (roundHalfUp4 v == v)%Q.
Proof.
  intros H. unfold roundHalfUp4.
  assert (Hfloor : Qfloor (v * 10000 + (1 # 2))%Q = n).
  { rewrite (Qfloor_comp _ (inject_Z n + (1 # 2))%Q) by (rewrite H; reflexivity).
    unfold Qfloor, Qplus, inject_Z. cbn [Qnum Qden].
    replace (n * Z.pos 2 + 1 * Z.pos 1) with (1 + n * 2) by lia.
    change (Z.pos (1 * 2)) with 2.
    rewrite Z.div_add by lia. reflexivity. }
  rewrite Hfloor. destruct v as [a b].
  unfold Qeq, Qmult, inject_Z in *. cbn [Qnum Qden] in *.
  rewrite Pos.mul_1_r in H. lia.
Qed.

(** When four decimals are enough the rounding changes nothing. *)
Lemma toFixed4_exact (n : Z) (v : Q) :
  (v * 10000 == inject_Z n)%Q -> (toFixed4 v == v)%Q.
Proof.
  intros H. unfold toFixed4. destruct (Qle_bool 0 v).
  - apply (roundHalfUp4_exact n). exact H.
  - rewrite (roundHalfUp4_exact (- n)).
    + apply Qopp_involutive.
    + rewrite inject_Z_opp, <- H. ring.
Qed.

(** A code that is a multiple of 16 has a frequency with at most four
    decimals: its chart abscissa is the frequency itself. *)
Lemma toFixed4_frequencyOf_multiple_of_16 (m : Z) :
  (toFixed4 (frequencyOf (16 * m)) == frequencyOf (16 * m))%Q.
Proof.
  apply (toFixed4_exact (78125 * m)).
  unfold frequencyOf, Qeq, Qdiv, Qmult, Qinv, inject_Z. cbn [Qnum Qden].
  lia.
Qed.

(** C4 as stated fails: the abscissa of a chart point is
    [Number(pending.toFixed(4))], and for code 1 the frequency 0.48828125
    is charted as 0.4883. *)
Lemma chart_frequency_is_rounded_counterexample :
  chartData
    (handleDataReceived sweepFrom1Config exampleFrame
       (tickAutoSend sweepFrom1Config PortWrites
          (toggleAutoSend sweepFrom1Config initialSession)))
  = [{| x := 4883 # 10000; y := 100 |}]
  /\ ~ (4883 # 10000 == frequencyOf 1)%Q.
Proof.
  split.
  - vm_compute. reflexivity.
  - vm_compute. discriminate.
Qed.

(** After a tick that builds the command of counter [code], every point that
    the chunks received before the next tick add to the chart has the
    abscissa [(code / 65536) * 32000] rounded to four decimals, although the
    counter has already moved to [code + step]. *)
Lemma chunks_after_advancing_tick
  (cfg : Config) (port : Port) (baseBytes : list Z) (s : Session)
  (chunks : list (list Z)) :
  advances cfg baseBytes s ->
  let code := counterRef s in
  let s1 := tickAutoSend cfg port s in
  let s2 := fold_left (fun t c => handleDataReceived cfg c t) chunks s1 in
  counterRef s2 = code + incrementStep cfg
  /\ exists points,
       chartData s2 = chartData s ++ points
       /\ Forall (fun p => x p = toFixed4 (frequencyOf code)) points.
Proof.
  intros Hadv. cbv zeta.
  destruct (tickAutoSend_advance_pending cfg port baseBytes s Hadv)
    as (Hp & Hc & Hch).
  destruct (chunks_chart cfg (frequencyOf (counterRef s)) chunks
              (tickAutoSend cfg port s) Hp)
    as (Rc & _ & points & Rch & Rall).
  split; [rewrite Rc; exact Hc|].
  exists points. rewrite Rch, Hch. split; [reflexivity | exact Rall].
Qed.

(* ------------------------------------------------------------------------- *)
(** ** Starting a sweep *)

(** The start is refused when the start or the end text holds no hex digit;
    the session is left as it was, with one error line logged. *)
Lemma toggleAutoSend_refused (cfg : Config) (s : Session) :
  isAutoSending s = false ->
  parseInt16 (stripNonHex (rangeStartHex cfg)) = None
  \/ parseInt16 (stripNonHex (rangeEndHex cfg)) = None ->
  toggleAutoSend cfg s = addLog LogError InvalidStartEndHexValues s.
Proof.
  intros Hidle Hnan. unfold toggleAutoSend. rewrite Hidle.
  destruct Hnan as [Hn | Hn]; rewrite Hn;
    destruct (parseInt16 (stripNonHex (rangeStartHex cfg))); reflexivity.
Qed.

(** C2 as stated fails: with start 0x0005 above end 0x0003 the start is
    accepted, the session is running and no error is logged. *)
Lemma start_accepts_inverted_range_counterexample :
  isAutoSending (toggleAutoSend invertedRangeConfig initialSession) = true
  /\ logs (toggleAutoSend invertedRangeConfig initialSession)
     = [{| type := LogInfo; data := StartingSweep "0005" "0003" 3 0 |}].
Proof. vm_compute. split; reflexivity. Qed.

(** The step is not examined either: with step 0 the sweep starts and the
    first tick transmits. *)
Example start_accepts_zero_step :
  let cfg := {| sweepBaseHex := "05 43 46 0D 46 04 00 0D";
                rangeStartHex := "0000"; rangeEndHex := "00C8";
                incrementStep := 0; targetByteIndex := 3; isBigEndian := true;
                rxByteIndex := 6; rxIsBigEndian := true;
                enableHeaderCheck := true |} in
  isAutoSending (toggleAutoSend cfg initialSession) = true
  /\ written (tickAutoSend cfg PortWrites (toggleAutoSend cfg initialSession))
     = [[5; 67; 70; 0; 0; 4; 0; 13]].
Proof. vm_compute. split; reflexivity. Qed.

(** C2, amended.  From Idle, the start is refused only when the start or the
    end text does not parse: an error is logged, nothing is transmitted and
    the session stays Idle.  When both parse, the session is running with the
    counter at start, whatever the order of start and end and whatever the
    step; nothing is transmitted by the start, and when start > end the first
    tick transmits nothing either: it stops the sweep and logs its
    completion. *)
Theorem start_refused_only_on_unparsable_range (cfg : Config) (s : Session) :
  isAutoSending s = false ->
  let r := toggleAutoSend cfg s in
  written r = written s
  /\ match parseInt16 (stripNonHex (rangeStartHex cfg)),
           parseInt16 (stripNonHex (rangeEndHex cfg)) with
     | Some startDec, Some endDec =>
         isAutoSending r = true
         /\ counterRef r = startDec
         /\ (endDec < startDec ->
             forall port,
               let t := tickAutoSend cfg port r in
               written t = written s
               /\ isAutoSending t = false
               /\ logs t = logs r ++ [{| type := LogInfo; data := SweepComplete |}])
     | _, _ =>
         isAutoSending r = false
         /\ sameButLogs r s
         /\ logs r
            = logs s ++ [{| type := LogError; data := InvalidStartEndHexValues |}]
     end.
Proof.
  intros Hidle. cbv zeta.
  destruct (parseInt16 (stripNonHex (rangeStartHex cfg))) as [startDec|] eqn:Hstart;
    [destruct (parseInt16 (stripNonHex (rangeEndHex cfg))) as [endDec|] eqn:Hend|].
  - destruct (toggleAutoSend_start cfg s startDec endDec Hidle Hstart Hend)
      as (Ha & Hc & Hw & _ & _ & _ & _ & Hwr).
    split; [exact Hwr|]. split; [exact Ha|]. split; [exact Hc|].
    intros Hinv port.
    rewrite (tickAutoSend_complete cfg port (toggleAutoSend cfg s)).
    + rewrite <- Hwr. repeat split.
    + rewrite Hw. apply andb_false_r.
    + rewrite Hc, Hend. apply Z.ltb_lt. exact Hinv.
  - rewrite (toggleAutoSend_refused cfg s Hidle) by (right; exact Hend).
    destruct_session s. unfold sameButLogs. session_simpl. repeat split.
    exact Hidle.
  - rewrite (toggleAutoSend_refused cfg s Hidle) by (left; exact Hstart).
    destruct_session s. unfold sameButLogs. session_simpl. repeat split.
    exact Hidle.
Qed.

Lemma start_refused_only_on_unparsable_range_witness :
  written (toggleAutoSend invertedRangeConfig initialSession) = [].
Proof.
  exact (proj1 (start_refused_only_on_unparsable_range
                  invertedRangeConfig initialSession eq_refl)).
Defined.

(* ------------------------------------------------------------------------- *)
(** ** Invariants of a run *)

(** A tick either leaves the lock, the stored command, the pending frequency
    and the counter as they are (retry, completion, refusal of the template),
    or sends the command of the current counter. *)
Lemma tickAutoSend_cases (cfg : Config) (port : Port) (s : Session) :
  let r := tickAutoSend cfg port s in
  (waitingForResponseRef r = waitingForResponseRef s
   /\ lastSentHexRef r = lastSentHexRef s
   /\ pendingFrequencyRef r = pendingFrequencyRef s
   /\ counterRef r = counterRef s)
  \/ (exists baseBytes,
         advances cfg baseBytes s
         /\ lastSentHexRef r
            = Some (uint8ArrayToHex (buildCommand cfg baseBytes (counterRef s)))
         /\ pendingFrequencyRef r = Some (frequencyOf (counterRef s))
         /\ counterRef r = counterRef s + incrementStep cfg).
Proof.
  cbv zeta.
  destruct (enableHeaderCheck cfg && waitingForResponseRef s) eqn:Hw.
  - left. unfold tickAutoSend. rewrite Hw.
    destruct (lastSentHexRef s) as [lastSent|] eqn:Hl; [|auto].
    destruct (truthy lastSent); [|auto].
    destruct (sendData_frame port lastSent (setIsRetrying true s))
      as (_ & Hc & Hp & Hls & Hwait & _).
    rewrite Hc, Hp, Hls, Hwait. auto.
  - destruct (gtNumber (counterRef s)
                (parseInt16 (stripNonHex (rangeEndHex cfg)))) eqn:Hend.
    { left. rewrite (tickAutoSend_complete cfg port s Hw Hend). auto. }
    destruct (hexToUint8Array (sweepBaseHex cfg)) as [baseBytes|] eqn:Hbase.
    2:{ left. unfold tickAutoSend. rewrite Hw. cbv zeta.
        change (counterRef (setIsRetrying false s)) with (counterRef s).
        rewrite Hend, Hbase. auto. }
    destruct ((targetByteIndex cfg <? 0)
              || (Z.of_nat (List.length baseBytes) - 1 <=? targetByteIndex cfg))
      eqn:Hidx.
    { left. unfold tickAutoSend. rewrite Hw. cbv zeta.
      change (counterRef (setIsRetrying false s)) with (counterRef s).
      rewrite Hend, Hbase, Hidx. auto. }
    right. exists baseBytes.
    apply orb_false_elim in Hidx. destruct Hidx as [Hlo Hhi].
    apply Z.ltb_ge in Hlo. apply Z.leb_gt in Hhi.
    assert (Hadv : advances cfg baseBytes s)
      by (repeat split; try assumption; lia).
    split; [exact Hadv|].
    destruct (tickAutoSend_advance_pending cfg port baseBytes s Hadv)
      as (Hp & Hc & _).
    split; [|split; assumption].
    rewrite (tickAutoSend_advance cfg port baseBytes s Hadv). cbv zeta.
    set (hex := uint8ArrayToHex _). set (t := setPendingFrequency _ _).
    destruct (sendData_frame port hex (setLastSentHex (Some hex) t))
      as (_ & _ & _ & Hls & _).
    unfold lockStep. destruct (enableHeaderCheck cfg); exact Hls.
Qed.

(** A received chunk can release the lock; it never sets it. *)
Lemma handleDataReceived_waiting (cfg : Config) (chunk : list Z) (s : Session) :
  waitingForResponseRef (handleDataReceived cfg chunk s) = true ->
  waitingForResponseRef s = true.
Proof.
  rewrite handleDataReceived_eq. cbv zeta.
  destruct (enableHeaderCheck cfg).
  - destruct (processRxBuffer_cases cfg (buffered chunk s))
      as [(k & p & _ & _ & _ & Heq) | (k & p & b1 & b2 & _ & _ & _ & _ & Heq)];
      rewrite Heq; clear Heq; destruct_session s.
    + destruct (0 <? p), sWaiting; session_simpl; auto.
    + destruct sPending; session_simpl; discriminate.
  - destruct (rxByteIndex cfg + 1 <? Z.of_nat (List.length (rxBuffer (buffered chunk s))));
      destruct_session s; [destruct sPending|]; session_simpl; auto.
Qed.

(** What the sweep button does to the lock, the pending frequency and the
    stored command. *)
Lemma toggleAutoSend_cases (cfg : Config) (s : Session) :
  let r := toggleAutoSend cfg s in
  lastSentHexRef r = lastSentHexRef s
  /\ ((waitingForResponseRef r = false /\ pendingFrequencyRef r = None)
      \/ (waitingForResponseRef r = false
          /\ pendingFrequencyRef r = pendingFrequencyRef s
          /\ counterRef r = counterRef s)
      \/ (waitingForResponseRef r = waitingForResponseRef s
          /\ pendingFrequencyRef r = pendingFrequencyRef s
          /\ counterRef r = counterRef s)).
Proof.
  cbv zeta. unfold toggleAutoSend.
  destruct (isAutoSending s).
  - destruct_session s. session_simpl. auto 10.
  - destruct (parseInt16 (stripNonHex (rangeStartHex cfg)));
      [destruct (parseInt16 (stripNonHex (rangeEndHex cfg)))|];
      destruct_session s; session_simpl; auto 10.
Qed.

Lemma step_lockInvariant (cfg : Config) (s : Session) (e : Event) :
  lockInvariant s -> lockInvariant (step cfg s e).
Proof.
  intros Hinv. destruct e as [port | chunk |]; cbn [step].
  - destruct (isAutoSending s); [|exact Hinv].
    destruct (tickAutoSend_cases cfg port s)
      as [(Hw & Hl & _) | (baseBytes & Hadv & Hl & _)].
    + unfold lockInvariant. rewrite Hw, Hl. exact Hinv.
    + intros _. exists (buildCommand cfg baseBytes (counterRef s)).
      destruct Hadv as (_ & _ & _ & Hidx).
      split; [exact Hl|]. split.
      * apply buildCommand_nonempty. exact Hidx.
      * apply buildCommand_isByte.
  - intros Hw. apply handleDataReceived_waiting in Hw.
    destruct (handleDataReceived_frame cfg chunk s) as (_ & _ & Hl & _).
    rewrite Hl. exact (Hinv Hw).
  - destruct (toggleAutoSend_cases cfg s)
      as (Hl & [(Hw & _) | [(Hw & _) | (Hw & _)]]);
      unfold lockInvariant; rewrite Hw, Hl; [discriminate | discriminate | exact Hinv].
Qed.

Lemma step_pendingInvariant (cfg : Config) (s : Session) (e : Event) :
  pendingInvariant cfg s -> pendingInvariant cfg (step cfg s e).
Proof.
  intros Hinv. destruct e as [port | chunk |]; cbn [step]; unfold pendingInvariant.
  - destruct (isAutoSending s); [|exact Hinv].
    destruct (tickAutoSend_cases cfg port s)
      as [(_ & _ & Hp & Hc) | (baseBytes & _ & _ & Hp & Hc)].
    + rewrite Hp, Hc. exact Hinv.
    + right. rewrite Hp, Hc. do 2 f_equal. lia.
  - destruct (handleDataReceived_frame cfg chunk s) as (Hc & Hp & _).
    rewrite Hp, Hc. exact Hinv.
  - destruct (toggleAutoSend_cases cfg s)
      as (_ & [(_ & Hp) | [(_ & Hp & Hc) | (_ & Hp & Hc)]]).
    + left. exact Hp.
    + rewrite Hp, Hc. exact Hinv.
    + rewrite Hp, Hc. exact Hinv.
Qed.

(** In every session reached from the initial one, a reply is awaited only
    for a stored command, and the pending frequency is that of the code one
    step behind the counter. *)
Lemma run_invariants (cfg : Config) (events : list Event) :
  lockInvariant (run cfg events initialSession)
  /\ pendingInvariant cfg (run cfg events initialSession).
Proof.
  unfold run.
  assert (H : forall s, lockInvariant s /\ pendingInvariant cfg s ->
                        lockInvariant (fold_left (step cfg) events s)
                        /\ pendingInvariant cfg (fold_left (step cfg) events s)).
  { induction events as [|e rest IH]; intros s [Hl Hp]; cbn [fold_left].
    - split; assumption.
    - apply IH. split.
      + apply step_lockInvariant. exact Hl.
      + apply step_pendingInvariant. exact Hp. }
  apply H. split.
  - intros Hw. discriminate Hw.
  - left. reflexivity.
Qed.

(** Hence in every reachable session with strict validation on, a tick taken
    while a reply is awaited retransmits: the stored command exists. *)
Lemma reachable_retry_retransmits (cfg : Config) (events : list Event) :
  enableHeaderCheck cfg = true ->
  waitingForResponseRef (run cfg events initialSession) = true ->
  exists cmd,
    lastSentHexRef (run cfg events initialSession) = Some (uint8ArrayToHex cmd)
    /\ written (tickAutoSend cfg PortWrites (run cfg events initialSession))
       = written (run cfg events initialSession) ++ [cmd]
    /\ counterRef (tickAutoSend cfg PortWrites (run cfg events initialSession))
       = counterRef (run cfg events initialSession).
Proof.
  intros Hs Hw.
  destruct (proj1 (run_invariants cfg events) Hw) as (cmd & Hl & Hne & Hb).
  exists cmd. split; [exact Hl|].
  destruct (tickAutoSend_retry_fields cfg _ cmd Hs Hw Hl Hne Hb)
    as (Hwr & _ & _ & _ & Hc & _).
  split; assumption.
Qed.

(* ------------------------------------------------------------------------- *)
(** ** More on the byte codec *)

Lemma isHexDigit_toUpperChar (c : ascii) :
  isHexDigit c = true -> isUpperHex (toUpperChar c) = true.
Proof.
  destruct c as [[] [] [] [] [] [] [] []]; vm_compute; intros H;
    first [reflexivity | discriminate H].
Qed.

Lemma isUpperHex_facts (c : ascii) :
  isUpperHex c = true ->
  isHexDigit c = true /\ toUpperChar c = c /\ In c upperHexChars.
Proof.
  destruct c as [[] [] [] [] [] [] [] []]; vm_compute; intros H;
    first [discriminate H | intuition reflexivity].
Qed.

Lemma length_toUpperCase (s : string) :
  String.length (toUpperCase s) = String.length s.
Proof.
  induction s as [|c rest IH]; cbn [toUpperCase String.length]; congruence.
Qed.

Lemma cleanHexString_upperHex (input : string) :
  allChars isUpperHex (cleanHexString input) = true.
Proof.
  unfold cleanHexString.
  induction input as [|c rest IH]; [reflexivity|].
  cbn [stripNonHex]. destruct (isHexDigit c) eqn:Hc; [|exact IH].
  cbn [toUpperCase allChars]. rewrite (isHexDigit_toUpperChar c Hc). exact IH.
Qed.

(** A text of upper-case hex digits is left as it is by the cleaning. *)
Lemma cleanHexString_fixpoint (s : string) :
  allChars isUpperHex s = true -> cleanHexString s = s.
Proof.
  unfold cleanHexString.
  induction s as [|c rest IH]; [reflexivity|].
  cbn [allChars]. intros H. apply andb_prop in H. destruct H as [Hc Hrest].
  destruct (isUpperHex_facts c Hc) as (Hd & Hu & _).
  cbn [stripNonHex]. rewrite Hd. cbn [toUpperCase]. rewrite Hu, (IH Hrest).
  reflexivity.
Qed.

Lemma all_pairs_round_trip :
  forallb (fun a => forallb (pairRoundTrips a) upperHexChars) upperHexChars
  = true.
Proof. vm_compute. reflexivity. Qed.

Lemma byteToHex_of_pair (a b : ascii) :
  isUpperHex a = true -> isUpperHex b = true ->
  byteToHex (toUint8 (parseInt16 (String a (String b EmptyString))))
  = String a (String b EmptyString).
Proof.
  intros Ha Hb.
  destruct (isUpperHex_facts a Ha) as (_ & _ & Ia).
  destruct (isUpperHex_facts b Hb) as (_ & _ & Ib).
  pose proof (proj1 (forallb_forall _ _) all_pairs_round_trip a Ia) as H1.
  pose proof (proj1 (forallb_forall _ _) H1 b Ib) as H2.
  apply String.eqb_eq. exact H2.
Qed.

(** Induction on a text two characters at a time. *)
Lemma string_pairs_ind (P : string -> Prop) :
  P EmptyString ->
  (forall a, P (String a EmptyString)) ->
  (forall a b rest, P rest -> P (String a (String b rest))) ->
  forall s, P s.
Proof.
  intros H0 H1 H2.
  assert (H : forall s, P s /\ forall a, P (String a s)).
  { induction s as [|c rest [IH1 IH2]].
    - split; [exact H0 | exact H1].
    - split; [apply IH2|]. intros a. apply H2. exact IH1. }
  intros s. apply H.
Qed.

Lemma chunksOfTwo_nil (s : string) : chunksOfTwo s = [] -> s = EmptyString.
Proof.
  destruct s as [|a [|b rest]]; cbn [chunksOfTwo]; intros H;
    [reflexivity | discriminate H | discriminate H].
Qed.

(** The canonical text of a cleaned text cleans back to it. *)
Lemma cleanHexString_concat_chunks (s : string) :
  allChars isUpperHex s = true ->
  cleanHexString (String.concat " " (chunksOfTwo s)) = s.
Proof.
  induction s as [| a | a b rest IH] using string_pairs_ind; intros Hall.
  - reflexivity.
  - cbn [chunksOfTwo String.concat]. apply cleanHexString_fixpoint. exact Hall.
  - cbn [allChars] in Hall.
    apply andb_prop in Hall. destruct Hall as [Ha Hall].
    apply andb_prop in Hall. destruct Hall as [Hb Hrest].
    destruct (isUpperHex_facts a Ha) as (Da & Ua & _).
    destruct (isUpperHex_facts b Hb) as (Db & Ub & _).
    cbn [chunksOfTwo].
    destruct (chunksOfTwo rest) as [|c cs] eqn:Hc.
    + apply chunksOfTwo_nil in Hc. subst rest.
      cbn [String.concat]. unfold cleanHexString. cbn [stripNonHex].
      rewrite Da, Db. cbn [toUpperCase]. rewrite Ua, Ub. reflexivity.
    + change (String.concat " " (String a (String b EmptyString) :: c :: cs))
        with (String a (String b (String " " (String.concat " " (c :: cs))))).
      unfold cleanHexString in *. cbn [stripNonHex]. rewrite Da, Db.
      replace (isHexDigit " ") with false by reflexivity.
      cbn [toUpperCase]. rewrite Ua, Ub, (IH Hrest). reflexivity.
Qed.

Lemma cleanHexString_formatHexString (input : string) :
  cleanHexString (formatHexString input) = cleanHexString input.
Proof.
  unfold formatHexString. apply cleanHexString_concat_chunks.
  apply cleanHexString_upperHex.
Qed.

(** X1.  [hexToUint8Array] undoes [uint8ArrayToHex]: the hex text of a byte
    array never makes the parser throw, and parses back to the array. *)
Theorem hex_text_of_bytes_parses_back (bytes : list Z) :
  Forall isByte bytes ->
  hexToUint8Array (uint8ArrayToHex bytes) = Some bytes.
Proof. apply hexToUint8Array_uint8ArrayToHex. Qed.

Lemma hex_text_of_bytes_parses_back_witness :
  hexToUint8Array (uint8ArrayToHex [0; 15; 16; 171; 255])
  = Some [0; 15; 16; 171; 255].
Proof.
  apply (hex_text_of_bytes_parses_back [0; 15; 16; 171; 255]).
  repeat constructor; unfold isByte; lia.
Defined.

Lemma map_byteToHex_hexPairs (s : string) :
  allChars isUpperHex s = true ->
  Nat.even (String.length s) = true ->
  map byteToHex (hexPairs s) = chunksOfTwo s.
Proof.
  induction s as [| a | a b rest IH] using string_pairs_ind; intros Hall Heven.
  - reflexivity.
  - discriminate Heven.
  - cbn [allChars] in Hall.
    apply andb_prop in Hall. destruct Hall as [Ha Hall].
    apply andb_prop in Hall. destruct Hall as [Hb Hrest].
    cbn [hexPairs chunksOfTwo map].
    rewrite (byteToHex_of_pair a b Ha Hb). f_equal.
    apply IH; [exact Hrest | exact Heven].
Qed.

(** X2.  When [hexToUint8Array] accepts a text, printing the bytes with
    [uint8ArrayToHex] gives the canonical form of the text, the one
    [formatHexString] computes: upper-case pairs separated by one space. *)
Theorem parsed_bytes_print_canonical (input : string) (bytes : list Z) :
  hexToUint8Array input = Some bytes ->
  uint8ArrayToHex bytes = formatHexString input.
Proof.
  unfold hexToUint8Array, uint8ArrayToHex, formatHexString. cbv zeta.
  destruct (Nat.even (String.length (cleanHexString input))) eqn:Heven;
    [|discriminate].
  intros H. injection H as <-.
  rewrite map_byteToHex_hexPairs; [reflexivity | | exact Heven].
  apply cleanHexString_upperHex.
Qed.

Lemma parsed_bytes_print_canonical_witness :
  uint8ArrayToHex [5; 67; 250] = formatHexString "05,43-fa"%string.
Proof.
  apply (parsed_bytes_print_canonical "05,43-fa"%string [5; 67; 250]).
  reflexivity.
Defined.

Lemma hexPairs_length (s : string) :
  Nat.even (String.length s) = true ->
  (2 * List.length (hexPairs s))%nat = String.length s.
Proof.
  induction s as [| a | a b rest IH] using string_pairs_ind; intros Heven.
  - reflexivity.
  - discriminate Heven.
  - cbn [hexPairs List.length String.length].
    cbn [String.length Nat.even] in Heven. specialize (IH Heven). lia.
Qed.

Lemma hexPairs_isByte (s : string) : Forall isByte (hexPairs s).
Proof.
  induction s as [| a | a b rest IH] using string_pairs_ind;
    cbn [hexPairs]; try constructor; [|exact IH].
  unfold toUint8, isByte.
  destruct (parseInt16 _); [apply Z.mod_pos_bound|]; lia.
Qed.

(** X3.  [hexToUint8Array] throws exactly when the text holds an odd number
    of hex digits, whatever else it holds; when it returns, the array has one
    byte per pair of digits and every element is in 0..255. *)
Theorem hexToUint8Array_outcome (input : string) :
  match hexToUint8Array input with
  | None => Nat.odd (String.length (stripNonHex input)) = true
  | Some bytes =>
      (2 * List.length bytes)%nat = String.length (stripNonHex input)
      /\ Forall isByte bytes
  end.
Proof.
  unfold hexToUint8Array. cbv zeta.
  pose proof (length_toUpperCase (stripNonHex input)) as Hlen.
  fold (cleanHexString input) in Hlen.
  destruct (Nat.even (String.length (cleanHexString input))) eqn:Heven.
  - split.
    + rewrite <- Hlen. apply hexPairs_length. exact Heven.
    + apply hexPairs_isByte.
  - rewrite <- Hlen. unfold Nat.odd. rewrite Heven. reflexivity.
Qed.

(** X4.  [formatHexString] is canonical: formatting a formatted text changes
    nothing, and a text and its formatted form hold the same hex digits, so
    [hexToUint8Array] gives the same result on both (the same bytes, or the
    same refusal). *)
Theorem formatHexString_canonical (input : string) :
  formatHexString (formatHexString input) = formatHexString input
  /\ cleanHexString (formatHexString input) = cleanHexString input
  /\ hexToUint8Array (formatHexString input) = hexToUint8Array input.
Proof.
  pose proof (cleanHexString_formatHexString input) as Hc.
  split; [|split].
  - unfold formatHexString at 1. rewrite Hc. reflexivity.
  - exact Hc.
  - unfold hexToUint8Array. rewrite Hc. reflexivity.
Qed.

Lemma all_bytes_recombine :
  forallb (fun h => forallb (bytesRecombine h) allBytes) allBytes = true.
Proof. vm_compute. reflexivity. Qed.

Lemma isByte_allBytes (b : Z) : isByte b -> In b allBytes.
Proof.
  intros Hb. unfold allBytes. apply in_map_iff. exists (Z.to_nat b).
  unfold isByte in Hb. split; [lia|]. apply in_seq. lia.
Qed.

Lemma bytesToDecimal_bytes (highByte lowByte : Z) :
  isByte highByte -> isByte lowByte ->
  bytesToDecimal highByte lowByte = 256 * highByte + lowByte.
Proof.
  intros Hh Hl.
  pose proof (proj1 (forallb_forall _ _) all_bytes_recombine highByte
                (isByte_allBytes highByte Hh)) as H1.
  pose proof (proj1 (forallb_forall _ _) H1 lowByte
                (isByte_allBytes lowByte Hl)) as H2.
  apply Z.eqb_eq. exact H2.
Qed.

(** X5.  [bytesToDecimal] undoes [decimalToBytes] on 16 bits: splitting any
    integer and recombining the two bytes gives the integer modulo 65536,
    hence the integer itself when it is in 0..65535. *)
Theorem bytesToDecimal_decimalToBytes (value : Z) :
  bytesToDecimal (fst (decimalToBytes value)) (snd (decimalToBytes value))
  = value mod 65536.
Proof.
  destruct (decimalToBytes_isByte value) as [Hh Hl].
  rewrite bytesToDecimal_bytes by assumption.
  rewrite decimalToBytes_arith. cbn [fst snd].
  Z.div_mod_to_equations. lia.
Qed.

(** X6.  [decimalToBytes] undoes [bytesToDecimal]: two bytes recombined and
    split again are the two bytes, and the recombined value is in
    0..65535. *)
Theorem decimalToBytes_bytesToDecimal (highByte lowByte : Z) :
  isByte highByte -> isByte lowByte ->
  decimalToBytes (bytesToDecimal highByte lowByte) = (highByte, lowByte)
  /\ 0 <= bytesToDecimal highByte lowByte < 65536.
Proof.
  intros Hh Hl. rewrite bytesToDecimal_bytes by assumption.
  unfold isByte in *. split; [|lia].
  rewrite decimalToBytes_arith. f_equal.
  - Z.div_mod_to_equations. lia.
  - Z.div_mod_to_equations. lia.
Qed.

Lemma decimalToBytes_bytesToDecimal_witness :
  decimalToBytes (bytesToDecimal 16 0) = (16, 0).
Proof.
  apply (decimalToBytes_bytesToDecimal 16 0); unfold isByte; lia.
Defined.

(* ------------------------------------------------------------------------- *)
(** ** More on the frame reassembler *)

Lemma byteAt_app_right (pre l : list Z) (i : Z) :
  0 <= i ->
  byteAt (pre ++ l) (Z.of_nat (List.length pre) + i) = byteAt l i.
Proof.
  intros Hi. unfold byteAt.
  replace (Z.of_nat (List.length pre) + i <? 0) with false
    by (symmetry; apply Z.ltb_ge; lia).
  replace (i <? 0) with false by (symmetry; apply Z.ltb_ge; lia).
  replace (Z.to_nat (Z.of_nat (List.length pre) + i))
    with (List.length pre + Z.to_nat i)%nat by lia.
  rewrite nth_error_app2 by lia. f_equal. lia.
Qed.

Lemma byteAt_app_left (l post : list Z) (i : Z) :
  i < Z.of_nat (List.length l) ->
  byteAt (l ++ post) i = byteAt l i.
Proof.
  intros Hi. unfold byteAt. destruct (i <? 0) eqn:Hneg; [reflexivity|].
  apply Z.ltb_ge in Hneg. apply nth_error_app1. lia.
Qed.

Lemma matchesAt_app_right (pattern pre l : list Z) :
  forall i,
    0 <= i ->
    matchesAt pattern (pre ++ l) (Z.of_nat (List.length pre) + i)
    = matchesAt pattern l i.
Proof.
  induction pattern as [|b rest IH]; intros i Hi; [reflexivity|].
  cbn [matchesAt]. rewrite byteAt_app_right by assumption.
  destruct (byteAt l i) as [c|]; [|reflexivity].
  destruct (c =? b); [|reflexivity].
  rewrite <- Z.add_assoc. apply IH. lia.
Qed.

Lemma matchesAt_app_left (pattern l post : list Z) :
  forall i,
    i + Z.of_nat (List.length pattern) <= Z.of_nat (List.length l) ->
    matchesAt pattern (l ++ post) i = matchesAt pattern l i.
Proof.
  induction pattern as [|b rest IH]; intros i Hi; [reflexivity|].
  cbn [matchesAt]. cbn [List.length] in Hi.
  rewrite byteAt_app_left by lia.
  destruct (byteAt l i) as [c|]; [|reflexivity].
  destruct (c =? b); [|reflexivity].
  apply IH. lia.
Qed.

(** No header starts on a byte other than 0xFF. *)
Lemma matchesAt_HEADER_needs_FF (buffer : list Z) (i : Z) :
  byteAt buffer i <> Some 255 -> matchesAt HEADER buffer i = false.
Proof.
  intros Hne. unfold HEADER. cbn [matchesAt].
  destruct (byteAt buffer i) as [c|]; [|reflexivity].
  destruct (c =? 255) eqn:Hc; [|reflexivity].
  apply Z.eqb_eq in Hc. subst c. congruence.
Qed.

Lemma byteAt_In (buffer : list Z) (i b : Z) :
  byteAt buffer i = Some b -> In b buffer.
Proof.
  unfold byteAt. destruct (i <? 0); [discriminate|]. apply nth_error_In.
Qed.

(** X7.  Resynchronisation.  In strict mode, on an empty buffer, a chunk made
    of bytes other than 0xFF, then a well-formed frame whose payload is in
    range, then anything: the leading bytes are skipped without being
    counted, the frame gives the measurement, and the bytes after the frame
    stay in the buffer, unscanned, for the next chunk. *)
Theorem junk_then_frame_then_rest
  (cfg : Config) (s : Session) (junk frame rest : list Z) :
  enableHeaderCheck cfg = true ->
  rxBuffer s = [] ->
  Forall (fun b => b <> 255) junk ->
  List.length frame = 15%nat ->
  matchesAt HEADER frame 0 = true ->
  matchesAt FOOTER frame 11 = true ->
  0 <= decodeRx cfg (operand (byteAt frame 6)) (operand (byteAt frame 7)) <= 4096 ->
  let r := handleDataReceived cfg (junk ++ frame ++ rest) s in
  lastReceivedValue r
  = Some (decodeRx cfg (operand (byteAt frame 6)) (operand (byteAt frame 7)))
  /\ rxBuffer r = rest
  /\ rx (stats r) = rx (stats s) + 1
  /\ invalid (stats r) = invalid (stats s)
  /\ waitingForResponseRef r = false.
Proof.
  intros Hs Hb Hjunk Hlen Hh Hf Hv. cbv zeta.
  rewrite handleDataReceived_strict by assumption.
  unfold processRxBuffer. cbv zeta.
  rewrite rxBuffer_buffered, Hb. cbn [app].
  set (buffer := junk ++ frame ++ rest).
  set (p := Z.of_nat (List.length junk)).
  assert (Hb6 : byteAt buffer (p + 6) = byteAt frame 6).
  { unfold buffer, p. rewrite byteAt_app_right by lia.
    apply byteAt_app_left. lia. }
  assert (Hb7 : byteAt buffer (p + 7) = byteAt frame 7).
  { unfold buffer, p. rewrite byteAt_app_right by lia.
    apply byteAt_app_left. lia. }
  rewrite (scanLoop_skips_to_packet cfg buffer p _ (List.length junk) 0).
  - rewrite Hb6, Hb7.
    assert (Hslice : slice buffer (p + PACKET_LEN) = rest).
    { unfold slice, buffer, p, PACKET_LEN.
      replace (Z.to_nat (Z.of_nat (List.length junk) + 15))
        with (List.length junk + 15)%nat by lia.
      rewrite skipn_app, skipn_all2 by lia. cbn [app].
      replace (List.length junk + 15 - List.length junk)%nat with 15%nat by lia.
      rewrite skipn_app, skipn_all2 by lia. cbn [app].
      rewrite Hlen. reflexivity. }
    unfold acceptPacket at 1. cbv zeta.
    destruct_session s. cbn [rxBuffer] in Hb. subst sBuf.
    unfold parseAndRecord.
    destruct sPending; session_simpl; rewrite ?Hslice; repeat split.
  - unfold p. lia.
  - unfold buffer, p, PACKET_LEN. rewrite !length_app. lia.
  - intros i Hi. apply matchesAt_HEADER_needs_FF. intros Hbyte.
    unfold buffer in Hbyte. rewrite byteAt_app_left in Hbyte by (unfold p in Hi; lia).
    apply byteAt_In in Hbyte.
    exact (proj1 (Forall_forall _ _) Hjunk 255 Hbyte eq_refl).
  - unfold buffer, p.
    replace (Z.of_nat (List.length junk)) with (Z.of_nat (List.length junk) + 0) by lia.
    rewrite matchesAt_app_right by lia.
    rewrite matchesAt_app_left by (rewrite Hlen; cbn; lia). exact Hh.
  - unfold buffer, p. rewrite matchesAt_app_right by lia.
    rewrite matchesAt_app_left by (rewrite Hlen; cbn; lia). exact Hf.
  - rewrite Hb6, Hb7. exact Hv.
Qed.

Lemma junk_then_frame_then_rest_witness :
  rxBuffer
    (handleDataReceived defaultConfig ([1; 2; 3] ++ exampleFrame ++ [255; 254])
       initialSession)
  = [255; 254].
Proof.
  refine (proj1 (proj2
    (junk_then_frame_then_rest defaultConfig initialSession [1; 2; 3]
       exampleFrame [255; 254] eq_refl eq_refl _ eq_refl eq_refl eq_refl _))).
  - repeat constructor; discriminate.
  - vm_compute. split; discriminate.
Defined.

(** X8.  What strict mode keeps in the buffer.  After a chunk, the buffer is
    always a suffix of the bytes it held plus the chunk; and when the scan
    found no valid packet, what is kept is shorter than a packet (at most 14
    bytes), however long the chunk was. *)
Theorem strict_buffer_is_short_suffix
  (cfg : Config) (chunk : list Z) (s : Session) :
  enableHeaderCheck cfg = true ->
  let buffer := rxBuffer s ++ chunk in
  let r := handleDataReceived cfg chunk s in
  (exists n, rxBuffer r = skipn n buffer)
  /\ (~ findsValidPacket cfg buffer -> (List.length (rxBuffer r) < 15)%nat).
Proof.
  intros Hs. cbv zeta.
  rewrite handleDataReceived_strict by assumption.
  unfold processRxBuffer. cbv zeta. rewrite rxBuffer_buffered.
  destruct (scanLoop_uniform cfg (rxBuffer s ++ chunk) 0)
    as [(k & p & Hk & Hp & Hq & Heq) | (k & p & b1 & b2 & Hk & Hp & Hv & Heq)];
    rewrite Heq.
  - assert (Hshort : (List.length (skipn (Z.to_nat p) (rxBuffer s ++ chunk)) < 15)%nat).
    { rewrite length_skipn. unfold PACKET_LEN in Hq. lia. }
    destruct (0 <? p) eqn:Hpos.
    + assert (Hbuf : forall t, rxBuffer
                (if waitingForResponseRef (setRxBuffer (slice (rxBuffer s ++ chunk) p) t)
                 then setLastReceivedValue None
                        (setIsRxInvalid true
                           (setRxBuffer (slice (rxBuffer s ++ chunk) p) t))
                 else setRxBuffer (slice (rxBuffer s ++ chunk) p) t)
              = skipn (Z.to_nat p) (rxBuffer s ++ chunk)).
      { intros t. destruct (waitingForResponseRef _); reflexivity. }
      rewrite Hbuf. split; [eexists; reflexivity | intros _; exact Hshort].
    + apply Z.ltb_ge in Hpos. assert (p = 0) by lia. subst p.
      assert (Hbuf : rxBuffer
                (if waitingForResponseRef (addInvalid k (buffered chunk s))
                 then setLastReceivedValue None
                        (setIsRxInvalid true (addInvalid k (buffered chunk s)))
                 else addInvalid k (buffered chunk s))
              = skipn 0 (rxBuffer s ++ chunk)).
      { destruct (waitingForResponseRef _); reflexivity. }
      rewrite Hbuf. split; [eexists; reflexivity | intros _; exact Hshort].
  - split.
    + exists (Z.to_nat (p + PACKET_LEN)). reflexivity.
    + intros Hno. exfalso. apply Hno. exists (buffered chunk s). eexists. apply Heq.
Qed.

Lemma strict_buffer_is_short_suffix_witness :
  exists n,
    rxBuffer (handleDataReceived defaultConfig (repeat 7 40) initialSession)
    = skipn n ([] ++ repeat 7 40).
Proof.
  exact (proj1 (strict_buffer_is_short_suffix defaultConfig (repeat 7 40)
                  initialSession eq_refl)).
Defined.

(** X9.  Standard mode (strict validation off).  After a chunk the buffer
    never holds more than [rxByteIndex + 1] bytes: as soon as the bytes at
    [rxByteIndex] and [rxByteIndex + 1] are there, they are decoded with no
    framing or range check, counted as one valid reception, and the whole
    buffer is dropped, the bytes received after those two included. *)
Theorem standard_mode_chunk (cfg : Config) (chunk : list Z) (s : Session) :
  enableHeaderCheck cfg = false ->
  0 <= rxByteIndex cfg ->
  let buffer := rxBuffer s ++ chunk in
  let r := handleDataReceived cfg chunk s in
  Z.of_nat (List.length (rxBuffer r)) <= rxByteIndex cfg + 1
  /\ invalid (stats r) = invalid (stats s)
  /\ waitingForResponseRef r = waitingForResponseRef s
  /\ if rxByteIndex cfg + 1 <? Z.of_nat (List.length buffer)
     then exists b1 b2,
            nth_error buffer (Z.to_nat (rxByteIndex cfg)) = Some b1
            /\ nth_error buffer (S (Z.to_nat (rxByteIndex cfg))) = Some b2
            /\ lastReceivedValue r = Some (decodeRx cfg b1 b2)
            /\ rx (stats r) = rx (stats s) + 1
            /\ rxBuffer r = []
     else rxBuffer r = buffer
          /\ rx (stats r) = rx (stats s)
          /\ lastReceivedValue r = lastReceivedValue s
          /\ chartData r = chartData s.
Proof.
  intros Hs Hidx. cbv zeta. rewrite handleDataReceived_eq. cbv zeta.
  rewrite Hs, rxBuffer_buffered.
  destruct (rxByteIndex cfg + 1 <? Z.of_nat (List.length (rxBuffer s ++ chunk)))
    eqn:Hlen.
  - apply Z.ltb_lt in Hlen.
    destruct (nth_error (rxBuffer s ++ chunk) (Z.to_nat (rxByteIndex cfg)))
      as [b1|] eqn:H1.
    2:{ apply nth_error_None in H1. lia. }
    destruct (nth_error (rxBuffer s ++ chunk) (S (Z.to_nat (rxByteIndex cfg))))
      as [b2|] eqn:H2.
    2:{ apply nth_error_None in H2. lia. }
    assert (B1 : byteAt (rxBuffer s ++ chunk) (rxByteIndex cfg) = Some b1).
    { unfold byteAt.
      replace (rxByteIndex cfg <? 0) with false by (symmetry; apply Z.ltb_ge; lia).
      exact H1. }
    assert (B2 : byteAt (rxBuffer s ++ chunk) (rxByteIndex cfg + 1) = Some b2).
    { unfold byteAt.
      replace (rxByteIndex cfg + 1 <? 0) with false
        by (symmetry; apply Z.ltb_ge; lia).
      replace (Z.to_nat (rxByteIndex cfg + 1))
        with (S (Z.to_nat (rxByteIndex cfg))) by lia.
      exact H2. }
    rewrite B1, B2. cbn [operand].
    unfold parseAndRecord. destruct_session s.
    destruct sPending; session_simpl;
      (split; [cbn [List.length]; lia|]);
      (split; [reflexivity|]); (split; [reflexivity|]);
      exists b1, b2; repeat split.
  - apply Z.ltb_ge in Hlen. destruct_session s. session_simpl.
    split; [lia|]. repeat split.
Qed.

Lemma standard_mode_chunk_witness :
  Z.of_nat
    (List.length
       (rxBuffer
          (handleDataReceived standardConfig [1; 2; 3; 4; 5; 6; 7; 8; 9; 10]
             initialSession)))
  <= rxByteIndex standardConfig + 1.
Proof.
  refine (proj1 (standard_mode_chunk standardConfig
                   [1; 2; 3; 4; 5; 6; 7; 8; 9; 10] initialSession eq_refl _)).
  cbn. lia.
Defined.

(** X10.  One chunk, at most one measurement.  Whatever the mode and the
    chunk, the valid-rx count grows by 0 or 1, the chart by at most one
    point and only when the count grows, the invalid-rx count never
    decreases, and the tx count, the counter and the bytes written do not
    move. *)
Theorem chunk_yields_at_most_one_measurement
  (cfg : Config) (chunk : list Z) (s : Session) :
  let r := handleDataReceived cfg chunk s in
  ((rx (stats r) = rx (stats s) /\ chartData r = chartData s)
   \/ (rx (stats r) = rx (stats s) + 1
       /\ exists v, lastReceivedValue r = Some v
                    /\ (chartData r = chartData s
                        \/ exists f, chartData r
                                     = chartData s ++ [{| x := f; y := v |}])))
  /\ invalid (stats s) <= invalid (stats r)
  /\ tx (stats r) = tx (stats s)
  /\ counterRef r = counterRef s
  /\ written r = written s.
Proof.
  cbv zeta. rewrite handleDataReceived_eq. cbv zeta.
  destruct (enableHeaderCheck cfg).
  - destruct (processRxBuffer_cases cfg (buffered chunk s))
      as [(k & p & Hk & _ & _ & Heq) | (k & p & b1 & b2 & Hk & _ & _ & _ & Heq)];
      rewrite Heq; clear Heq; destruct_session s.
    + destruct (0 <? p), sWaiting; session_simpl;
        (split; [left; split; reflexivity|]); (split; [lia|]); repeat split.
    + unfold acceptPacket, parseAndRecord.
      destruct sPending; session_simpl;
        (split; [right; split; [reflexivity|]; eexists; split; [reflexivity|]
                | split; [lia|]; repeat split]).
      * right. eexists. reflexivity.
      * left. reflexivity.
  - destruct (rxByteIndex cfg + 1 <? Z.of_nat (List.length (rxBuffer (buffered chunk s))));
      destruct_session s.
    + unfold parseAndRecord.
      destruct sPending; session_simpl;
        (split; [right; split; [reflexivity|]; eexists; split; [reflexivity|]
                | split; [lia|]; repeat split]).
      * right. eexists. reflexivity.
      * left. reflexivity.
    + session_simpl. split; [left; split; reflexivity|]. split; [lia|].
      repeat split.
Qed.

(* ------------------------------------------------------------------------- *)
(** ** More on the sweep controller *)

(** Whatever path it takes, a tick never touches the reception side. *)
Lemma tickAutoSend_frame (cfg : Config) (port : Port) (s : Session) :
  let r := tickAutoSend cfg port s in
  chartData r = chartData s
  /\ lastReceivedValue r = lastReceivedValue s
  /\ rxBuffer r = rxBuffer s
  /\ rx (stats r) = rx (stats s)
  /\ invalid (stats r) = invalid (stats s).
Proof.
  cbv zeta.
  assert (Hsend : forall hex t,
             chartData (sendData port hex t) = chartData t
             /\ lastReceivedValue (sendData port hex t) = lastReceivedValue t
             /\ rxBuffer (sendData port hex t) = rxBuffer t
             /\ rx (stats (sendData port hex t)) = rx (stats t)
             /\ invalid (stats (sendData port hex t)) = invalid (stats t)).
  { intros hex t.
    destruct (sendData_frame port hex t)
      as (H1 & _ & _ & _ & _ & _ & _ & H2 & H3 & H4 & H5).
    repeat split; assumption. }
  unfold tickAutoSend.
  destruct (enableHeaderCheck cfg && waitingForResponseRef s).
  - destruct (lastSentHexRef s) as [lastSent|]; [|repeat split].
    destruct (truthy lastSent); [|repeat split].
    apply (Hsend lastSent (setIsRetrying true s)).
  - cbv zeta.
    destruct (gtNumber _ _); [repeat split|].
    destruct (hexToUint8Array (sweepBaseHex cfg)) as [baseBytes|];
      [|repeat split].
    destruct (_ || _); [repeat split|].
    match goal with
    | |- context [sendData port ?hex ?t] =>
        destruct (Hsend hex t) as (H1 & H2 & H3 & H4 & H5)
    end.
    destruct (enableHeaderCheck cfg); repeat split; assumption.
Qed.

Lemma step_valuesInRange (cfg : Config) (s : Session) (e : Event) :
  enableHeaderCheck cfg = true ->
  valuesInRange s -> valuesInRange (step cfg s e).
Proof.
  intros Hs [Hchart Hlast]. destruct e as [port | chunk |]; cbn [step].
  - destruct (isAutoSending s); [|split; assumption].
    destruct (tickAutoSend_frame cfg port s) as (Hc & Hl & _).
    unfold valuesInRange. rewrite Hc, Hl. split; assumption.
  - rewrite handleDataReceived_strict by assumption.
    destruct (processRxBuffer_cases cfg (buffered chunk s))
      as [(k & p & _ & _ & _ & Heq) | (k & p & b1 & b2 & _ & _ & Hv & _ & Heq)];
      rewrite Heq; clear Heq; unfold valuesInRange; destruct_session s;
      cbn [chartData lastReceivedValue] in Hchart, Hlast.
    + destruct (0 <? p), sWaiting; session_simpl;
        (split; [exact Hchart|]); first [exact Hlast | discriminate].
    + unfold acceptPacket, parseAndRecord.
      destruct sPending; session_simpl.
      * split.
        -- apply Forall_app. split; [exact Hchart|].
           constructor; [exact Hv | constructor].
        -- intros v Heq. injection Heq as <-. exact Hv.
      * split; [exact Hchart|].
        intros v Heq. injection Heq as <-. exact Hv.
  - unfold toggleAutoSend, valuesInRange.
    destruct (isAutoSending s).
    + destruct_session s. session_simpl. split; assumption.
    + destruct (parseInt16 (stripNonHex (rangeStartHex cfg)));
        [destruct (parseInt16 (stripNonHex (rangeEndHex cfg)))|];
        destruct_session s; session_simpl;
        (split; [first [exact Hchart | constructor] | exact Hlast]).
Qed.

(** X11.  The range guard of strict mode holds over whole runs: whatever the
    ticks, chunks and button presses, every point of the chart and the live
    value, when there is one, lie in 0..4096. *)
Theorem strict_values_always_in_range (cfg : Config) (events : list Event) :
  enableHeaderCheck cfg = true ->
  Forall (fun p => 0 <= y p <= 4096)
    (chartData (run cfg events initialSession))
  /\ forall v,
       lastReceivedValue (run cfg events initialSession) = Some v ->
       0 <= v <= 4096.
Proof.
  intros Hs. change (valuesInRange (run cfg events initialSession)).
  unfold run.
  assert (H : forall s, valuesInRange s ->
                        valuesInRange (fold_left (step cfg) events s)).
  { induction events as [|e rest IH]; intros s Hin; cbn [fold_left].
    - exact Hin.
    - apply IH. apply step_valuesInRange; assumption. }
  apply H. split; [constructor | discriminate].
Qed.

Lemma strict_values_always_in_range_witness :
  Forall (fun p => 0 <= y p <= 4096)
    (chartData
       (run defaultConfig
          [Toggle; Tick PortWrites; Receive exampleFrame] initialSession)).
Proof.
  exact (proj1 (strict_values_always_in_range defaultConfig
                  [Toggle; Tick PortWrites; Receive exampleFrame] eq_refl)).
Defined.

Lemma findsValidPacket_zeroFrame (cfg : Config) :
  findsValidPacket cfg zeroFrame.
Proof.
  exists initialSession. eexists.
  rewrite scanLoop_single_frame by reflexivity.
  change (operand (byteAt zeroFrame 6)) with 0.
  change (operand (byteAt zeroFrame 7)) with 0.
  cbv zeta. rewrite decodeRx_zero. reflexivity.
Qed.

(** One answered tick of a sweep. *)
Lemma answeredTick_round (cfg : Config) (baseBytes : list Z) (s : Session) :
  advances cfg baseBytes s ->
  (enableHeaderCheck cfg = true -> rxBuffer s = []) ->
  let r := answeredTick cfg s in
  counterRef r = counterRef s + incrementStep cfg
  /\ written r = written s ++ [buildCommand cfg baseBytes (counterRef s)]
  /\ enableHeaderCheck cfg && waitingForResponseRef r = false
  /\ (enableHeaderCheck cfg = true -> rxBuffer r = [])
  /\ isAutoSending r = isAutoSending s
  /\ tx (stats r) = tx (stats s) + 1
  /\ (enableHeaderCheck cfg = true ->
      chartData r = chartData s ++ [zeroPoint (counterRef s)]).
Proof.
  intros Hadv Hbuf. cbv zeta. unfold answeredTick.
  destruct (tickAutoSend_advance_fields cfg baseBytes s Hadv)
    as (Tw & Tc & Tp & _ & _ & Ta & _ & Tb & Tch & Ts).
  set (t := tickAutoSend cfg PortWrites s) in *.
  destruct (handleDataReceived_frame cfg zeroFrame t)
    as (Fc & _ & _ & Fw & Fa & Ft & _).
  destruct (reply_unlocks cfg t) as (U & B).
  { intros Hs. rewrite Tb. exact (Hbuf Hs). }
  split; [rewrite Fc; exact Tc|].
  split; [rewrite Fw; exact Tw|].
  split; [exact U|]. split; [exact B|].
  split; [rewrite Fa; exact Ta|].
  split; [rewrite Ft, Ts; reflexivity|].
  intros Hs.
  assert (Hfind : findsValidPacket cfg (rxBuffer t ++ zeroFrame)).
  { rewrite Tb, (Hbuf Hs). apply findsValidPacket_zeroFrame. }
  destruct (handleDataReceived_valid cfg zeroFrame t Hs Hfind)
    as (v & _ & Hv & _ & _ & _ & _ & _ & Hch).
  destruct (handleDataReceived_zeroFrame cfg t Hs) as (_ & _ & Hzero).
  { rewrite Tb. exact (Hbuf Hs). }
  rewrite Hzero in Hv. injection Hv as <-.
  rewrite Hch, Tp, Tch. reflexivity.
Qed.

Lemma sweepCodes_S (startDec step : Z) (n : nat) :
  sweepCodes startDec step (S n)
  = sweepCodes startDec step n ++ [startDec + step * Z.of_nat n].
Proof.
  unfold sweepCodes. rewrite seq_S, map_app. reflexivity.
Qed.

(** [k] answered ticks, as long as the codes stay within the range. *)
Lemma answeredTicks_invariant
  (cfg : Config) (baseBytes : list Z) (endDec : Z) (s : Session) (k : nat) :
  parseInt16 (stripNonHex (rangeEndHex cfg)) = Some endDec ->
  hexToUint8Array (sweepBaseHex cfg) = Some baseBytes ->
  0 <= targetByteIndex cfg < Z.of_nat (List.length baseBytes) - 1 ->
  enableHeaderCheck cfg && waitingForResponseRef s = false ->
  (enableHeaderCheck cfg = true -> rxBuffer s = []) ->
  (forall i, (i < k)%nat ->
             counterRef s + incrementStep cfg * Z.of_nat i <= endDec) ->
  let codes := sweepCodes (counterRef s) (incrementStep cfg) k in
  let r := Nat.iter k (answeredTick cfg) s in
  counterRef r = counterRef s + incrementStep cfg * Z.of_nat k
  /\ written r = written s ++ map (buildCommand cfg baseBytes) codes
  /\ enableHeaderCheck cfg && waitingForResponseRef r = false
  /\ (enableHeaderCheck cfg = true -> rxBuffer r = [])
  /\ isAutoSending r = isAutoSending s
  /\ tx (stats r) = tx (stats s) + Z.of_nat k
  /\ (enableHeaderCheck cfg = true ->
      chartData r = chartData s ++ map zeroPoint codes).
Proof.
  intros Hend Hbase Hidx Hw Hbuf. cbv zeta.
  induction k as [|k IH]; intros Hrange.
  - cbn [Nat.iter nat_rect sweepCodes seq map].
    rewrite !app_nil_r, Z.mul_0_r, !Z.add_0_r.
    repeat split; auto.
  - destruct IH as (Ic & Iw & Iu & Ib & Ia & It & Ich).
    { intros i Hi. apply Hrange. lia. }
    rewrite Nat.iter_succ.
    set (t := Nat.iter k (answeredTick cfg) s) in *.
    assert (Hadv : advances cfg baseBytes t).
    { split; [exact Iu|]. split; [|split; assumption].
      rewrite Hend, Ic. cbn [gtNumber]. apply Z.ltb_ge.
      apply Hrange. lia. }
    destruct (answeredTick_round cfg baseBytes t Hadv Ib)
      as (Rc & Rw & Ru & Rb & Ra & Rt & Rch).
    rewrite sweepCodes_S, !map_app. cbn [map].
    split; [rewrite Rc, Ic; lia|].
    split; [rewrite Rw, Iw, Ic, <- app_assoc; reflexivity|].
    split; [exact Ru|]. split; [exact Rb|].
    split; [rewrite Ra; exact Ia|].
    split; [rewrite Rt, It; lia|].
    intros Hs. rewrite (Rch Hs), (Ich Hs), Ic, <- app_assoc. reflexivity.
Qed.

(** X12.  A whole sweep.  For a range that parses with start <= end, a
    positive step and a usable template, when every command is answered by a
    valid reply, the sweep sends exactly [totalSweepPoints] commands, those
    of the codes start, start + step, ... in this order; the next tick sends
    nothing and stops the sweep.  In strict mode the chart then holds one
    point per code, in the same order. *)
Theorem sweep_sends_totalSweepPoints
  (cfg : Config) (baseBytes : list Z) (startDec endDec : Z) (s : Session) :
  parseInt16 (stripNonHex (rangeStartHex cfg)) = Some startDec ->
  parseInt16 (stripNonHex (rangeEndHex cfg)) = Some endDec ->
  startDec <= endDec ->
  0 < incrementStep cfg ->
  hexToUint8Array (sweepBaseHex cfg) = Some baseBytes ->
  0 <= targetByteIndex cfg < Z.of_nat (List.length baseBytes) - 1 ->
  isAutoSending s = false ->
  let n := Z.to_nat (totalSweepPoints cfg) in
  let codes := sweepCodes startDec (incrementStep cfg) n in
  let swept := Nat.iter n (answeredTick cfg) (toggleAutoSend cfg s) in
  let done := tickAutoSend cfg PortWrites swept in
  totalSweepPoints cfg = (endDec - startDec) / incrementStep cfg + 1
  /\ Forall (fun c => startDec <= c <= endDec) codes
  /\ written swept = written s ++ map (buildCommand cfg baseBytes) codes
  /\ isAutoSending swept = true
  /\ written done = written swept
  /\ isAutoSending done = false
  /\ tx (stats done) = totalSweepPoints cfg
  /\ (enableHeaderCheck cfg = true -> chartData done = map zeroPoint codes).
Proof.
  intros Hstart Hend Hle Hstep Hbase Hidx Hidle. cbv zeta.
  assert (Htotal : totalSweepPoints cfg
                   = (endDec - startDec) / incrementStep cfg + 1).
  { unfold totalSweepPoints. rewrite Hstart, Hend.
    replace (incrementStep cfg <=? 0) with false
      by (symmetry; apply Z.leb_gt; lia).
    replace (endDec <? startDec) with false
      by (symmetry; apply Z.ltb_ge; lia).
    reflexivity. }
  assert (Hq : 0 <= (endDec - startDec) / incrementStep cfg)
    by (apply Z.div_pos; lia).
  pose proof (Z.mul_div_le (endDec - startDec) (incrementStep cfg) Hstep) as Hlo.
  pose proof (Z.mul_succ_div_gt (endDec - startDec) (incrementStep cfg) Hstep) as Hhi.
  set (q := (endDec - startDec) / incrementStep cfg) in *.
  destruct (toggleAutoSend_start cfg s startDec endDec Hidle Hstart Hend)
    as (A0 & C0 & W0 & _ & B0 & Ch0 & S0 & Wr0).
  set (s0 := toggleAutoSend cfg s) in *.
  assert (Hrange : forall i, (i < Z.to_nat (totalSweepPoints cfg))%nat ->
             counterRef s0 + incrementStep cfg * Z.of_nat i <= endDec).
  { intros i Hi. rewrite C0, Htotal in *.
    assert (Z.of_nat i <= q) by lia. nia. }
  destruct (answeredTicks_invariant cfg baseBytes endDec s0
              (Z.to_nat (totalSweepPoints cfg)) Hend Hbase Hidx)
    as (Ic & Iw & Iu & _ & Ia & It & Ich); try assumption.
  { rewrite W0. apply andb_false_r. }
  { intros _. exact B0. }
  rewrite C0 in Ic, Iw, Ich.
  set (swept := Nat.iter (Z.to_nat (totalSweepPoints cfg)) (answeredTick cfg) s0) in *.
  split; [exact Htotal|].
  split.
  { unfold sweepCodes. apply Forall_forall. intros c Hc.
    apply in_map_iff in Hc. destruct Hc as (i & <- & Hi).
    apply in_seq in Hi. rewrite Htotal in Hi.
    assert (Z.of_nat i <= q) by lia. nia. }
  split; [rewrite Iw, Wr0; reflexivity|].
  split; [rewrite Ia; exact A0|].
  rewrite (tickAutoSend_complete cfg PortWrites swept Iu).
  2:{ rewrite Hend, Ic. cbn [gtNumber]. apply Z.ltb_lt.
      rewrite Htotal. rewrite Z2Nat.id by lia. nia. }
  split; [reflexivity|]. split; [reflexivity|].
  split.
  { change (tx (stats swept) = totalSweepPoints cfg).
    rewrite It, S0. cbn [tx]. rewrite Htotal. lia. }
  intros Hs. change (chartData swept = map zeroPoint
     (sweepCodes startDec (incrementStep cfg) (Z.to_nat (totalSweepPoints cfg)))).
  rewrite (Ich Hs), Ch0. reflexivity.
Qed.

Lemma sweep_sends_totalSweepPoints_witness :
  totalSweepPoints sweep03Config = (3 - 0) / incrementStep sweep03Config + 1.
Proof.
  refine (proj1 (sweep_sends_totalSweepPoints sweep03Config
                   [5; 67; 70; 13; 70; 4; 0; 13] 0 3 initialSession
                   eq_refl eq_refl _ _ eq_refl _ eq_refl)).
  - lia.
  - reflexivity.
  - cbn. lia.
Defined.

(** X13.  The step is never checked: with a step that is zero or negative and
    start <= end, the counter never passes the end, so the sweep never
    completes by itself; however many commands are answered, it is still
    running and has sent one command per tick. *)
Theorem nonpositive_step_never_completes
  (cfg : Config) (baseBytes : list Z) (startDec endDec : Z) (s : Session)
  (k : nat) :
  parseInt16 (stripNonHex (rangeStartHex cfg)) = Some startDec ->
  parseInt16 (stripNonHex (rangeEndHex cfg)) = Some endDec ->
  startDec <= endDec ->
  incrementStep cfg <= 0 ->
  hexToUint8Array (sweepBaseHex cfg) = Some baseBytes ->
  0 <= targetByteIndex cfg < Z.of_nat (List.length baseBytes) - 1 ->
  isAutoSending s = false ->
  let r := Nat.iter k (answeredTick cfg) (toggleAutoSend cfg s) in
  isAutoSending r = true
  /\ counterRef r = startDec + incrementStep cfg * Z.of_nat k
  /\ counterRef r <= endDec
  /\ List.length (written r) = (List.length (written s) + k)%nat
  /\ totalSweepPoints cfg = 0.
Proof.
  intros Hstart Hend Hle Hstep Hbase Hidx Hidle. cbv zeta.
  destruct (toggleAutoSend_start cfg s startDec endDec Hidle Hstart Hend)
    as (A0 & C0 & W0 & _ & B0 & _ & _ & Wr0).
  set (s0 := toggleAutoSend cfg s) in *.
  destruct (answeredTicks_invariant cfg baseBytes endDec s0 k Hend Hbase Hidx)
    as (Ic & Iw & _ & _ & Ia & _); try assumption.
  { rewrite W0. apply andb_false_r. }
  { intros _. exact B0. }
  { intros i _. rewrite C0. nia. }
  rewrite C0 in Ic.
  split; [rewrite Ia; exact A0|]. split; [exact Ic|].
  split; [rewrite Ic; nia|].
  split.
  - rewrite Iw, Wr0, length_app, length_map. unfold sweepCodes.
    rewrite length_map, length_seq. reflexivity.
  - unfold totalSweepPoints. rewrite Hstart, Hend.
    replace (incrementStep cfg <=? 0) with true
      by (symmetry; apply Z.leb_le; lia).
    reflexivity.
Qed.

Lemma nonpositive_step_never_completes_witness :
  isAutoSending
    (Nat.iter 5 (answeredTick zeroStepConfig)
       (toggleAutoSend zeroStepConfig initialSession))
  = true.
Proof.
  refine (proj1 (nonpositive_step_never_completes zeroStepConfig
                   [5; 67; 70; 13; 70; 4; 0; 13] 0 200 initialSession 5
                   eq_refl eq_refl _ _ eq_refl _ eq_refl)).
  - lia.
  - cbn. lia.
  - cbn. lia.
Defined.

(** X14.  A template that cannot carry the counter aborts the sweep.  On a
    tick that is neither a retry nor past the end, when the template has an
    odd number of hex digits, or when the target index leaves no room for two
    bytes inside it, nothing is written, the counter, the pending frequency
    and the stored command stay, the sweep is stopped and one error line is
    logged. *)
Theorem tick_refuses_unusable_template
  (cfg : Config) (port : Port) (s : Session) :
  enableHeaderCheck cfg && waitingForResponseRef s = false ->
  gtNumber (counterRef s) (parseInt16 (stripNonHex (rangeEndHex cfg))) = false ->
  match hexToUint8Array (sweepBaseHex cfg) with
  | None => True
  | Some baseBytes =>
      targetByteIndex cfg < 0
      \/ Z.of_nat (List.length baseBytes) - 1 <= targetByteIndex cfg
  end ->
  let r := tickAutoSend cfg port s in
  isAutoSending r = false
  /\ written r = written s
  /\ stats r = stats s
  /\ counterRef r = counterRef s
  /\ pendingFrequencyRef r = pendingFrequencyRef s
  /\ lastSentHexRef r = lastSentHexRef s
  /\ waitingForResponseRef r = waitingForResponseRef s
  /\ logs r
     = logs s
       ++ [{| type := LogError;
              data := match hexToUint8Array (sweepBaseHex cfg) with
                      | None => InvalidHexOrConfig
                      | Some _ => TargetByteIndexOutOfBounds (targetByteIndex cfg)
                      end |}].
Proof.
  intros Hw Hend Hbad. cbv zeta. unfold tickAutoSend. rewrite Hw. cbv zeta.
  change (counterRef (setIsRetrying false s)) with (counterRef s).
  rewrite Hend.
  destruct (hexToUint8Array (sweepBaseHex cfg)) as [baseBytes|].
  - replace ((targetByteIndex cfg <? 0)
             || (Z.of_nat (List.length baseBytes) - 1 <=? targetByteIndex cfg))
      with true.
    + destruct_session s. session_simpl. repeat split.
    + symmetry. apply orb_true_iff.
      destruct Hbad as [H | H]; [left; apply Z.ltb_lt | right; apply Z.leb_le];
        exact H.
  - destruct_session s. session_simpl. repeat split.
Qed.

Lemma tick_refuses_unusable_template_witness :
  isAutoSending
    (tickAutoSend shortTemplateConfig PortWrites
       (toggleAutoSend shortTemplateConfig initialSession))
  = false.
Proof.
  refine (proj1 (tick_refuses_unusable_template shortTemplateConfig PortWrites
                   (toggleAutoSend shortTemplateConfig initialSession)
                   eq_refl eq_refl _)).
  right. vm_compute. discriminate.
Defined.

(** X15.  A send that fails is not rolled back.  On a tick that sends the
    next command, when the port is closed or the write rejects, nothing is
    written and the tx count stays, but the counter still moves one step, the
    pending frequency and the stored command are those of the unsent command,
    and in strict mode the reply is awaited; only a rejected write stops the
    sweep. *)
Theorem failed_send_still_advances
  (cfg : Config) (port : Port) (baseBytes : list Z) (s : Session) :
  advances cfg baseBytes s ->
  port <> PortWrites ->
  let r := tickAutoSend cfg port s in
  written r = written s
  /\ stats r = stats s
  /\ counterRef r = counterRef s + incrementStep cfg
  /\ pendingFrequencyRef r = Some (frequencyOf (counterRef s))
  /\ lastSentHexRef r
     = Some (uint8ArrayToHex (buildCommand cfg baseBytes (counterRef s)))
  /\ waitingForResponseRef r
     = (enableHeaderCheck cfg || waitingForResponseRef s)
  /\ isAutoSending r
     = match port with PortRejects => false | _ => isAutoSending s end.
Proof.
  intros Hadv Hport. cbv zeta.
  rewrite (tickAutoSend_advance cfg port baseBytes s Hadv). cbv zeta.
  unfold lockStep.
  destruct port; [| congruence |];
    destruct (enableHeaderCheck cfg); destruct_session s; session_simpl;
    repeat split.
Qed.

Lemma failed_send_still_advances_witness :
  counterRef
    (tickAutoSend defaultConfig PortClosed
       (toggleAutoSend defaultConfig initialSession))
  = 0 + 3.
Proof.
  refine (proj1 (proj2 (proj2
    (failed_send_still_advances defaultConfig PortClosed
       [5; 67; 70; 13; 70; 4; 0; 13]
       (toggleAutoSend defaultConfig initialSession) _ _)))).
  - refine (conj eq_refl (conj eq_refl (conj eq_refl _))).
    vm_compute. split; [discriminate | reflexivity].
  - discriminate.
Defined.



(** X17.  Correlation invariant.  In every session reached from the initial
    one by ticks, chunks and button presses, the pending frequency is either
    unset or the frequency of the code one step behind the counter, that is,
    of the last command built. *)
Theorem pending_frequency_is_last_code (cfg : Config) (events : list Event) :
  pendingFrequencyRef (run cfg events initialSession) = None
  \/ pendingFrequencyRef (run cfg events initialSession)
     = Some (frequencyOf
               (counterRef (run cfg events initialSession) - incrementStep cfg)).
Proof. exact (proj2 (run_invariants cfg events)). Qed.

(** X18.  Lock invariant.  In every session reached from the initial one, a
    reply is awaited only when a command is stored: its text is the hex text
    of a non-empty byte array, so the retry path always has something to
    retransmit and [hexToUint8Array] never throws on it. *)
Theorem awaited_reply_has_stored_command (cfg : Config) (events : list Event) :
  waitingForResponseRef (run cfg events initialSession) = true ->
  exists cmd,
    lastSentHexRef (run cfg events initialSession) = Some (uint8ArrayToHex cmd)
    /\ cmd <> []
    /\ hexToUint8Array (uint8ArrayToHex cmd) = Some cmd
    /\ truthy (uint8ArrayToHex cmd) = true.
Proof.
  intros Hw.
  destruct (proj1 (run_invariants cfg events) Hw) as (cmd & Hl & Hne & Hb).
  exists cmd. split; [exact Hl|]. split; [exact Hne|]. split.
  - apply hexToUint8Array_uint8ArrayToHex. exact Hb.
  - apply truthy_uint8ArrayToHex; assumption.
Qed.

Lemma awaited_reply_has_stored_command_witness :
  exists cmd,
    lastSentHexRef (run defaultConfig [Toggle; Tick PortWrites] initialSession)
    = Some (uint8ArrayToHex cmd)
    /\ cmd <> []
    /\ hexToUint8Array (uint8ArrayToHex cmd) = Some cmd
    /\ truthy (uint8ArrayToHex cmd) = true.
Proof.
  apply (awaited_reply_has_stored_command defaultConfig [Toggle; Tick PortWrites]).
  reflexivity.
Defined.

(** X19.  The chart is append-only during a sweep.  A tick leaves the chart
    as it is; a chunk adds at most one point at its end; stopping a running
    sweep clears the running flag, the lock, the retry flag and the buffer
    and nothing else, so the chart, the statistics and the counter stay.
    Only a press that starts a sweep empties the chart; a refused start
    leaves it alone. *)
Theorem chart_only_grows (cfg : Config) (s : Session) (e : Event) :
  let r := step cfg s e in
  match e with
  | Tick _ => chartData r = chartData s
  | Receive _ =>
      exists points,
        chartData r = chartData s ++ points /\ (List.length points <= 1)%nat
  | Toggle =>
      if isAutoSending s then
        r = setRxBuffer []
              (setIsRetrying false
                 (setWaitingForResponse false (setIsAutoSending false s)))
        /\ chartData r = chartData s
        /\ stats r = stats s
        /\ counterRef r = counterRef s
        /\ pendingFrequencyRef r = pendingFrequencyRef s
        /\ lastSentHexRef r = lastSentHexRef s
        /\ lastReceivedValue r = lastReceivedValue s
        /\ logs r = logs s
        /\ written r = written s
        /\ isAutoSending r = false
        /\ waitingForResponseRef r = false
        /\ isRetrying r = false
        /\ rxBuffer r = []
      else
        (isAutoSending r = true /\ chartData r = [])
        \/ (isAutoSending r = false /\ chartData r = chartData s)
  end.
Proof.
  cbv zeta. destruct e as [port | chunk |]; cbn [step].
  - destruct (isAutoSending s); [|reflexivity].
    apply (tickAutoSend_frame cfg port s).
  - destruct (handleDataReceived_frame cfg chunk s)
      as (_ & _ & _ & _ & _ & _ & [Hsame | (f & v & _ & Happ)]).
    + exists []. rewrite app_nil_r. split; [exact Hsame | cbn; lia].
    + eexists. split; [exact Happ | cbn; lia].
  - destruct (isAutoSending s) eqn:Hrun.
    + rewrite (toggleAutoSend_stop cfg s Hrun).
      destruct_session s. session_simpl.
      repeat (split; [reflexivity|]). reflexivity.
    + unfold toggleAutoSend. rewrite Hrun.
      destruct (parseInt16 (stripNonHex (rangeStartHex cfg)));
        [destruct (parseInt16 (stripNonHex (rangeEndHex cfg)))|];
        destruct_session s; session_simpl; cbn [isAutoSending] in Hrun; auto.
Qed.

(* ------------------------------------------------------------------------- *)
(** ** The chart of a run *)

Lemma builtCode_advances (cfg : Config) (s : Session) (code : Z) :
  builtCode cfg s = Some code <->
  exists baseBytes, advances cfg baseBytes s /\ counterRef s = code.
Proof.
  unfold builtCode, advances. split.
  - destruct (enableHeaderCheck cfg && waitingForResponseRef s); [discriminate|].
    destruct (gtNumber _ _); [discriminate|].
    destruct (hexToUint8Array (sweepBaseHex cfg)) as [baseBytes|]; [|discriminate].
    destruct (_ || _) eqn:Hidx; [discriminate|].
    intros Heq. injection Heq as Heq.
    apply orb_false_elim in Hidx. destruct Hidx as [Hlo Hhi].
    apply Z.ltb_ge in Hlo. apply Z.leb_gt in Hhi.
    exists baseBytes. repeat split; try assumption; lia.
  - intros (baseBytes & (Hw & Hend & Hbase & Hidx) & Hc).
    rewrite Hw, Hend, Hbase.
    replace (targetByteIndex cfg <? 0) with false
      by (symmetry; apply Z.ltb_ge; lia).
    replace (Z.of_nat (List.length baseBytes) - 1 <=? targetByteIndex cfg)
      with false by (symmetry; apply Z.leb_gt; lia).
    cbn [orb]. f_equal. exact Hc.
Qed.

(** A tick seen through [builtCode]: it stores the frequency of the code it
    builds and moves the counter one step past it, or leaves both alone; the
    chart is not its business. *)
Lemma tickAutoSend_builtCode (cfg : Config) (port : Port) (s : Session) :
  let r := tickAutoSend cfg port s in
  chartData r = chartData s
  /\ match builtCode cfg s with
     | Some code =>
         pendingFrequencyRef r = Some (frequencyOf code)
         /\ counterRef r = code + incrementStep cfg
     | None =>
         pendingFrequencyRef r = pendingFrequencyRef s
         /\ counterRef r = counterRef s
     end.
Proof.
  cbv zeta. split; [apply (tickAutoSend_frame cfg port s)|].
  destruct (builtCode cfg s) as [code|] eqn:Hb.
  - apply builtCode_advances in Hb. destruct Hb as (baseBytes & Hadv & <-).
    destruct (tickAutoSend_advance_pending cfg port baseBytes s Hadv)
      as (Hp & Hc & _).
    split; assumption.
  - destruct (tickAutoSend_cases cfg port s)
      as [(_ & _ & Hp & Hc) | (baseBytes & Hadv & _)].
    + split; assumption.
    + assert (Hsome : builtCode cfg s = Some (counterRef s)).
      { apply builtCode_advances. exists baseBytes. split; [exact Hadv | reflexivity]. }
      congruence.
Qed.

(** The sweep button empties the chart when it starts a sweep and leaves it
    alone otherwise; when the pending frequency survives, so does the
    counter. *)
Lemma toggleAutoSend_chart (cfg : Config) (s : Session) :
  let r := toggleAutoSend cfg s in
  (chartData r = [] /\ pendingFrequencyRef r = None)
  \/ (chartData r = chartData s
      /\ pendingFrequencyRef r = pendingFrequencyRef s
      /\ counterRef r = counterRef s).
Proof.
  cbv zeta. unfold toggleAutoSend.
  destruct (isAutoSending s).
  - destruct_session s. session_simpl. auto.
  - destruct (parseInt16 (stripNonHex (rangeStartHex cfg)));
      [destruct (parseInt16 (stripNonHex (rangeEndHex cfg)))|];
      destruct_session s; session_simpl; auto.
Qed.

(** What a received chunk does to the chart, told by the valid-rx count:
    either nothing is counted and the chart stays, or one measurement is
    counted, it becomes the live value, and it is charted at the rounded
    pending frequency when there is one. *)
Lemma handleDataReceived_point (cfg : Config) (chunk : list Z) (s : Session) :
  let r := handleDataReceived cfg chunk s in
  (rx (stats r) = rx (stats s) /\ chartData r = chartData s)
  \/ (rx (stats r) = rx (stats s) + 1
      /\ exists v,
           lastReceivedValue r = Some v
           /\ chartData r
              = match pendingFrequencyRef s with
                | Some f => chartData s ++ [{| x := toFixed4 f; y := v |}]
                | None => chartData s
                end).
Proof.
  cbv zeta. rewrite handleDataReceived_eq. cbv zeta.
  destruct (enableHeaderCheck cfg).
  - destruct (processRxBuffer_cases cfg (buffered chunk s))
      as [(k & p & _ & _ & _ & Heq) | (k & p & b1 & b2 & _ & _ & _ & _ & Heq)];
      rewrite Heq; clear Heq; destruct_session s.
    + left. destruct (0 <? p), sWaiting; session_simpl; split; reflexivity.
    + right. destruct sPending as [f|]; session_simpl;
        (split; [reflexivity|]); exists (decodeRx cfg b1 b2); split; reflexivity.
  - destruct (rxByteIndex cfg + 1 <? Z.of_nat (List.length (rxBuffer (buffered chunk s))));
      destruct_session s.
    + right. destruct sPending as [f|]; session_simpl;
        (split; [reflexivity|]); eexists; split; reflexivity.
    + left. session_simpl. split; reflexivity.
Qed.

Lemma commandCodes_app (cfg : Config) (l1 l2 : list Event) :
  forall s,
    commandCodes cfg (l1 ++ l2) s
    = commandCodes cfg l1 s ++ commandCodes cfg l2 (run cfg l1 s).
Proof.
  induction l1 as [|e rest IH]; intros s; [reflexivity|].
  cbn [app commandCodes]. rewrite IH, <- app_assoc. reflexivity.
Qed.

(** Every code listed by [commandCodes] is the counter of a tick of the run
    that reached step 2. *)
Lemma commandCodes_sound (cfg : Config) (events : list Event) :
  forall s,
    Forall (fun code =>
              exists before port after baseBytes,
                events = before ++ Tick port :: after
                /\ isAutoSending (run cfg before s) = true
                /\ advances cfg baseBytes (run cfg before s)
                /\ counterRef (run cfg before s) = code)
           (commandCodes cfg events s).
Proof.
  induction events as [|e rest IH]; intros s; [constructor|].
  cbn [commandCodes]. apply Forall_app. split.
  - destruct e as [port | chunk |]; try constructor.
    destruct (isAutoSending s) eqn:Hrun; [|constructor].
    destruct (builtCode cfg s) as [code|] eqn:Hb; constructor; [|constructor].
    apply builtCode_advances in Hb. destruct Hb as (baseBytes & Hadv & Hc).
    exists [], port, rest, baseBytes.
    split; [reflexivity|]. split; [exact Hrun|]. split; [exact Hadv | exact Hc].
  - eapply Forall_impl; [|apply (IH (step cfg s e))].
    intros code (before & port & after & baseBytes & -> & Hrun & Hadv & Hc).
    exists (e :: before), port, after, baseBytes.
    split; [reflexivity|]. split; [exact Hrun|]. split; [exact Hadv | exact Hc].
Qed.

Lemma chart_codes_grow (codes more : list Z) (chart : list ChartDataPoint) :
  Forall (fun p => exists code,
              In code codes /\ x p = toFixed4 (frequencyOf code)) chart ->
  Forall (fun p => exists code,
              In code (codes ++ more) /\ x p = toFixed4 (frequencyOf code)) chart.
Proof.
  apply Forall_impl. intros p (code & Hin & Hx).
  exists code. split; [apply in_or_app; left; exact Hin | exact Hx].
Qed.

Lemma step_chartInvariant (cfg : Config) (codes : list Z) (s : Session) (e : Event) :
  chartInvariant cfg codes s ->
  chartInvariant cfg (codes ++ commandCodes cfg [e] s) (step cfg s e).
Proof.
  intros [Hpend Hchart]. unfold chartInvariant.
  destruct e as [port | chunk |]; cbn [commandCodes step]; rewrite ?app_nil_r.
  - destruct (isAutoSending s); [|rewrite app_nil_r; split; assumption].
    destruct (tickAutoSend_builtCode cfg port s) as (Hch & Hb).
    rewrite Hch.
    destruct (builtCode cfg s) as [code|].
    + destruct Hb as (Hp & Hc). split.
      * right. exists codes, code. repeat split; assumption.
      * apply chart_codes_grow. exact Hchart.
    + destruct Hb as (Hp & Hc). rewrite Hp, Hc, app_nil_r. split; assumption.
  - destruct (handleDataReceived_frame cfg chunk s)
      as (Hc & Hp & _ & _ & _ & _ & Hch).
    rewrite Hp, Hc. split; [exact Hpend|].
    destruct Hch as [-> | (f & v & Hf & ->)]; [exact Hchart|].
    apply Forall_app. split; [exact Hchart|].
    constructor; [|constructor].
    destruct Hpend as [Hnone | (earlier & code & -> & Hsome & _)]; [congruence|].
    exists code. split; [apply in_or_app; right; left; reflexivity|].
    cbn [x]. congruence.
  - destruct (toggleAutoSend_chart cfg s) as [(Hch & Hp) | (Hch & Hp & Hc)].
    + rewrite Hch. split; [left; exact Hp | constructor].
    + rewrite Hch, Hp, Hc. split; assumption.
Qed.

Lemma run_chartInvariant (cfg : Config) (events : list Event) :
  chartInvariant cfg (commandCodes cfg events initialSession)
    (run cfg events initialSession).
Proof.
  induction events as [|e rest IH] using rev_ind.
  - split; [left; reflexivity | constructor].
  - rewrite commandCodes_app. unfold run. rewrite fold_left_app.
    apply step_chartInvariant. exact IH.
Qed.

Lemma run_app (cfg : Config) (l1 l2 : list Event) (s : Session) :
  run cfg (l1 ++ l2) s = run cfg l2 (run cfg l1 s).
Proof. unfold run. apply fold_left_app. Qed.

(** The last code listed by [commandCodes] is the counter of the last tick of
    the run that reached step 2: no command is built after it. *)
Lemma commandCodes_last (cfg : Config) (s0 : Session) (events : list Event) :
  forall earlier code,
    commandCodes cfg events s0 = earlier ++ [code] ->
    exists before port after baseBytes,
      events = before ++ Tick port :: after
      /\ isAutoSending (run cfg before s0) = true
      /\ advances cfg baseBytes (run cfg before s0)
      /\ counterRef (run cfg before s0) = code
      /\ commandCodes cfg after (run cfg (before ++ [Tick port]) s0) = [].
Proof.
  induction events as [|e l IH] using rev_ind; intros earlier code Hcodes.
  - destruct earlier; discriminate Hcodes.
  - rewrite commandCodes_app in Hcodes.
    assert (Hlater : commandCodes cfg [e] (run cfg l s0) = [] ->
              exists before port after baseBytes,
                l ++ [e] = before ++ Tick port :: after
                /\ isAutoSending (run cfg before s0) = true
                /\ advances cfg baseBytes (run cfg before s0)
                /\ counterRef (run cfg before s0) = code
                /\ commandCodes cfg after (run cfg (before ++ [Tick port]) s0) = []).
    { intros He. rewrite He, app_nil_r in Hcodes.
      destruct (IH earlier code Hcodes)
        as (before & port & after & baseBytes & -> & Hrun & Hadv & Hc & Hnone).
      exists before, port, (after ++ [e]), baseBytes.
      split; [rewrite <- app_assoc; reflexivity|].
      split; [exact Hrun|]. split; [exact Hadv|]. split; [exact Hc|].
      rewrite commandCodes_app, Hnone. cbn [app].
      rewrite <- run_app, <- app_assoc. exact He. }
    destruct e as [port | chunk |]; try (apply Hlater; reflexivity).
    cbn [commandCodes] in Hcodes, Hlater. rewrite app_nil_r in Hcodes, Hlater.
    destruct (isAutoSending (run cfg l s0)) eqn:Hrun; [|apply Hlater; reflexivity].
    destruct (builtCode cfg (run cfg l s0)) as [c|] eqn:Hb;
      [|apply Hlater; reflexivity].
    apply app_inj_tail in Hcodes. destruct Hcodes as [_ <-].
    apply builtCode_advances in Hb. destruct Hb as (baseBytes & Hadv & Hc).
    exists l, port, [], baseBytes.
    split; [reflexivity|]. split; [exact Hrun|]. split; [exact Hadv|].
    split; [exact Hc | reflexivity].
Qed.

(** C4, amended.  In every session reached from the initial one by ticks,
    chunks and button presses, every point of the chart has for abscissa
    [(code / 65536) * 32000] rounded to four decimals, for a [code] that was
    the counter at a tick of the run that built a command.  A further chunk
    either counts no measurement and leaves the chart as it is, or counts
    one: the measurement is charted unless no pending frequency is set (no
    command was built since the sweep was started), and its abscissa is the
    rounded frequency of [code], the counter at the last tick that built a
    command (retries, a stop or the completion of the sweep may have come in
    between), while the counter at reception is already [code + step].  The rounding changes nothing when the code is
    a multiple of 16. *)
Theorem chart_points_at_sent_codes
  (cfg : Config) (events : list Event) (chunk : list Z) :
  let s := run cfg events initialSession in
  let r := handleDataReceived cfg chunk s in
  Forall (fun p =>
            exists before port after baseBytes,
              events = before ++ Tick port :: after
              /\ isAutoSending (run cfg before initialSession) = true
              /\ advances cfg baseBytes (run cfg before initialSession)
              /\ x p = toFixed4 (frequencyOf
                                   (counterRef (run cfg before initialSession))))
         (chartData s)
  /\ ((rx (stats r) = rx (stats s) /\ chartData r = chartData s)
      \/ (rx (stats r) = rx (stats s) + 1
          /\ exists v,
               lastReceivedValue r = Some v
               /\ ((pendingFrequencyRef s = None /\ chartData r = chartData s)
                   \/ exists before port after baseBytes code,
                        events = before ++ Tick port :: after
                        /\ isAutoSending (run cfg before initialSession) = true
                        /\ advances cfg baseBytes (run cfg before initialSession)
                        /\ counterRef (run cfg before initialSession) = code
                        /\ commandCodes cfg after
                             (run cfg (before ++ [Tick port]) initialSession) = []
                        /\ counterRef s = code + incrementStep cfg
                        /\ chartData r
                           = chartData s
                             ++ [{| x := toFixed4 (frequencyOf code); y := v |}])))
  /\ forall m, (toFixed4 (frequencyOf (16 * m)) == frequencyOf (16 * m))%Q.
Proof.
  cbv zeta.
  destruct (run_chartInvariant cfg events) as [Hpend Hchart].
  split.
  { eapply Forall_impl; [|exact Hchart].
    intros p (code & Hin & Hx).
    pose proof (commandCodes_sound cfg events initialSession) as Hsound.
    rewrite Forall_forall in Hsound.
    destruct (Hsound code Hin)
      as (before & port & after & baseBytes & Hev & Hrun & Hadv & Hc).
    exists before, port, after, baseBytes.
    split; [exact Hev|]. split; [exact Hrun|]. split; [exact Hadv|].
    rewrite Hc. exact Hx. }
  split; [|apply toFixed4_frequencyOf_multiple_of_16].
  destruct (handleDataReceived_point cfg chunk (run cfg events initialSession))
    as [Hsame | (Hrx & v & Hv & Hch)]; [left; exact Hsame|].
  right. split; [exact Hrx|]. exists v. split; [exact Hv|].
  destruct Hpend as [Hnone | (earlier & code & Hcodes & Hsome & Hc)].
  - left. rewrite Hnone in Hch. split; assumption.
  - right. rewrite Hsome in Hch.
    destruct (commandCodes_last cfg initialSession events earlier code Hcodes)
      as (before & port & after & baseBytes & Hev & Hrun & Hadv & Hcode & Hnone).
    exists before, port, after, baseBytes, code.
    split; [exact Hev|]. split; [exact Hrun|]. split; [exact Hadv|].
    split; [exact Hcode|]. split; [exact Hnone|]. split; [exact Hc | exact Hch].
Qed.

Lemma chart_points_at_sent_codes_witness :
  Forall (fun p =>
            exists before port after baseBytes,
              [Toggle; Tick PortWrites; Tick PortWrites; Receive exampleFrame;
               Toggle; Receive exampleFrame]
              = before ++ Tick port :: after
              /\ isAutoSending (run sweepFrom1Config before initialSession) = true
              /\ advances sweepFrom1Config baseBytes
                   (run sweepFrom1Config before initialSession)
              /\ x p = toFixed4 (frequencyOf
                         (counterRef (run sweepFrom1Config before initialSession))))
         (chartData
            (run sweepFrom1Config
               [Toggle; Tick PortWrites; Tick PortWrites; Receive exampleFrame;
                Toggle; Receive exampleFrame] initialSession)).
Proof.
  exact (proj1 (chart_points_at_sent_codes sweepFrom1Config
                  [Toggle; Tick PortWrites; Tick PortWrites; Receive exampleFrame;
                   Toggle; Receive exampleFrame] [])).
Defined.

(** A reply that arrives after a retry tick, and one that arrives after the
    sweep was stopped, are charted at the frequency of code 1, the last
    command built, while the counter is at 4. *)
Example points_after_retry_and_stop :
  let s := run sweepFrom1Config
             [Toggle; Tick PortWrites; Tick PortWrites; Receive exampleFrame;
              Toggle; Receive exampleFrame] initialSession in
  chartData s = [{| x := 4883 # 10000; y := 100 |};
                 {| x := 4883 # 10000; y := 100 |}]
  /\ counterRef s = 4
  /\ commandCodes sweepFrom1Config
       [Toggle; Tick PortWrites; Tick PortWrites; Receive exampleFrame;
        Toggle; Receive exampleFrame] initialSession = [1].
Proof. vm_compute. repeat split. Qed.

(* ------------------------------------------------------------------------- *)
(** ** Presentation state *)

Lemma displayedLogs_snoc (emitted : list LogEntry) (entry : LogEntry) :
  displayedLogs (emitted ++ [entry]) = appendLog (displayedLogs emitted) entry.
Proof. unfold displayedLogs. rewrite fold_left_app. reflexivity. Qed.

Lemma displayedLogs_last_500 (emitted : list LogEntry) :
  displayedLogs emitted = skipn (List.length emitted - 500) emitted.
Proof.
  induction emitted as [|entry emitted IH] using rev_ind; [reflexivity|].
  rewrite displayedLogs_snoc, IH. unfold appendLog. cbv zeta.
  rewrite !length_app, length_skipn. cbn [List.length].
  destruct (Nat.le_gt_cases 500 (List.length emitted)) as [Hbig | Hsmall].
  - replace (500 <? List.length emitted - (List.length emitted - 500) + 1)%nat
      with true by (symmetry; apply Nat.ltb_lt; lia).
    replace (List.length emitted - (List.length emitted - 500) + 1 - 500)%nat
      with 1%nat by lia.
    rewrite !skipn_app.
    replace (1 - List.length (skipn (List.length emitted - 500) emitted))%nat
      with 0%nat by (rewrite length_skipn; lia).
    replace (List.length emitted + 1 - 500 - List.length emitted)%nat
      with 0%nat by lia.
    rewrite skipn_skipn. cbn [skipn]. f_equal. f_equal. lia.
  - replace (List.length emitted - 500)%nat with 0%nat by lia.
    cbn [skipn]. rewrite Nat.sub_0_r.
    replace (500 <? List.length emitted + 1)%nat with false
      by (symmetry; apply Nat.ltb_ge; lia).
    replace (List.length emitted + 1 - 500)%nat with 0%nat by lia.
    reflexivity.
Qed.

(** X20.  The terminal shows the last 500 log lines.  After any sequence of
    calls to [addLog] the displayed list is the sequence with all but its
    last 500 entries dropped: never more than 500 lines, the newest always
    present, the order kept. *)
Theorem displayed_logs_are_last_500 (emitted : list LogEntry) :
  displayedLogs emitted = skipn (List.length emitted - 500) emitted
  /\ (List.length (displayedLogs emitted) <= 500)%nat
  /\ forall entry,
       last (displayedLogs (emitted ++ [entry])) entry = entry
       /\ displayedLogs (emitted ++ [entry]) <> [].
Proof.
  split; [apply displayedLogs_last_500|]. split.
  - rewrite displayedLogs_last_500, length_skipn. lia.
  - intros entry. rewrite displayedLogs_last_500, length_app. cbn [List.length].
    rewrite skipn_app.
    replace (List.length emitted + 1 - 500 - List.length emitted)%nat
      with 0%nat by lia.
    cbn [skipn]. split.
    + apply last_last.
    + intros H. apply app_eq_nil in H. destruct H as [_ H]. discriminate H.
Qed.

Lemma hexToUint8Array_length (input : string) (bytes : list Z) :
  hexToUint8Array input = Some bytes ->
  (2 * List.length bytes)%nat = String.length (stripNonHex input).
Proof.
  unfold hexToUint8Array. cbv zeta.
  pose proof (length_toUpperCase (stripNonHex input)) as Hlen.
  fold (cleanHexString input) in Hlen.
  destruct (Nat.even (String.length (cleanHexString input))) eqn:Heven;
    [|discriminate].
  intros H. injection H as <-. rewrite <- Hlen.
  apply hexPairs_length. exact Heven.
Qed.

(** X21.  The selector and the tick agree.  For a template that parses, the
    indices offered by the "TX: Modify Bytes" selector are exactly the
    target indices that pass the bounds check of [tickAutoSend]: 0 up to the
    number of bytes minus 2. *)
Theorem selector_offers_accepted_indices
  (cfg : Config) (baseBytes : list Z) (index : Z) :
  hexToUint8Array (sweepBaseHex cfg) = Some baseBytes ->
  (In index (targetIndexOptions cfg)
   <-> (index <? 0) || (Z.of_nat (List.length baseBytes) - 1 <=? index) = false)
  /\ currentBytesLength cfg = Z.of_nat (List.length baseBytes).
Proof.
  intros Hbase. pose proof (hexToUint8Array_length _ _ Hbase) as Hlen.
  assert (Hcur : currentBytesLength cfg = Z.of_nat (List.length baseBytes)).
  { unfold currentBytesLength. rewrite <- Hlen.
    rewrite Nat2Z.inj_mul. change (Z.of_nat 2) with 2.
    rewrite Z.mul_comm. apply Z.div_mul. lia. }
  split; [|exact Hcur].
  unfold targetIndexOptions. rewrite Hcur. split.
  - intros Hin. apply in_map_iff in Hin. destruct Hin as (i & <- & Hi).
    apply in_seq in Hi. apply orb_false_iff. split.
    + apply Z.ltb_ge. lia.
    + apply Z.leb_gt. lia.
  - intros Hok. apply orb_false_iff in Hok. destruct Hok as [Hlo Hhi].
    apply Z.ltb_ge in Hlo. apply Z.leb_gt in Hhi.
    apply in_map_iff. exists (Z.to_nat index). split; [lia|].
    apply in_seq. lia.
Qed.

Lemma selector_offers_accepted_indices_witness :
  currentBytesLength defaultConfig
  = Z.of_nat (List.length [5; 67; 70; 13; 70; 4; 0; 13]).
Proof.
  exact (proj2 (selector_offers_accepted_indices defaultConfig
                  [5; 67; 70; 13; 70; 4; 0; 13] 3 eq_refl)).
Defined.

(** The fold of [peakPoint], with what has been read so far split around the
    current maximum. *)
Lemma peak_fold (rest : list ChartDataPoint) :
  forall before m mid,
    (forall q, In q before -> y q < y m) ->
    (forall q, In q mid -> y q <= y m) ->
    exists before' after',
      before ++ m :: mid ++ rest
      = before'
        ++ fold_left (fun max current => if y max <? y current then current else max)
             rest m
        :: after'
      /\ (forall q, In q before' ->
            y q < y (fold_left
                       (fun max current => if y max <? y current then current else max)
                       rest m))
      /\ (forall q, In q after' ->
            y q <= y (fold_left
                        (fun max current => if y max <? y current then current else max)
                        rest m)).
Proof.
  induction rest as [|c rest IH]; intros before m mid Hb Hm.
  - exists before, mid. rewrite app_nil_r. cbn [fold_left]. auto.
  - cbn [fold_left]. destruct (y m <? y c) eqn:Hc.
    + apply Z.ltb_lt in Hc.
      destruct (IH (before ++ m :: mid) c []) as (b' & a' & Heq & H1 & H2).
      * intros q Hq. apply in_app_or in Hq. destruct Hq as [Hq | [<- | Hq]].
        -- specialize (Hb q Hq). lia.
        -- exact Hc.
        -- specialize (Hm q Hq). lia.
      * intros q [].
      * exists b', a'. split; [|split; assumption].
        rewrite <- Heq. rewrite <- app_assoc. reflexivity.
    + apply Z.ltb_ge in Hc.
      destruct (IH before m (mid ++ [c])) as (b' & a' & Heq & H1 & H2).
      * exact Hb.
      * intros q Hq. apply in_app_or in Hq. destruct Hq as [Hq | [<- | []]].
        -- exact (Hm q Hq).
        -- exact Hc.
      * exists b', a'. split; [|split; assumption].
        rewrite <- Heq. rewrite <- app_assoc. reflexivity.
Qed.

(** X22.  The peak marked on the chart.  [peakPoint] is [null] exactly on an
    empty chart; otherwise it is a point of the chart whose value is the
    largest, and the first such point: every point before it is strictly
    lower, every point after it is lower or equal. *)
Theorem peakPoint_is_first_maximum (data : list ChartDataPoint) :
  match peakPoint data with
  | None => data = []
  | Some peak =>
      exists before after,
        data = before ++ peak :: after
        /\ (forall q, In q before -> y q < y peak)
        /\ (forall q, In q after -> y q <= y peak)
  end.
Proof.
  destruct data as [|first rest]; [reflexivity|].
  unfold peakPoint. cbn [fold_left]. rewrite Z.ltb_irrefl.
  destruct (peak_fold rest [] first []) as (b' & a' & Heq & H1 & H2).
  - intros q [].
  - intros q [].
  - exists b', a'. split; [exact Heq|]. split; assumption.
Qed.

(* ------------------------------------------------------------------------- *)
(** ** The earlier revision *)

Lemma legacy_chartOf_snoc
  (points : list Legacy.ChartDataPoint) (point : Legacy.ChartDataPoint) :
  Legacy.chartOf (points ++ [point])
  = Legacy.pushPoint (Legacy.chartOf points) point.
Proof. unfold Legacy.chartOf. rewrite fold_left_app. reflexivity. Qed.

Lemma legacy_chartOf_last_51 (points : list Legacy.ChartDataPoint) :
  Legacy.chartOf points = skipn (List.length points - 51) points.
Proof.
  induction points as [|point points IH] using rev_ind; [reflexivity|].
  rewrite legacy_chartOf_snoc, IH. unfold Legacy.pushPoint. cbv zeta.
  rewrite length_skipn, length_app. cbn [List.length].
  destruct (Nat.le_gt_cases 51 (List.length points)) as [Hbig | Hsmall].
  - replace (50 <? List.length points - (List.length points - 51))%nat
      with true by (symmetry; apply Nat.ltb_lt; lia).
    change (tl (skipn (List.length points - 51) points))
      with (skipn 1 (skipn (List.length points - 51) points)).
    rewrite skipn_skipn, skipn_app.
    replace (List.length points + 1 - 51 - List.length points)%nat
      with 0%nat by lia.
    cbn [skipn]. f_equal. f_equal. lia.
  - replace (List.length points - 51)%nat with 0%nat by lia.
    cbn [skipn]. rewrite Nat.sub_0_r.
    replace (50 <? List.length points)%nat with false
      by (symmetry; apply Nat.ltb_ge; lia).
    replace (List.length points + 1 - 51)%nat with 0%nat by lia.
    reflexivity.
Qed.

(** X23.  The rolling chart of the earlier revision keeps 51 points, not 50:
    the oldest point is dropped only when more than 50 are held, before the
    new one is added.  After any sequence of pushes the chart is the
    sequence with all but its last 51 points dropped. *)
Theorem legacy_chart_keeps_last_51 (points : list Legacy.ChartDataPoint) :
  Legacy.chartOf points = skipn (List.length points - 51) points
  /\ (List.length (Legacy.chartOf points) <= 51)%nat
  /\ ((51 <= List.length points)%nat ->
      List.length (Legacy.chartOf points) = 51%nat).
Proof.
  split; [apply legacy_chartOf_last_51|].
  rewrite legacy_chartOf_last_51, length_skipn. lia.
Qed.

Lemma arraySet_nth_same (arr : list Z) (i v : Z) :
  0 <= i < Z.of_nat (List.length arr) ->
  nth_error (arraySet arr i v) (Z.to_nat i) = Some v.
Proof.
  intros Hi. unfold arraySet.
  replace (i <? 0) with false by (symmetry; apply Z.ltb_ge; lia).
  replace (i <? Z.of_nat (List.length arr)) with true
    by (symmetry; apply Z.ltb_lt; lia).
  rewrite nth_error_app2 by (rewrite length_firstn; lia).
  rewrite length_firstn.
  replace (Z.to_nat i - Nat.min (Z.to_nat i) (List.length arr))%nat
    with 0%nat by lia.
  reflexivity.
Qed.

Lemma arraySet_nth_other (arr : list Z) (i v : Z) (j : nat) :
  0 <= i < Z.of_nat (List.length arr) ->
  j <> Z.to_nat i ->
  nth_error (arraySet arr i v) j = nth_error arr j.
Proof.
  intros Hi Hj. unfold arraySet.
  replace (i <? 0) with false by (symmetry; apply Z.ltb_ge; lia).
  replace (i <? Z.of_nat (List.length arr)) with true
    by (symmetry; apply Z.ltb_lt; lia).
  destruct (Nat.lt_ge_cases j (Z.to_nat i)) as [Hlt | Hge].
  - rewrite nth_error_app1 by (rewrite length_firstn; lia).
    rewrite nth_error_firstn.
    replace (j <? Z.to_nat i)%nat with true
      by (symmetry; apply Nat.ltb_lt; exact Hlt).
    reflexivity.
  - rewrite nth_error_app2 by (rewrite length_firstn; lia).
    rewrite length_firstn.
    replace (Nat.min (Z.to_nat i) (List.length arr)) with (Z.to_nat i) by lia.
    destruct (j - Z.to_nat i)%nat as [|d] eqn:Hd; [lia|].
    cbn [nth_error]. rewrite nth_error_skipn. f_equal. lia.
Qed.

Lemma legacy_buildCommand_facts (baseBytes : list Z) (currentVal : Z) :
  (5 <= List.length baseBytes)%nat ->
  List.length (Legacy.buildCommand baseBytes currentVal) = List.length baseBytes
  /\ Forall isByte (Legacy.buildCommand baseBytes currentVal)
  /\ byteAt (Legacy.buildCommand baseBytes currentVal) 3
     = Some (fst (decimalToBytes currentVal))
  /\ byteAt (Legacy.buildCommand baseBytes currentVal) 4
     = Some (snd (decimalToBytes currentVal)).
Proof.
  intros Hlen. unfold Legacy.buildCommand.
  destruct (decimalToBytes_isByte currentVal) as [Hh Hl].
  destruct (decimalToBytes currentVal) as [high low]. cbn [fst snd] in *.
  assert (L1 : List.length (arraySet baseBytes 3 high) = List.length baseBytes)
    by (apply arraySet_length; lia).
  assert (L2 : List.length (arraySet (arraySet baseBytes 3 high) 4 low)
               = List.length baseBytes)
    by (rewrite arraySet_length; [exact L1 | lia]).
  split; [rewrite length_map; exact L2|]. split.
  - apply Forall_forall. intros b Hin. apply in_map_iff in Hin.
    destruct Hin as (a & <- & _). unfold isByte. apply Z.mod_pos_bound. lia.
  - unfold byteAt. cbn [Z.ltb Z.compare].
    rewrite !nth_error_map. split.
    + change (Z.to_nat 3) with 3%nat.
      rewrite (arraySet_nth_other _ 4 low 3) by (try rewrite L1; cbn; lia).
      change 3%nat with (Z.to_nat 3).
      rewrite arraySet_nth_same by lia. cbn [option_map].
      rewrite Z.mod_small by exact Hh. reflexivity.
    + rewrite arraySet_nth_same by (rewrite L1; lia). cbn [option_map].
      rewrite Z.mod_small by exact Hl. reflexivity.
Qed.

(** X24.  The earlier revision charts what it sends.  With a template of at
    least five bytes and a port that writes, a tick hands the port the
    template with its bytes 3 and 4 replaced by the counter, pushes on the
    chart the value read back from those two bytes, which is the counter
    modulo 65536, and moves the counter by 3; the sweep is left running, as
    no end is ever tested. *)
Theorem legacy_tick_charts_sent_counter
  (inputHex : string) (baseBytes : list Z) (s : Legacy.Session) :
  hexToUint8Array inputHex = Some baseBytes ->
  (5 <= List.length baseBytes)%nat ->
  let r := Legacy.tickAutoSend inputHex PortWrites s in
  Legacy.written r
  = Legacy.written s ++ [Legacy.buildCommand baseBytes (Legacy.counterRef s)]
  /\ Legacy.chartData r
     = Legacy.pushPoint (Legacy.chartData s)
         {| Legacy.sentValue := Some (Legacy.counterRef s mod 65536);
            Legacy.receivedValue := None |}
  /\ Legacy.counterRef r = Legacy.counterRef s + 3
  /\ Legacy.isAutoSending r = Legacy.isAutoSending s.
Proof.
  intros Hbase Hlen. cbv zeta. unfold Legacy.tickAutoSend. rewrite Hbase.
  replace (List.length baseBytes <? 5)%nat with false
    by (symmetry; apply Nat.ltb_ge; lia).
  cbv zeta.
  destruct (legacy_buildCommand_facts baseBytes (Legacy.counterRef s) Hlen)
    as (Lc & Bc & B3 & B4).
  unfold Legacy.sendData.
  rewrite hexToUint8Array_uint8ArrayToHex by exact Bc. cbv zeta.
  rewrite Lc.
  replace (5 <=? List.length baseBytes)%nat with true
    by (symmetry; apply Nat.leb_le; lia).
  rewrite B3, B4. cbn [operand].
  destruct (decimalToBytes_isByte (Legacy.counterRef s)) as [Hh Hl].
  rewrite bytesToDecimal_bytes by assumption.
  replace (256 * fst (decimalToBytes (Legacy.counterRef s))
           + snd (decimalToBytes (Legacy.counterRef s)))
    with (Legacy.counterRef s mod 65536).
  - destruct s. repeat split.
  - rewrite decimalToBytes_arith. cbn [fst snd].
    Z.div_mod_to_equations. lia.
Qed.

Lemma legacy_tick_charts_sent_counter_witness :
  Legacy.counterRef
    (Legacy.tickAutoSend "05 43 46 0D 46 04 00 0D" PortWrites
       (Legacy.toggleAutoSend Legacy.initialSession))
  = 0 + 3.
Proof.
  refine (proj1 (proj2 (proj2
    (legacy_tick_charts_sent_counter "05 43 46 0D 46 04 00 0D"
       [5; 67; 70; 13; 70; 4; 0; 13]
       (Legacy.toggleAutoSend Legacy.initialSession) eq_refl _)))).
  cbn. lia.
Defined.

(** X25.  What a sweep command carries.  For a template of bytes and a
    target index with room for two bytes, the command built for a counter
    has the length of the template, the template's bytes everywhere but at
    the target index and the next one, and there the two bytes of the
    counter in the configured order: read back in that order they give the
    counter modulo 65536. *)
Theorem buildCommand_carries_counter
  (cfg : Config) (baseBytes : list Z) (currentVal : Z) :
  Forall isByte baseBytes ->
  0 <= targetByteIndex cfg < Z.of_nat (List.length baseBytes) - 1 ->
  let command := buildCommand cfg baseBytes currentVal in
  let index := Z.to_nat (targetByteIndex cfg) in
  List.length command = List.length baseBytes
  /\ (forall j, j <> index -> j <> S index ->
                nth_error command j = nth_error baseBytes j)
  /\ exists b1 b2,
       nth_error command index = Some b1
       /\ nth_error command (S index) = Some b2
       /\ (if isBigEndian cfg then bytesToDecimal b1 b2 else bytesToDecimal b2 b1)
          = currentVal mod 65536.
Proof.
  intros Hbytes Hidx. cbv zeta.
  split; [apply buildCommand_length; exact Hidx|].
  assert (Hval : bytesToDecimal (fst (decimalToBytes currentVal))
                                (snd (decimalToBytes currentVal))
                 = currentVal mod 65536).
  { destruct (decimalToBytes_isByte currentVal) as [Hh Hl].
    rewrite bytesToDecimal_bytes by assumption.
    rewrite decimalToBytes_arith. cbn [fst snd].
    Z.div_mod_to_equations. lia. }
  unfold buildCommand.
  destruct (decimalToBytes_isByte currentVal) as [Hh Hl].
  destruct (decimalToBytes currentVal) as [high low]. cbn [fst snd] in *.
  assert (Hmod : forall b, isByte b -> b mod 256 = b)
    by (intros b Hb; apply Z.mod_small; exact Hb).
  assert (Hset : forall first second,
     isByte first -> isByte second ->
     (forall j, j <> Z.to_nat (targetByteIndex cfg) ->
                j <> S (Z.to_nat (targetByteIndex cfg)) ->
                nth_error
                  (map (fun v => v mod 256)
                     (arraySet (arraySet baseBytes (targetByteIndex cfg) first)
                        (targetByteIndex cfg + 1) second)) j
                = nth_error baseBytes j)
     /\ nth_error
          (map (fun v => v mod 256)
             (arraySet (arraySet baseBytes (targetByteIndex cfg) first)
                (targetByteIndex cfg + 1) second)) (Z.to_nat (targetByteIndex cfg))
        = Some first
     /\ nth_error
          (map (fun v => v mod 256)
             (arraySet (arraySet baseBytes (targetByteIndex cfg) first)
                (targetByteIndex cfg + 1) second)) (S (Z.to_nat (targetByteIndex cfg)))
        = Some second).
  { intros first second Hf Hsd.
    assert (L1 : List.length (arraySet baseBytes (targetByteIndex cfg) first)
                 = List.length baseBytes) by (apply arraySet_length; lia).
    split; [|split].
    - intros j Hj1 Hj2. rewrite nth_error_map.
      rewrite arraySet_nth_other by (try rewrite L1; lia).
      rewrite arraySet_nth_other by lia.
      destruct (nth_error baseBytes j) as [b|] eqn:Hb; [|reflexivity].
      cbn [option_map]. f_equal. apply Hmod.
      exact (proj1 (Forall_forall _ _) Hbytes b (nth_error_In _ _ Hb)).
    - rewrite nth_error_map.
      rewrite arraySet_nth_other by (try rewrite L1; lia).
      rewrite arraySet_nth_same by lia. cbn [option_map].
      rewrite (Hmod first Hf). reflexivity.
    - rewrite nth_error_map.
      replace (S (Z.to_nat (targetByteIndex cfg)))
        with (Z.to_nat (targetByteIndex cfg + 1)) by lia.
      rewrite arraySet_nth_same by (rewrite L1; lia). cbn [option_map].
      rewrite (Hmod second Hsd). reflexivity. }
  destruct (isBigEndian cfg).
  - destruct (Hset high low Hh Hl) as (Ho & H1 & H2).
    split; [exact Ho|]. exists high, low. repeat split; assumption.
  - destruct (Hset low high Hl Hh) as (Ho & H1 & H2).
    split; [exact Ho|]. exists low, high. repeat split; assumption.
Qed.

Lemma buildCommand_carries_counter_witness :
  List.length (buildCommand defaultConfig [5; 67; 70; 13; 70; 4; 0; 13] 70000)
  = List.length [5; 67; 70; 13; 70; 4; 0; 13].
Proof.
  refine (proj1 (buildCommand_carries_counter defaultConfig
                   [5; 67; 70; 13; 70; 4; 0; 13] 70000 _ _)).
  - repeat constructor; unfold isByte; lia.
  - cbn. lia.
Defined.

(** X26.  The lock is released by a valid packet and by nothing else.  In
    strict mode, while a reply is awaited, a chunk releases the lock exactly
    when the scan of the buffer finds a valid packet; when it finds none
    (noise, a bad footer, a payload out of range) the reply is still awaited,
    the live value is blanked and flagged invalid, and the valid-rx count,
    the chart and the pending frequency stay. *)
Theorem lock_released_iff_valid_packet
  (cfg : Config) (chunk : list Z) (s : Session) :
  enableHeaderCheck cfg = true ->
  waitingForResponseRef s = true ->
  let r := handleDataReceived cfg chunk s in
  (waitingForResponseRef r = false
   <-> findsValidPacket cfg (rxBuffer s ++ chunk))
  /\ (~ findsValidPacket cfg (rxBuffer s ++ chunk) ->
      waitingForResponseRef r = true
      /\ isRxInvalid r = true
      /\ lastReceivedValue r = None
      /\ rx (stats r) = rx (stats s)
      /\ chartData r = chartData s
      /\ pendingFrequencyRef r = pendingFrequencyRef s).
Proof.
  intros Hs Hw. cbv zeta.
  assert (Hno : ~ findsValidPacket cfg (rxBuffer s ++ chunk) ->
      waitingForResponseRef (handleDataReceived cfg chunk s) = true
      /\ isRxInvalid (handleDataReceived cfg chunk s) = true
      /\ lastReceivedValue (handleDataReceived cfg chunk s) = None
      /\ rx (stats (handleDataReceived cfg chunk s)) = rx (stats s)
      /\ chartData (handleDataReceived cfg chunk s) = chartData s
      /\ pendingFrequencyRef (handleDataReceived cfg chunk s)
         = pendingFrequencyRef s).
  { intros Hnone. rewrite handleDataReceived_strict by assumption.
    destruct (processRxBuffer_cases cfg (buffered chunk s))
      as [(k & p & _ & _ & _ & Heq) | (k & p & b1 & b2 & _ & _ & _ & Hfind & _)].
    - rewrite Heq. clear Heq. destruct_session s.
      cbn [waitingForResponseRef] in Hw. subst sWaiting.
      destruct (0 <? p); session_simpl; repeat split.
    - exfalso. apply Hnone. exact Hfind. }
  split; [|exact Hno]. split.
  - intros Hunlock.
    destruct (processRxBuffer_cases cfg (buffered chunk s))
      as [(k & p & _ & _ & Hnone & _) | (k & p & b1 & b2 & _ & _ & _ & Hfind & _)].
    + destruct (Hno Hnone) as (Hstill & _). congruence.
    + exact Hfind.
  - intros Hfind.
    destruct (handleDataReceived_valid cfg chunk s Hs Hfind)
      as (v & _ & _ & Hunlock & _).
    exact Hunlock.
Qed.

Lemma lock_released_iff_valid_packet_witness :
  waitingForResponseRef
    (handleDataReceived defaultConfig exampleFrame
       (tickAutoSend defaultConfig PortWrites
          (toggleAutoSend defaultConfig initialSession)))
  = false.
Proof.
  apply (proj1 (lock_released_iff_valid_packet defaultConfig exampleFrame
                  (tickAutoSend defaultConfig PortWrites
                     (toggleAutoSend defaultConfig initialSession))
                  eq_refl eq_refl)).
  exists initialSession. eexists. vm_compute. reflexivity.
Defined.
